(** * CodeLens chat-log analytics: sessions, activity status, collisions

    A shallow embedding of [chat_logs_analytics.py] (classes
    [ChatLogsAnalyzer] and [ChatLogsAPI]) and of the dashboard functions of
    [SupabaseAnalyticsService] in [supabase_integration.py], with the
    properties the specification states and further properties of the code.

    Conventions of the embedding.
    - A Python [str] is a [string]; the text primitives ([lower], [title],
      [count], [in], slicing) are written out below and agree with Python's
      on ASCII text.
    - A [datetime] is the number of microseconds since the Unix epoch, a
      [timedelta] a number of microseconds, both in [Z].  The datetimes of
      interactions and sessions are timezone-aware and lie in the years 1
      to 9999; whether the timestamp read from a log is timezone-aware is
      the field [has_utcoffset] of [PyLib], asked where the code compares
      the timestamp of a log with the clock.
    - A [float] is the rational it stands for.  [total_seconds()] and its
      division by 60 are computed in floats: [Float64.round] rounds the
      exact quotient as binary64 arithmetic does.
    - The [OverflowError] that Python raises for a cutoff beyond its dates
      is in [cutoff].  [Analyzer.calculate_developer_status] and
      [Analyzer.detect_team_collisions] are the two methods as they are
      called with any window; [calculate_developer_status] and
      [detect_team_collisions] are what they compute once the cutoff is
      there, which it is for the windows of 2 and 24 hours that the
      dashboard asks for.
    - A Python [int] is a [Z]; the success rates and confidences, quotients
      of two integers and decimal literals, are the rationals they denote.
    - A [dict] read by key is a [gmap] (a chat log maps its keys to strings);
      a [defaultdict(list)] whose iteration order the code relies on is an
      association list in insertion order.
    - A Python [set] of strings is the list of the strings put into it; the
      order in which Python iterates over it is a parameter ([set_iter]).
    - Library calls whose result is not computed by this repository
      ([datetime.fromisoformat], [strftime], [isoformat], [re.findall]) are
      the fields of the class [PyLib]; [round] on a float is the argument
      [round_ndigits] of the functions that call it, and [statistics.mean]
      is taken over the rationals.
    - Every reading of [datetime.now] is an argument of the function that
      reads the clock; the readings during the making of one dashboard are
      the fields of [DashboardClock.t].
    - What [fetch_chat_logs] gets from the database is an argument of the
      functions of the service. *)

From Stdlib Require Import ZArith QArith Qpower Qround Lia Lqa List Sorted
  Permutation.
From Stdlib Require Import Ascii String.
From stdpp Require Import base option list sorting strings pretty gmap.

Local Open Scope string_scope.
Local Open Scope list_scope.
Local Open Scope Z_scope.

(** ** Python text primitives *)

Module PyStr.

Definition is_upper (c : ascii) : bool :=
  let n := N_of_ascii c in ((65 <=? n) && (n <=? 90))%N.

Definition is_lower (c : ascii) : bool :=
  let n := N_of_ascii c in ((97 <=? n) && (n <=? 122))%N.

Definition lower_char (c : ascii) : ascii :=
  if is_upper c then ascii_of_N (N_of_ascii c + 32) else c.

Definition upper_char (c : ascii) : ascii :=
  if is_lower c then ascii_of_N (N_of_ascii c - 32) else c.

(** [s.lower()] *)
Fixpoint lower (s : string) : string :=
  match s with
  | EmptyString => EmptyString
  | String c s' => String (lower_char c) (lower s')
  end.

(** [s.title()]: a letter that follows a letter is lowered, any other
    letter is raised. *)
Fixpoint title_from (prev_cased : bool) (s : string) : string :=
  match s with
  | EmptyString => EmptyString
  | String c s' =>
      if is_upper c || is_lower c
      then String (if prev_cased then lower_char c else upper_char c)
                  (title_from true s')
      else String c (title_from false s')
  end.

Definition title (s : string) : string := title_from false s.

(** [s.startswith(p)] *)
Definition startswith (s p : string) : bool := String.prefix p s.

(** [sub in s] *)
Fixpoint contains (sub s : string) : bool :=
  String.prefix sub s ||
  match s with
  | EmptyString => false
  | String _ s' => contains sub s'
  end.

(** The scan of [s.count(sub)] for a non-empty [sub]: occurrences are
    counted from the left and do not overlap, so after a match the next
    [length sub - 1] characters are passed over. *)
Fixpoint count_from (sub : string) (skip : nat) (s : string) : Z :=
  match s with
  | EmptyString => 0
  | String _ s' =>
      match skip with
      | S k => count_from sub k s'
      | O =>
          if String.prefix sub s
          then 1 + count_from sub (String.length sub - 1) s'
          else count_from sub 0 s'
      end
  end.

(** [s.count(sub)] *)
Definition count (s sub : string) : Z :=
  match sub with
  | EmptyString => Z.of_nat (String.length s) + 1
  | _ => count_from sub 0 s
  end.

(** The scan of [s.replace(old, new)] for a non-empty [old]. *)
Fixpoint replace_from (old new : string) (skip : nat) (s : string) : string :=
  match s with
  | EmptyString => EmptyString
  | String c s' =>
      match skip with
      | S k => replace_from old new k s'
      | O =>
          if String.prefix old s
          then new +:+ replace_from old new (String.length old - 1) s'
          else String c (replace_from old new 0 s')
      end
  end.

(** [s.replace(old, new)] for a non-empty [old] *)
Definition replace (old new s : string) : string := replace_from old new 0 s.

(** [s[:n]] *)
Definition slice_to (n : nat) (s : string) : string := String.substring 0 n s.

(** [sep.join(l)] *)
Definition join (sep : string) (l : list string) : string := String.concat sep l.

(** [x in l] for a list of strings *)
Definition mem (x : string) (l : list string) : bool :=
  existsb (String.eqb x) l.

(** [s.upper()] *)
Fixpoint upper (s : string) : string :=
  match s with
  | EmptyString => EmptyString
  | String c s' => String (upper_char c) (upper s')
  end.

(** The ASCII characters [s.split()] splits at: tab to carriage return,
    the four separators 28 to 31, and the space. *)
Definition is_space (c : ascii) : bool :=
  let n := N_of_ascii c in
  (((9 <=? n) && (n <=? 13)) || ((28 <=? n) && (n <=? 31)) || (n =? 32))%N.

(** The scan of [s.split()]: [word] holds the characters read since the
    last white space. *)
Fixpoint split_from (word : string) (s : string) : list string :=
  match s with
  | EmptyString => match word with EmptyString => [] | _ => [word] end
  | String c s' =>
      if is_space c
      then match word with
           | EmptyString => split_from EmptyString s'
           | _ => word :: split_from EmptyString s'
           end
      else split_from (word +:+ String c EmptyString) s'
  end.

(** [s.split()] *)
Definition split (s : string) : list string := split_from EmptyString s.

End PyStr.

(** ** Python list primitives *)

Module PyList.

Section Sort.
Context {A : Type} (key : A -> Z).

(** Insertion that keeps [x] in front of the elements it ties with: [x]
    stood before them in the list being sorted. *)
Fixpoint insert_by (reverse : bool) (x : A) (l : list A) : list A :=
  match l with
  | [] => [x]
  | y :: l' =>
      if (if reverse then key y <=? key x else key x <=? key y)
      then x :: y :: l'
      else y :: insert_by reverse x l'
  end.

(** [l.sort(key=key, reverse=reverse)]: Python's sort is stable, also
    when reversed. *)
Definition sort (reverse : bool) (l : list A) : list A :=
  foldr (insert_by reverse) [] l.
End Sort.

(** [l[-n:]] for [n > 0] *)
Definition last_n {A} (n : nat) (l : list A) : list A :=
  drop (length l - n) l.

(** [d[k].append(v)] on a [defaultdict(list)]: a new key goes last in the
    iteration order. *)
Fixpoint defaultdict_append {K V} `{EqDecision K}
    (d : list (K * list V)) (k : K) (v : V) : list (K * list V) :=
  match d with
  | [] => [(k, [v])]
  | (k', vs) :: d' =>
      if decide (k' = k) then (k', vs ++ [v]) :: d'
      else (k', vs) :: defaultdict_append d' k v
  end.

(** [sum(...)] *)
Definition sum (l : list Z) : Z := foldr Z.add 0 l.

End PyList.

(** ** [collections.Counter] and [statistics.mean] *)

Module PyCollections.

(** [c[x] += 1]: a new key goes last in the iteration order. *)
Fixpoint count_one (c : list (string * Z)) (x : string) : list (string * Z) :=
  match c with
  | [] => [(x, 1)]
  | (k, n) :: c' =>
      if String.eqb k x then (k, n + 1) :: c' else (k, n) :: count_one c' x
  end.

(** [Counter(l)] *)
Definition Counter (l : list string) : list (string * Z) := foldl count_one [] l.

(** [c.most_common(n)]: [sorted(c.items(), key=itemgetter(1),
    reverse=True)[:n]], ties in the order of first occurrence. *)
Definition most_common (n : nat) (c : list (string * Z)) : list (string * Z) :=
  take n (PyList.sort snd true c).

End PyCollections.

Module PyStatistics.

(** [statistics.mean(l)] for a list that is not empty *)
Definition mean (l : list Q) : Q :=
  (foldr Qplus 0 l / inject_Z (Z.of_nat (length l)))%Q.

End PyStatistics.

(** ** Python floats *)

(** A float is the rational it stands for.  [Float64.round] is the rounding
    of IEEE 754 binary64 arithmetic, to the nearest number with a
    significand of 53 bits and of two nearest ones to the one with the even
    significand, for the numbers whose exponent the format holds (between
    [2 ^ -1022] and [2 ^ 1024] in magnitude, and zero). *)

Module Float64.
Local Open Scope Q_scope.

(** The integer nearest to [y], the even one of the two when [y] is half-way
    between them. *)
Definition nearest_even (y : Q) : Z :=
  let q := Qfloor y in
  match Qcompare (y - inject_Z q) (1 # 2) with
  | Lt => q
  | Gt => (q + 1)%Z
  | Eq => if Z.even q then q else (q + 1)%Z
  end.

(** [floor (log2 x)] for [0 < x] *)
Definition exponent (x : Q) : Z :=
  let l := (Z.log2 (Qnum x) - Z.log2 (Zpos (Qden x)))%Z in
  if Qle_bool (2 ^ l) x then l else (l - 1)%Z.

(** The nearest number [m * 2 ^ e] with a significand [m] of 53 bits. *)
Definition round_pos (x : Q) : Q :=
  let e := (exponent x - 52)%Z in
  inject_Z (nearest_even (x * 2 ^ (- e))) * 2 ^ e.

(** The float nearest to [x]. *)
Definition round (x : Q) : Q :=
  match Qnum x with
  | Z0 => 0
  | Zpos _ => round_pos x
  | Zneg _ => - round_pos (- x)
  end.

End Float64.

(** ** Outcomes of a call *)

Inductive exn : Type :=
| KeyError (key : string)
| ValueError
| IndexError
| OverflowError
| TypeError.

Inductive outcome (A : Type) : Type :=
| Returned (a : A)
| Raised (e : exn).
Arguments Returned {A} a.
Arguments Raised {A} e.

#[global] Instance outcome_ret : MRet outcome := fun _ a => Returned a.
#[global] Instance outcome_bind : MBind outcome := fun _ _ f m =>
  match m with
  | Returned a => f a
  | Raised e => Raised e
  end.

(** [for x in l: acc.append(f(x))], stopping at the first exception. *)
Fixpoint for_each {A B} (f : A -> outcome B) (l : list A) : outcome (list B) :=
  match l with
  | [] => Returned []
  | x :: l' => y ← f x; ys ← for_each f l'; mret (y :: ys)
  end.

(** ** Data model *)

Definition datetime := Z.
Definition timedelta := Z.

Definition microseconds_per_second : Z := 1000000.

(** [timedelta(hours=h)] *)
Definition timedelta_hours (h : Z) : timedelta :=
  h * 3600 * microseconds_per_second.

(** [timedelta(days=d)] *)
Definition timedelta_days (d : Z) : timedelta :=
  d * 86400 * microseconds_per_second.

(** [timedelta.min] and [timedelta.max]: a timedelta has at most 999999999
    days on either side of zero. *)
Definition timedelta_min : timedelta :=
  -999999999 * 86400 * microseconds_per_second.
Definition timedelta_max : timedelta :=
  1000000000 * 86400 * microseconds_per_second - 1.

Definition is_timedelta (delta : Z) : bool :=
  (timedelta_min <=? delta) && (delta <=? timedelta_max).

(** The float [x] computed from the timedelta [delta].  A difference of two
    Python datetimes is a timedelta; for a number beyond [timedelta.max],
    which no difference of datetimes is, [x] is left as it is. *)
Definition as_float (delta : timedelta) (x : Q) : Q :=
  if is_timedelta delta then Float64.round x else x.

(** [delta.total_seconds()]: the microseconds divided by [10 ** 6], a
    float. *)
Definition total_seconds (delta : timedelta) : Q :=
  as_float delta (delta # 1000000).

(** [delta.total_seconds() > secs] for an integer [secs]: Python compares
    the float with the integer exactly. *)
Definition total_seconds_gt (delta : timedelta) (secs : Z) : bool :=
  negb (Qle_bool (total_seconds delta) (inject_Z secs)).

(** [int(x)] of a float: the fraction is dropped. *)
Definition int_of_float (x : Q) : Z := Z.quot (Qnum x) (Zpos (Qden x)).

(** [int(delta.total_seconds() / 60)]: the division is one of floats. *)
Definition whole_minutes (delta : timedelta) : Z :=
  int_of_float (as_float delta (total_seconds delta / 60)).

(** [datetime.min.replace(tzinfo=timezone.utc)], 0001-01-01T00:00:00Z *)
Definition datetime_min : datetime := -62135596800 * microseconds_per_second.

(** [datetime.max.replace(tzinfo=timezone.utc)],
    9999-12-31T23:59:59.999999Z *)
Definition datetime_max : datetime :=
  253402300799 * microseconds_per_second + 999999.

Definition is_datetime (t : Z) : bool :=
  (datetime_min <=? t) && (t <=? datetime_max).

(** The making of a timedelta, [timedelta(hours=h)] or [timedelta(days=d)]:
    beyond 999999999 days Python raises [OverflowError]. *)
Definition new_timedelta (delta : Z) : outcome timedelta :=
  if is_timedelta delta then Returned delta else Raised OverflowError.

(** [t - delta] of a datetime and a timedelta: Python raises
    [OverflowError] when the result leaves the years 1 to 9999. *)
Definition datetime_sub (t : datetime) (delta : timedelta) : outcome datetime :=
  if is_datetime (t - delta) then Returned (t - delta) else Raised OverflowError.

(** [now - timedelta(...)], the cutoff of a window that ends at the clock
    reading [now]; [delta] is the length asked for. *)
Definition cutoff (now : datetime) (delta : Z) : outcome datetime :=
  delta ← new_timedelta delta; datetime_sub now delta.

Module ChatInteraction.
Record t : Type := mk {
  id : string;
  user_query : string;
  claude_response : string;
  user_id : string;
  project_id : string;
  interaction_timestamp : datetime;
  created_at : datetime;
  updated_at : datetime
}.
End ChatInteraction.

Module ConversationSession.
Record t : Type := mk {
  session_id : string;
  user_id : string;
  project_id : string;
  interactions : list ChatInteraction.t;
  start_time : datetime;
  end_time : datetime;
  duration_minutes : Z;
  files_mentioned : list string;
  features_discussed : list string;
  problems_encountered : list string;
  solutions_found : list string;
  success_indicators : Z;
  stuck_indicators : Z
}.
End ConversationSession.

Module DeveloperActivity.
Record t : Type := mk {
  user_id : string;
  project_id : string;
  current_task : string;
  status : string;
  last_activity : datetime;
  duration_minutes : Z;
  files_working_on : list string;
  recent_problems : list string;
  iteration_count : Z;
  success_rate : Q
}.
End DeveloperActivity.

(** The dictionary [_check_collision] returns. *)
Module Collision.
Record t : Type := mk {
  type : string;
  users : list string;
  resource : string;
  confidence : Q;
  detected_at : string;
  suggestion : string
}.
End Collision.

(** ** The Python library the analyzer calls *)

Class PyLib : Type := {
  (** [datetime.fromisoformat(s)]; [None] stands for its [ValueError] *)
  fromisoformat : string -> option datetime;
  (** whether [datetime.fromisoformat(s)] is timezone-aware, that is whether
      [s] states a UTC offset *)
  has_utcoffset : string -> bool;
  (** [t.strftime('%Y%m%d_%H%M%S')] *)
  strftime_ymd_hms : datetime -> string;
  (** [t.isoformat()] *)
  isoformat : datetime -> string;
  (** [re.findall(pattern, text, flags)] for a pattern with one group;
      the boolean is [re.IGNORECASE] *)
  re_findall : string -> string -> bool -> list string;
  (** the order in which Python iterates over the set holding the members
      of [l] *)
  set_iter : list string -> list string;
  set_iter_NoDup : forall l, NoDup (set_iter l);
  set_iter_elem : forall l x, x ∈ set_iter l <-> x ∈ l
}.

(** ** [ChatLogsAnalyzer] *)

Module CI := ChatInteraction.
Module CS := ConversationSession.
Module DA := DeveloperActivity.

Section ChatLogsAnalyzer.
Context {L : PyLib}.

(** *** [__init__]: the indicator and pattern tables *)

Definition success_indicators : list string :=
  [ "works"; "perfect"; "done"; "completed"; "success"; "fixed";
    "great"; "exactly"; "solved"; "working now"; "that's it";
    "perfect!"; "excellent"; "thank you"; "brilliant" ].

Definition stuck_indicators : list string :=
  [ "still not working"; "same error"; "tried everything";
    "doesn't work"; "keep getting"; "still failing"; "won't work";
    "same issue"; "no luck"; "still broken" ].

Definition problem_indicators : list string :=
  [ "error"; "bug"; "issue"; "problem"; "fail"; "broken";
    "not working"; "doesn't work"; "exception"; "crash" ].

Definition file_patterns : list string :=
  [ "(\w+\.\w+)";
    "(/[\w/\-\.]+\.\w+)";
    "(\w+/\w+)";
    "`([^`]+\.\w+)`" ].

Definition feature_patterns : list string :=
  [ "\b(auth|authentication|login|signup|logout)\b";
    "\b(payment|stripe|billing|checkout)\b";
    "\b(user|profile|account|registration)\b";
    "\b(api|endpoint|route|controller)\b";
    "\b(database|db|sql|query|migration)\b";
    "\b(dashboard|admin|panel)\b";
    "\b(email|notification|alert)\b";
    "\b(search|filter|sort)\b" ].

(** *** [parse_chat_logs] *)

(** [log[key]] *)
Definition getitem (log : gmap string string) (key : string) : outcome string :=
  match log !! key with
  | Some v => Returned v
  | None => Raised (KeyError key)
  end.

(** [datetime.fromisoformat(s.replace('Z', '+00:00'))] *)
Definition parse_timestamp (s : string) : outcome datetime :=
  match fromisoformat (PyStr.replace "Z" "+00:00" s) with
  | Some t => Returned t
  | None => Raised ValueError
  end.

Definition parse_chat_log (log : gmap string string) : outcome CI.t :=
  id ← getitem log "id";
  user_query ← getitem log "user_query";
  claude_response ← getitem log "claude_response";
  user_id ← getitem log "user_id";
  project_id ← getitem log "project_id";
  interaction_timestamp ← getitem log "interaction_timestamp" ≫= parse_timestamp;
  created_at ← getitem log "created_at" ≫= parse_timestamp;
  updated_at ← getitem log "updated_at" ≫= parse_timestamp;
  mret (CI.mk id user_query claude_response user_id project_id
              interaction_timestamp created_at updated_at).

Definition parse_chat_logs (chat_logs : list (gmap string string))
  : outcome (list CI.t) :=
  for_each parse_chat_log chat_logs.

(** *** The extractions of the summarizer *)

Definition _extract_files (text : string) : list string :=
  let files := flat_map (fun pattern => re_findall pattern text true) file_patterns in
  let filtered_files :=
    List.filter
      (fun file =>
         PyStr.contains "." file
         && (2 <? String.length file)%nat
         && negb (PyStr.startswith file ".")
         && negb (PyStr.mem (PyStr.lower file) ["www."; "http."; "https."]))
      (set_iter files) in
  take 10 (set_iter filtered_files).

Definition _extract_features (text : string) : list string :=
  let text_lower := PyStr.lower text in
  set_iter (flat_map (fun pattern => re_findall pattern text_lower false)
                     feature_patterns).

(** [text[:100] + "..." if len(text) > 100 else text] *)
Definition snippet (text : string) : string :=
  if (100 <? String.length text)%nat
  then PyStr.slice_to 100 text +:+ "..."
  else text.

(** [any(indicator in text for indicator in indicators)] *)
Definition any_in (indicators : list string) (text : string) : bool :=
  existsb (fun indicator => PyStr.contains indicator text) indicators.

Definition _extract_problems (user_queries : list string) : list string :=
  map snippet
      (List.filter (fun query => any_in problem_indicators (PyStr.lower query))
                   user_queries).

Definition _extract_solutions (claude_responses : list string) : list string :=
  map snippet
      (List.filter (fun response => any_in success_indicators (PyStr.lower response))
                   claude_responses).

Definition _count_indicators (text : string) (indicators : list string) : Z :=
  foldl (fun count indicator => count + PyStr.count text indicator) 0 indicators.

(** *** [_create_session]

    Both calls are guarded by [if current_session:], so the list of
    interactions arrives as its first member and the rest. *)

Definition _create_session (first : CI.t) (rest : list CI.t)
    (user_id project_id : string) (session_num : Z) : CS.t :=
  let interactions := first :: rest in
  let start_time := CI.interaction_timestamp first in
  let end_time := CI.interaction_timestamp (List.last rest first) in
  let duration := whole_minutes (end_time - start_time) in
  let all_text :=
    PyStr.join " "
      (map (fun i => CI.user_query i +:+ " " +:+ CI.claude_response i) interactions) in
  let files_mentioned := _extract_files all_text in
  let features_discussed := _extract_features all_text in
  let problems := _extract_problems (map CI.user_query interactions) in
  let solutions := _extract_solutions (map CI.claude_response interactions) in
  let success_count := _count_indicators (PyStr.lower all_text) success_indicators in
  let stuck_count := _count_indicators (PyStr.lower all_text) stuck_indicators in
  let session_id :=
    user_id +:+ "_" +:+ project_id +:+ "_" +:+ strftime_ymd_hms start_time
            +:+ "_" +:+ pretty session_num in
  CS.mk session_id user_id project_id interactions start_time end_time
        (Z.max duration 1)
        files_mentioned features_discussed problems solutions
        success_count stuck_count.

(** *** [group_into_sessions] *)

(** The variables of the loop over one person's sorted interactions. *)
Record walk : Type := mk_walk {
  current_session : list CI.t;
  session_counter : Z;
  sessions_so_far : list CS.t
}.

(** [sessions.append(self._create_session(current_session, ...))] under
    [if current_session:] *)
Definition save_session (user_id project_id : string) (w : walk) : list CS.t :=
  match current_session w with
  | [] => sessions_so_far w
  | first :: rest =>
      sessions_so_far w
        ++ [_create_session first rest user_id project_id (session_counter w)]
  end.

(** One turn of [for interaction in user_interactions]. *)
Definition walk_step (session_gap_minutes : Z) (user_id project_id : string)
    (w : walk) (interaction : CI.t) : walk :=
  match last (current_session w) with
  | Some previous =>
      if total_seconds_gt
           (CI.interaction_timestamp interaction - CI.interaction_timestamp previous)
           (session_gap_minutes * 60)
      then mk_walk [interaction] (session_counter w + 1)
                   (save_session user_id project_id w)
      else mk_walk (current_session w ++ [interaction]) (session_counter w)
                   (sessions_so_far w)
  | None =>
      mk_walk (current_session w ++ [interaction]) (session_counter w)
              (sessions_so_far w)
  end.

(** The body of [for (user_id, project_id), user_interactions in ...]. *)
Definition sessions_of_group (session_gap_minutes : Z) (sessions : list CS.t)
    (group : (string * string) * list CI.t) : list CS.t :=
  let '((user_id, project_id), user_interactions) := group in
  let sorted := PyList.sort CI.interaction_timestamp false user_interactions in
  let w := foldl (walk_step session_gap_minutes user_id project_id)
                 (mk_walk [] 1 sessions) sorted in
  save_session user_id project_id w.

Definition group_into_sessions (interactions : list CI.t)
    (session_gap_minutes : Z) : list CS.t :=
  let user_project_interactions :=
    foldl (fun d interaction =>
             PyList.defaultdict_append d
               (CI.user_id interaction, CI.project_id interaction) interaction)
          [] interactions in
  foldl (sessions_of_group session_gap_minutes) [] user_project_interactions.

(** *** Status classification *)

Definition _infer_current_task (session : CS.t) : string :=
  match CS.files_mentioned session with
  | file :: _ => "Working on " +:+ file
  | [] =>
      match CS.features_discussed session with
      | feature :: _ => PyStr.title feature +:+ " development"
      | [] =>
          match last (CS.problems_encountered session) with
          | Some problem => "Debugging: " +:+ PyStr.slice_to 50 problem +:+ "..."
          | None => "General development"
          end
      end
  end.

(** [sum(len(s.interactions) for s in sessions)] *)
Definition total_interactions_of (sessions : list CS.t) : Z :=
  PyList.sum (map (fun s => Z.of_nat (length (CS.interactions s))) sessions).

(** [sum(s.success_indicators for s in sessions)] *)
Definition total_success_of (sessions : list CS.t) : Z :=
  PyList.sum (map CS.success_indicators sessions).

(** [sum(s.stuck_indicators for s in sessions)] *)
Definition total_stuck_of (sessions : list CS.t) : Z :=
  PyList.sum (map CS.stuck_indicators sessions).

Definition _calculate_objective_status (sessions : list CS.t) : string :=
  match sessions with
  | [] => "idle"
  | _ :: _ =>
      let total_interactions := total_interactions_of sessions in
      let total_success := total_success_of sessions in
      let total_stuck := total_stuck_of sessions in
      if (0 <? total_success) && (total_interactions <=? 6) then "flow"
      else if (1 <? total_stuck)
              || ((10 <? total_interactions) && (total_success =? 0)) then "stuck"
      else if 6 <? total_interactions then "slow"
      else "flow"
  end.

(** The sessions of one person and project that end after the cutoff. *)
Definition recent_sessions_of (now : datetime) (sessions : list CS.t)
    (user_id project_id : string) (lookback_hours : Z) : list CS.t :=
  let cutoff_time := now - timedelta_hours lookback_hours in
  List.filter
    (fun s => String.eqb (CS.user_id s) user_id
              && String.eqb (CS.project_id s) project_id
              && (cutoff_time <? CS.end_time s))
    sessions.

(** [now] is the reading of [datetime.now(timezone.utc)].  The cutoff is
    taken as computed: [Analyzer.calculate_developer_status] is the call
    with the error of computing it. *)
Definition calculate_developer_status (now : datetime) (sessions : list CS.t)
    (user_id project_id : string) (lookback_hours : Z) : DA.t :=
  match recent_sessions_of now sessions user_id project_id lookback_hours with
  | [] =>
      DA.mk user_id project_id "No recent activity" "idle" datetime_min
            0 [] [] 0 0%Q
  | first :: others =>
      let recent_sessions := PyList.sort CS.end_time true (first :: others) in
      (* [recent_sessions[0]]: the sorted list has the members of a list
         that is not empty *)
      let latest_session := hd first recent_sessions in
      let current_task := _infer_current_task latest_session in
      let status := _calculate_objective_status recent_sessions in
      let total_interactions := total_interactions_of recent_sessions in
      let total_success := total_success_of recent_sessions in
      let total_duration := PyList.sum (map CS.duration_minutes recent_sessions) in
      let success_rate :=
        (total_success # Z.to_pos (Z.max total_interactions 1))%Q in
      let all_files := flat_map CS.files_mentioned recent_sessions in
      let all_problems := flat_map CS.problems_encountered recent_sessions in
      DA.mk user_id project_id current_task status
            (CS.end_time latest_session) total_duration
            (take 5 (set_iter all_files))
            (PyList.last_n 3 all_problems)
            total_interactions success_rate
  end.

(** *** Collision detection *)

(** [a.intersection(b)] on the members of two sets *)
Definition intersection (a b : list string) : list string :=
  List.filter (fun x => PyStr.mem x b) a.

(** [list(s)[0]] *)
Definition first_of_set (s : list string) : outcome string :=
  match set_iter s with
  | x :: _ => Returned x
  | [] => Raised IndexError
  end.

(** [now] is the reading of the clock when the dictionary is built. *)
Definition _check_collision (now : datetime) (sessions1 sessions2 : list CS.t)
    (user1 user2 : string) : outcome (option Collision.t) :=
  let files1 := flat_map CS.files_mentioned sessions1 in
  let features1 := flat_map CS.features_discussed sessions1 in
  let files2 := flat_map CS.files_mentioned sessions2 in
  let features2 := flat_map CS.features_discussed sessions2 in
  let file_overlap := intersection files1 files2 in
  match file_overlap with
  | _ :: _ =>
      resource ← first_of_set file_overlap;
      mret (Some (Collision.mk "file_collision" [user1; user2] resource
                    (9 # 10)%Q (isoformat now)
                    ("Coordinate work on " +:+ resource)))
  | [] =>
      let feature_overlap := intersection features1 features2 in
      match feature_overlap with
      | _ :: _ =>
          resource ← first_of_set feature_overlap;
          mret (Some (Collision.mk "feature_collision" [user1; user2] resource
                        (7 # 10)%Q (isoformat now)
                        ("Coordinate " +:+ resource +:+ " development")))
      | [] => mret None
      end
  end.

(** The two loops over [users]: [user1] against the users after it. *)
Fixpoint check_pairs (now_at : string -> string -> datetime)
    (user_activities : list (string * list CS.t)) : outcome (list Collision.t) :=
  match user_activities with
  | [] => mret []
  | (user1, sessions1) :: later =>
      found ← for_each
                (fun '(user2, sessions2) =>
                   _check_collision (now_at user1 user2) sessions1 sessions2 user1 user2)
                later;
      rest ← check_pairs now_at later;
      mret (omap (fun collision => collision) found ++ rest)
  end.

(** [now] is the clock read for the cutoff, [now_at user1 user2] the clock
    read when the pair is checked.  The cutoff is taken as computed:
    [Analyzer.detect_team_collisions] is the call with the error of
    computing it. *)
Definition detect_team_collisions (now : datetime)
    (now_at : string -> string -> datetime) (sessions : list CS.t)
    (project_id : string) (lookback_hours : Z) : outcome (list Collision.t) :=
  let cutoff_time := now - timedelta_hours lookback_hours in
  let recent_sessions :=
    List.filter
      (fun s => String.eqb (CS.project_id s) project_id
                && (cutoff_time <? CS.end_time s))
      sessions in
  let user_activities :=
    foldl (fun d session => PyList.defaultdict_append d (CS.user_id session) session)
          [] recent_sessions in
  check_pairs now_at user_activities.

End ChatLogsAnalyzer.

(** *** The calls with their cutoff

    [calculate_developer_status] and [detect_team_collisions] begin with
    [cutoff_time = datetime.now(timezone.utc) - timedelta(hours=lookback_hours)],
    which raises [OverflowError] when the timedelta or the cutoff is beyond
    what Python holds.  The definitions above are what the two methods
    compute once the cutoff is there; these are the methods as they are
    called with any [lookback_hours]. *)

Module Analyzer.
Section Calls.
Context {L : PyLib}.

Definition calculate_developer_status (now : datetime) (sessions : list CS.t)
    (user_id project_id : string) (lookback_hours : Z) : outcome DA.t :=
  _ ← cutoff now (timedelta_hours lookback_hours);
  mret (calculate_developer_status now sessions user_id project_id lookback_hours).

Definition detect_team_collisions (now : datetime)
    (now_at : string -> string -> datetime) (sessions : list CS.t)
    (project_id : string) (lookback_hours : Z) : outcome (list Collision.t) :=
  _ ← cutoff now (timedelta_hours lookback_hours);
  detect_team_collisions now now_at sessions project_id lookback_hours.

End Calls.
End Analyzer.

(** ** The dashboard: [generate_team_dashboard_data] and [ChatLogsAPI] *)

(** The dictionary [_activity_to_dict] returns. *)
Module ActivityDict.
Record t : Type := mk {
  user_id : string;
  project_id : string;
  current_task : string;
  status : string;
  last_activity : string;
  duration_minutes : Z;
  files_working_on : list string;
  recent_problems : list string;
  iteration_count : Z;
  success_rate : Q
}.
End ActivityDict.

(** The dictionary under ['project_metrics']. *)
Module ProjectMetrics.
Record t : Type := mk {
  total_interactions_24h : Z;
  active_developers : Z;
  files_being_worked_on : Z;
  average_success_rate : Q
}.
End ProjectMetrics.

(** The dictionary [generate_team_dashboard_data] returns. *)
Module Dashboard.
Record t : Type := mk {
  project_id : string;
  team_status : list ActivityDict.t;
  collisions : list Collision.t;
  project_metrics : ProjectMetrics.t;
  last_updated : string
}.
End Dashboard.

(** The readings of [datetime.now(timezone.utc)] during one call of
    [generate_team_dashboard_data]. *)
Module DashboardClock.
Record t : Type := mk {
  (** in [calculate_developer_status] for a person *)
  status_at : string -> datetime;
  (** for the cutoff of [detect_team_collisions] *)
  collisions_at : datetime;
  (** in [_check_collision] for a pair *)
  pair_at : string -> string -> datetime;
  (** for [cutoff_24h] *)
  metrics_at : datetime;
  (** for ['last_updated'] *)
  updated_at : datetime
}.
End DashboardClock.

(** The dictionary [get_developer_insights] returns. *)
Module Insights.
Record t : Type := mk {
  user_id : string;
  project_id : string;
  period_days : Z;
  total_sessions : Z;
  total_interactions : Z;
  avg_session_length : Q;
  most_worked_files : list (string * Z);
  focus_areas : list (string * Z);
  recent_activity : DA.t
}.
End Insights.

(** [[x for x in l if f(x)]], stopping at the first exception of [f]. *)
Fixpoint filter_each {A} (f : A -> outcome bool) (l : list A) : outcome (list A) :=
  match l with
  | [] => Returned []
  | x :: l' =>
      keep ← f x;
      kept ← filter_each f l';
      mret (if keep : bool then x :: kept else kept)
  end.

Section TeamDashboard.
Context {L : PyLib}.

(** [round(x, ndigits)] of the float or integer that [x] stands for *)
Variable round_ndigits : Q -> Z -> Q.

Definition _activity_to_dict (activity : DA.t) : ActivityDict.t :=
  ActivityDict.mk (DA.user_id activity) (DA.project_id activity)
    (DA.current_task activity) (DA.status activity)
    (isoformat (DA.last_activity activity)) (DA.duration_minutes activity)
    (DA.files_working_on activity) (DA.recent_problems activity)
    (DA.iteration_count activity) (round_ndigits (DA.success_rate activity) 2).

(** [calculate_developer_status] and [detect_team_collisions] are called
    with their default [lookback_hours], 2. *)
Definition generate_team_dashboard_data (clock : DashboardClock.t)
    (sessions : list CS.t) (project_id : string) : outcome Dashboard.t :=
  let project_sessions :=
    List.filter (fun s => String.eqb (CS.project_id s) project_id) sessions in
  let users := set_iter (map CS.user_id project_sessions) in
  let team_status :=
    map (fun user_id =>
           calculate_developer_status (DashboardClock.status_at clock user_id)
             sessions user_id project_id 2)
        users in
  collisions ← detect_team_collisions (DashboardClock.collisions_at clock)
                 (DashboardClock.pair_at clock) sessions project_id 2;
  let cutoff_24h := DashboardClock.metrics_at clock - timedelta_hours 24 in
  let recent_sessions :=
    List.filter (fun s => cutoff_24h <? CS.end_time s) project_sessions in
  let project_metrics :=
    ProjectMetrics.mk
      (total_interactions_of recent_sessions)
      (Z.of_nat (length (List.filter
                           (fun a => negb (String.eqb (DA.status a) "idle"))
                           team_status)))
      (Z.of_nat (length (set_iter (flat_map DA.files_working_on team_status))))
      (match team_status with
       | [] => 0%Q
       | _ :: _ => PyStatistics.mean (map DA.success_rate team_status)
       end) in
  mret (Dashboard.mk project_id (map _activity_to_dict team_status) collisions
          project_metrics (isoformat (DashboardClock.updated_at clock))).

(** *** [ChatLogsAPI] *)

(** [group_into_sessions] is called with its default [session_gap_minutes],
    30.  The timestamps of the logs are taken to be timezone-aware, as the
    comparisons with the clock in [generate_team_dashboard_data] need
    them. *)
Definition get_team_dashboard (clock : DashboardClock.t) (project_id : string)
    (chat_logs : list (gmap string string)) : outcome Dashboard.t :=
  interactions ← parse_chat_logs chat_logs;
  let sessions := group_into_sessions interactions 30 in
  generate_team_dashboard_data clock sessions project_id.

(** The condition of the comprehension that builds [recent_logs]: [and]
    reads the author only of a log that is recent, and the project only of
    a recent log of the author.  [cutoff_date] is timezone-aware, and
    Python raises [TypeError] when it compares it with a timestamp that is
    not. *)
Definition is_recent_log (cutoff_date : datetime) (user_id project_id : string)
    (log : gmap string string) : outcome bool :=
  text ← getitem log "interaction_timestamp";
  timestamp ← parse_timestamp text;
  if negb (has_utcoffset (PyStr.replace "Z" "+00:00" text)) then Raised TypeError
  else if cutoff_date <? timestamp
  then
    user ← getitem log "user_id";
    if String.eqb user user_id
    then
      project ← getitem log "project_id";
      mret (String.eqb project project_id)
    else mret false
  else mret false.

(** [now] is the clock read for [cutoff_date], [status_now] the clock read
    by [calculate_developer_status], which is called with its default
    window of 2 hours. *)
Definition get_developer_insights (now status_now : datetime)
    (user_id project_id : string) (chat_logs : list (gmap string string))
    (days : Z) : outcome Insights.t :=
  cutoff_date ← cutoff now (timedelta_days days);
  recent_logs ← filter_each (is_recent_log cutoff_date user_id project_id) chat_logs;
  interactions ← parse_chat_logs recent_logs;
  let sessions := group_into_sessions interactions 30 in
  let total_sessions := Z.of_nat (length sessions) in
  let total_interactions := total_interactions_of sessions in
  let avg_session_length :=
    match sessions with
    | [] => 0%Q
    | _ :: _ =>
        PyStatistics.mean
          (map (fun s => inject_Z (Z.of_nat (length (CS.interactions s)))) sessions)
    end in
  let all_files := flat_map CS.files_mentioned sessions in
  let all_features := flat_map CS.features_discussed sessions in
  mret (Insights.mk user_id project_id days total_sessions total_interactions
          (round_ndigits avg_session_length 1)
          (PyCollections.most_common 5 (PyCollections.Counter all_files))
          (PyCollections.most_common 5 (PyCollections.Counter all_features))
          (calculate_developer_status status_now sessions user_id project_id 2)).

End TeamDashboard.

(** ** [SupabaseAnalyticsService]: the dashboard in the frontend's format *)

(** The dictionary of a developer in the frontend's [Developer] format. *)
Module Developer.
Record t : Type := mk {
  id : string;
  name : string;
  avatar : string;
  currentTask : string;
  status : string;
  duration : string;
  fileName : option string
}.
End Developer.

Module FrontendCollision.
Record t : Type := mk {
  id : string;
  developers : list string;
  file : string;
  type : string
}.
End FrontendCollision.

Module StatusCounts.
Record t : Type := mk {
  active : Z;
  slow : Z;
  blocked : Z
}.
End StatusCounts.

(** The dictionary [_transform_to_frontend_format] returns;
    [metrics] is [None] for the empty dictionary. *)
Module Project.
Record t : Type := mk {
  id : string;
  name : string;
  activeDevelopers : Z;
  statusDistribution : StatusCounts.t;
  lastRefresh : string;
  hasCollisions : bool;
  developers : list Developer.t;
  collisions : list FrontendCollision.t;
  metrics : option ProjectMetrics.t
}.
End Project.

Section SupabaseAnalyticsService.
Context {L : PyLib}.
Variable round_ndigits : Q -> Z -> Q.

Definition _calculate_status_distribution (team_status : list ActivityDict.t)
  : StatusCounts.t :=
  foldl (fun status_counts dev =>
           let status := ActivityDict.status dev in
           if String.eqb status "flow"
           then StatusCounts.mk (StatusCounts.active status_counts + 1)
                  (StatusCounts.slow status_counts)
                  (StatusCounts.blocked status_counts)
           else if String.eqb status "slow"
           then StatusCounts.mk (StatusCounts.active status_counts)
                  (StatusCounts.slow status_counts + 1)
                  (StatusCounts.blocked status_counts)
           else if String.eqb status "stuck"
           then StatusCounts.mk (StatusCounts.active status_counts)
                  (StatusCounts.slow status_counts)
                  (StatusCounts.blocked status_counts + 1)
           else status_counts)
        (StatusCounts.mk 0 0 0) team_status.

(** [mapping.get(analytics_status, "flow")] *)
Definition _map_status (analytics_status : string) : string :=
  let mapping :=
    [ ("flow", "flow"); ("slow", "slow"); ("stuck", "blocked"); ("idle", "flow") ] in
  match List.find (fun entry => String.eqb (fst entry) analytics_status) mapping with
  | Some entry => snd entry
  | None => "flow"
  end.

Definition _format_user_name (user_id : string) : string :=
  PyStr.title (PyStr.replace "_" " " user_id).

(** The parts [split()] returns are not empty, so [part[0]] is
    [part[:1]]. *)
Definition _generate_avatar (user_id : string) : string :=
  match PyStr.split (PyStr.replace "_" " " user_id) with
  | part0 :: part1 :: _ =>
      PyStr.upper (PyStr.slice_to 1 part0 +:+ PyStr.slice_to 1 part1)
  | _ => PyStr.upper (PyStr.slice_to 2 user_id)
  end.

Definition _format_project_name (project_id : string) : string :=
  PyStr.title (PyStr.replace "_" " " project_id).

Definition _format_duration (minutes : Z) : string :=
  if minutes <? 60 then pretty minutes +:+ " min"
  else
    let hours := minutes / 60 in
    let remaining_minutes := minutes mod 60 in
    if remaining_minutes =? 0 then pretty hours +:+ " hr"
    else pretty hours +:+ "." +:+ pretty (remaining_minutes / 6) +:+ " hrs".

(** [now] is the reading of the clock; the bare [except] turns the
    [ValueError] of [fromisoformat] into ["Unknown"]. *)
Definition _format_last_refresh (now : datetime) (iso_timestamp : string) : string :=
  match fromisoformat (PyStr.replace "Z" "+00:00" iso_timestamp) with
  | None => "Unknown"
  | Some timestamp =>
      let diff := now - timestamp in
      if diff <? 60 * microseconds_per_second then "Just now"
      else if diff <? 3600 * microseconds_per_second
      then pretty (diff / (60 * microseconds_per_second)) +:+ " min ago"
      else pretty (diff / (3600 * microseconds_per_second)) +:+ " hr ago"
  end.

Definition _empty_dashboard_response (project_id : string) : Project.t :=
  Project.mk project_id (_format_project_name project_id) 0
    (StatusCounts.mk 0 0 0) "No recent activity" false [] [] None.

Definition _transform_to_frontend_format (now : datetime) (dashboard : Dashboard.t)
  : Project.t :=
  let transformed_developers :=
    map (fun dev =>
           Developer.mk (ActivityDict.user_id dev)
             (_format_user_name (ActivityDict.user_id dev))
             (_generate_avatar (ActivityDict.user_id dev))
             (ActivityDict.current_task dev)
             (_map_status (ActivityDict.status dev))
             (_format_duration (ActivityDict.duration_minutes dev))
             (head (ActivityDict.files_working_on dev)))
        (Dashboard.team_status dashboard) in
  let transformed_collisions :=
    imap (fun n collision =>
            FrontendCollision.mk ("collision_" +:+ pretty (Z.of_nat n))
              (Collision.users collision) (Collision.resource collision)
              (PyStr.replace "_collision" "" (Collision.type collision)))
         (Dashboard.collisions dashboard) in
  let status_dist := _calculate_status_distribution (Dashboard.team_status dashboard) in
  Project.mk (Dashboard.project_id dashboard)
    (_format_project_name (Dashboard.project_id dashboard))
    (Z.of_nat (length (List.filter
                         (fun dev => negb (String.eqb (ActivityDict.status dev) "idle"))
                         (Dashboard.team_status dashboard))))
    status_dist
    (_format_last_refresh now (Dashboard.last_updated dashboard))
    (0 <? Z.of_nat (length (Dashboard.collisions dashboard)))
    transformed_developers transformed_collisions
    (Some (Dashboard.project_metrics dashboard)).

(** [chat_logs] is what [fetch_chat_logs] returned, [now] the clock read by
    [_format_last_refresh]. *)
Definition get_team_dashboard_data (clock : DashboardClock.t) (now : datetime)
    (chat_logs : list (gmap string string)) (project_id : string)
  : outcome Project.t :=
  match chat_logs with
  | [] => mret (_empty_dashboard_response project_id)
  | _ :: _ =>
      dashboard ← get_team_dashboard round_ndigits clock project_id chat_logs;
      mret (_transform_to_frontend_format now dashboard)
  end.

End SupabaseAnalyticsService.

(** The dictionary under ['recent_activity'] of the empty insights. *)
Module EmptyActivity.
Record t : Type := mk {
  status : string;
  current_task : string;
  success_rate : Q
}.
End EmptyActivity.

(** The dictionary [_empty_insights_response] returns. *)
Module EmptyInsights.
Record t : Type := mk {
  user_id : string;
  project_id : string;
  total_sessions : Z;
  total_interactions : Z;
  avg_session_length : Z;
  most_worked_files : list (string * Z);
  focus_areas : list (string * Z);
  recent_activity : EmptyActivity.t
}.
End EmptyInsights.

Module Service.
Section ServiceInsights.
Context {L : PyLib}.
Variable round_ndigits : Q -> Z -> Q.

Definition _empty_insights_response (user_id project_id : string) : EmptyInsights.t :=
  EmptyInsights.mk user_id project_id 0 0 0 [] []
    (EmptyActivity.mk "idle" "No recent activity" 0%Q).

(** The condition of the comprehension that builds [user_logs]. *)
Definition is_user_log (user_id : string) (log : gmap string string) : outcome bool :=
  user ← getitem log "user_id";
  mret (String.eqb user user_id).

(** [SupabaseAnalyticsService.get_developer_insights]: [chat_logs] is what
    [fetch_chat_logs] returned, [now] and [status_now] are the clock
    readings of the call of [ChatLogsAPI.get_developer_insights]. *)
Definition get_developer_insights (now status_now : datetime)
    (chat_logs : list (gmap string string)) (user_id project_id : string)
    (days : Z) : outcome (EmptyInsights.t + Insights.t) :=
  user_logs ← filter_each (is_user_log user_id) chat_logs;
  match user_logs with
  | [] => mret (inl (_empty_insights_response user_id project_id))
  | _ :: _ =>
      insights ← get_developer_insights round_ndigits now status_now
                   user_id project_id user_logs days;
      mret (inr insights)
  end.

End ServiceInsights.
End Service.

(** The values of the dictionary the frontend gets for a project. *)
Inductive frontend_value : Type :=
| Text (s : string)
| Number (n : Z)
| Flag (b : bool)
| Counts (c : StatusCounts.t)
| Developers (l : list Developer.t)
| Collisions (l : list FrontendCollision.t)
| Metrics (m : option ProjectMetrics.t).

(** The dictionary that [Project.t] stands for, key by key, as
    [_transform_to_frontend_format] and [_empty_dashboard_response] build
    it. *)
Definition items (shown : Project.t) : list (string * frontend_value) :=
  [ ("id", Text (Project.id shown));
    ("name", Text (Project.name shown));
    ("activeDevelopers", Number (Project.activeDevelopers shown));
    ("statusDistribution", Counts (Project.statusDistribution shown));
    ("lastRefresh", Text (Project.lastRefresh shown));
    ("hasCollisions", Flag (Project.hasCollisions shown));
    ("developers", Developers (Project.developers shown));
    ("collisions", Collisions (Project.collisions shown));
    ("metrics", Metrics (Project.metrics shown)) ].

(** [d[key]] on a dictionary given by its items *)
Definition dict_getitem {V} (d : list (string * V)) (key : string) : outcome V :=
  match List.find (fun item => String.eqb (fst item) key) d with
  | Some item => Returned (snd item)
  | None => Raised (KeyError key)
  end.

Section ProjectList.
Context {L : PyLib}.
Variable round_ndigits : Q -> Z -> Q.

(** The dictionary appended for a project, and the test [if v:] on a
    value. What they compute from the values read is left open: the
    values are read first. *)
Context {Entry : Type}.
Variable truthy : frontend_value -> bool.
Variable make_entry :
  string -> frontend_value -> frontend_value -> frontend_value -> outcome Entry.

(** The body of [for project_id in project_ids], after the dashboard is
    there: the keys are read in the order in which Python evaluates the
    test and the dictionary display. *)
Definition project_entry (dashboard : list (string * frontend_value))
    (project_id : string) : outcome (option Entry) :=
  team_status ← dict_getitem dashboard "team_status";
  if truthy team_status
  then
    _ ← dict_getitem dashboard "team_status";
    _ ← dict_getitem dashboard "team_status";
    last_updated ← dict_getitem dashboard "last_updated";
    collisions ← dict_getitem dashboard "collisions";
    developers ← dict_getitem dashboard "team_status";
    entry ← make_entry project_id developers last_updated collisions;
    mret (Some entry)
  else mret None.

(** The body of [try]. [rows] is the column [project_id] of the rows the
    query returned, or what the query or reading the column raised;
    [fetched project_id] is what [fetch_chat_logs] returns for the project;
    [clock project_id] and [now project_id] are the clock readings while
    its dashboard is made. *)
Definition listed_projects (rows : outcome (list string))
    (fetched : string -> list (gmap string string))
    (clock : string -> DashboardClock.t) (now : string -> datetime)
  : outcome (list Entry) :=
  project_id_column ← rows;
  let project_ids := set_iter project_id_column in
  found ← for_each
            (fun project_id =>
               dashboard ← get_team_dashboard_data round_ndigits
                             (clock project_id) (now project_id)
                             (fetched project_id) project_id;
               project_entry (items dashboard) project_id)
            project_ids;
  mret (omap (fun entry => entry) (found : list (option Entry))).

(** [except Exception] turns every exception into the empty list. *)
Definition get_project_list (rows : outcome (list string))
    (fetched : string -> list (gmap string string))
    (clock : string -> DashboardClock.t) (now : string -> datetime)
  : list Entry :=
  match listed_projects rows fetched clock now with
  | Returned projects => projects
  | Raised _ => []
  end.

End ProjectList.

(** ** An instance of the library, to run the analyzer

    [fromisoformat] reads the form [YYYY-MM-DDTHH:MM:SS+HH:MM] (what the
    timestamps of the sample logs are once [Z] is replaced), [re_findall]
    answers for texts in which no pattern of the analyzer matches (texts
    without [.], [/], a back-tick and the feature keywords), and a set is
    iterated in the order of first insertion. *)

Module Calendar.

Definition digit (c : ascii) : option Z :=
  let n := N_of_ascii c in
  if ((48 <=? n) && (n <=? 57))%N then Some (Z.of_N n - 48) else None.

Fixpoint number_from (acc : Z) (s : string) : option Z :=
  match s with
  | EmptyString => Some acc
  | String c s' => d ← digit c; number_from (10 * acc + d) s'
  end.

(** The decimal number written at [s[i : i + n]]. *)
Definition field (i n : nat) (s : string) : option Z :=
  let piece := String.substring i n s in
  if (String.length piece =? n)%nat then number_from 0 piece else None.

Definition is_leap (y : Z) : bool :=
  ((y mod 4 =? 0) && negb (y mod 100 =? 0)) || (y mod 400 =? 0).

Definition days_in_month (y m : Z) : Z :=
  if m =? 2 then (if is_leap y then 29 else 28)
  else if (m =? 4) || (m =? 6) || (m =? 9) || (m =? 11) then 30
  else 31.

(** Days from 1970-01-01 to the given day of the proleptic Gregorian
    calendar. *)
Definition days_from_civil (y m d : Z) : Z :=
  let y' := if m <=? 2 then y - 1 else y in
  let era := y' / 400 in
  let yoe := y' - era * 400 in
  let doy := (153 * (if 2 <? m then m - 3 else m + 9) + 2) / 5 + d - 1 in
  let doe := yoe * 365 + yoe / 4 - yoe / 100 + doy in
  era * 146097 + doe - 719468.

Definition civil_from_days (z : Z) : Z * Z * Z :=
  let z := z + 719468 in
  let era := z / 146097 in
  let doe := z - era * 146097 in
  let yoe := (doe - doe / 1460 + doe / 36524 - doe / 146096) / 365 in
  let y := yoe + era * 400 in
  let doy := doe - (365 * yoe + yoe / 4 - yoe / 100) in
  let mp := (5 * doy + 2) / 153 in
  let d := doy - (153 * mp + 2) / 5 + 1 in
  let m := if mp <? 10 then mp + 3 else mp - 9 in
  (if m <=? 2 then y + 1 else y, m, d).

Definition char_at (i : nat) (s : string) : option ascii := String.get i s.

Definition fromisoformat (s : string) : option datetime :=
  if negb (String.length s =? 25)%nat then None else
  y ← field 0 4 s; mo ← field 5 2 s; d ← field 8 2 s;
  h ← field 11 2 s; mi ← field 14 2 s; sec ← field 17 2 s;
  oh ← field 20 2 s; om ← field 23 2 s;
  sign ← char_at 19 s;
  c4 ← char_at 4 s; c7 ← char_at 7 s; c13 ← char_at 13 s;
  c16 ← char_at 16 s; c22 ← char_at 22 s;
  if negb (Ascii.eqb c4 "-" && Ascii.eqb c7 "-" && Ascii.eqb c13 ":"
           && Ascii.eqb c16 ":" && Ascii.eqb c22 ":"
           && (Ascii.eqb sign "+" || Ascii.eqb sign "-")) then None else
  if negb ((1 <=? y) && (1 <=? mo) && (mo <=? 12) && (1 <=? d)
           && (d <=? days_in_month y mo) && (h <? 24) && (mi <? 60)
           && (sec <? 60) && (oh <? 24) && (om <? 60)) then None else
  let offset := (oh * 3600 + om * 60) * (if Ascii.eqb sign "+" then 1 else -1) in
  Some ((days_from_civil y mo d * 86400 + h * 3600 + mi * 60 + sec - offset)
        * microseconds_per_second).

(** A text of the form that [fromisoformat] above reads states its
    offset after the seconds. *)
Definition has_utcoffset (s : string) : bool :=
  match char_at 19 s with
  | Some sign => Ascii.eqb sign "+" || Ascii.eqb sign "-"
  | None => false
  end.

Definition digit_char (d : Z) : ascii := ascii_of_N (Z.to_N d + 48).

Definition pad2 (n : Z) : string :=
  String (digit_char (n / 10 mod 10)) (String (digit_char (n mod 10)) EmptyString).

Definition pad4 (n : Z) : string := pad2 (n / 100) +:+ pad2 n.

Definition strftime_ymd_hms (t : datetime) : string :=
  let secs := t / microseconds_per_second in
  let '(y, m, d) := civil_from_days (secs / 86400) in
  let sod := secs mod 86400 in
  pad4 y +:+ pad2 m +:+ pad2 d +:+ "_"
       +:+ pad2 (sod / 3600) +:+ pad2 (sod / 60 mod 60) +:+ pad2 (sod mod 60).

(** [isoformat] of a time in UTC with no fraction of a second. *)
Definition isoformat (t : datetime) : string :=
  let secs := t / microseconds_per_second in
  let '(y, m, d) := civil_from_days (secs / 86400) in
  let sod := secs mod 86400 in
  pad4 y +:+ "-" +:+ pad2 m +:+ "-" +:+ pad2 d +:+ "T"
       +:+ pad2 (sod / 3600) +:+ ":" +:+ pad2 (sod / 60 mod 60) +:+ ":"
       +:+ pad2 (sod mod 60) +:+ "+00:00".

End Calendar.

Definition sample_lib : PyLib := {|
  fromisoformat := Calendar.fromisoformat;
  has_utcoffset := Calendar.has_utcoffset;
  strftime_ymd_hms := Calendar.strftime_ymd_hms;
  isoformat := Calendar.isoformat;
  re_findall := fun _ _ _ => [];
  set_iter := remove_dups;
  set_iter_NoDup := NoDup_remove_dups;
  set_iter_elem := fun l x => elem_of_remove_dups l x
|}.

(** [round(x, ndigits)] for the runs, on the rationals and for
    [ndigits >= 0]: the nearest multiple of [10 ^ -ndigits], of two nearest
    ones the even one. *)
Definition sample_round (x : Q) (ndigits : Z) : Q :=
  let scale := 10 ^ ndigits in
  let numerator := Qnum x * scale in
  let denominator := Z.pos (Qden x) in
  let below := numerator / denominator in
  let twice_the_rest := 2 * (numerator mod denominator) in
  let nearest :=
    if twice_the_rest <? denominator then below
    else if denominator <? twice_the_rest then below + 1
    else if Z.even below then below else below + 1 in
  Qred (nearest # Z.to_pos scale).

(** A clock that reads [t] whenever it is read. *)
Definition steady_clock (t : datetime) : DashboardClock.t :=
  DashboardClock.mk (fun _ => t) t (fun _ _ => t) t t.

Definition minutes (n : Z) : datetime := n * 60 * microseconds_per_second.

Definition sample_log (id query response user ts : string) : gmap string string :=
  list_to_map
    [ ("id", id); ("user_query", query); ("claude_response", response);
      ("user_id", user); ("project_id", "ecommerce_app");
      ("interaction_timestamp", ts); ("created_at", ts); ("updated_at", ts) ].


(** ** Sample records

    The texts hold no [.], [/] or back-tick and none of the feature
    keywords, so that no file or feature pattern matches in them. *)

(** A turn of the person [dev] in the project [proj], [minute] minutes
    after the epoch. *)
Definition turn (id query response : string) (minute : Z) : CI.t :=
  CI.mk id query response "dev" "proj"
        (minutes minute) (minutes minute) (minutes minute).

(** Scenario A: turns at minutes 0, 5, 10 and 50. *)
Definition scenario_A : list CI.t :=
  [ turn "a" "how do I read the file" "open it first" 0;
    turn "b" "and then" "read it line by line" 5;
    turn "c" "what about closing it" "use a context manager" 10;
    turn "d" "one more thing" "go ahead" 50 ].

(** Two turns 18000000000.000001 seconds apart, in 1970 and in 2540: one
    microsecond more than 300000000 minutes. *)
Definition scenario_centuries_apart : list CI.t :=
  [ CI.mk "a" "first question" "first answer" "dev" "proj" 0 0 0;
    CI.mk "b" "second question" "second answer" "dev" "proj"
          18000000000000001 18000000000000001 18000000000000001 ].

(** Scenario B: "fixed" once, "still not working" twice, four turns. *)
Definition scenario_B : list CI.t :=
  [ turn "1" "it is still not working" "try the other branch" 0;
    turn "2" "hmm still not working" "look at the stack trace" 5;
    turn "3" "what about the cache" "clear it and rebuild" 10;
    turn "4" "that fixed it" "good" 15 ].

(** Two stuck signals and no success signal. *)
Definition scenario_stuck : list CI.t :=
  [ turn "1" "it is still not working" "try the other branch" 0;
    turn "2" "hmm still not working" "look at the stack trace" 5 ].

(** One turn whose text holds "works" twice. *)
Definition scenario_works_twice : list CI.t :=
  [ turn "1" "it works and the build works" "ok" 0 ].

(** One session with an older and a newer problem. *)
Definition scenario_two_problems : list CI.t :=
  [ turn "1" "first error here" "ok" 0;
    turn "2" "second bug here" "ok" 5 ].

(** An older session with three problems and a newer one with one. *)
Definition scenario_old_and_new_problems : list CI.t :=
  [ turn "1" "old error one" "ok" 0;
    turn "2" "old error two" "ok" 5;
    turn "3" "old error three" "ok" 10;
    turn "4" "new error" "ok" 60 ].

(** Two turns with one timestamp, the one with the greater id first. *)
Definition scenario_tied : list CI.t :=
  [ turn "b" "first error here" "ok" 0;
    turn "a" "second bug here" "ok" 0 ].

Definition good_log_1 : gmap string string :=
  sample_log "1" "hello there" "hi" "developer_1" "2024-01-15T10:30:00Z".

Definition good_log_2 : gmap string string :=
  sample_log "2" "thanks" "bye" "developer_1" "2024-01-15T10:35:00Z".

(** A log without the key [user_id]. *)
Definition log_without_author : gmap string string :=
  delete "user_id"
    (sample_log "x" "who am I" "no idea" "developer_2" "2024-01-15T10:32:00Z").

(** A log whose timestamp is no ISO date. *)
Definition log_with_bad_timestamp : gmap string string :=
  sample_log "y" "when is it" "no idea" "developer_2" "yesterday".

(** A log whose author is the empty string. *)
Definition log_with_empty_author : gmap string string :=
  sample_log "z" "who am I" "no idea" "" "2024-01-15T10:32:00Z".

(** The summary of a session of [user] in [proj] that refers to the given
    files and features. *)
Definition summary (user : string) (files features : list string) (minute : Z)
  : CS.t :=
  CS.mk (user +:+ "_proj") user "proj"
        [CI.mk "i" "q" "r" user "proj" (minutes minute) (minutes minute)
               (minutes minute)]
        (minutes minute) (minutes minute) 1 files features [] [] 0 0.

(** Scenario C: two people whose sessions both refer to [auth.js]. *)
Definition scenario_C : list CS.t :=
  [ summary "ann" ["auth.js"] ["auth"] 0;
    summary "bob" ["db.py"; "auth.js"] ["auth"] 5 ].

(** ** Vocabulary of the properties *)

(** The pairs of neighbours of a list. *)
Definition adjacent {A} (l : list A) : list (A * A) := zip l (tail l).

(** The gap threshold, in the unit of the timestamps. *)
Definition gap_microseconds (session_gap_minutes : Z) : Z :=
  session_gap_minutes * 60 * microseconds_per_second.

(** Chronological order of interactions. *)
Definition not_later (a b : CI.t) : Prop :=
  CI.interaction_timestamp a <= CI.interaction_timestamp b.

(** Two neighbours as the walk keeps them in one session: the second is not
    earlier than the first, and the seconds between them, as a float, are
    not found above the threshold. *)
Definition joined (session_gap_minutes : Z) (pair : CI.t * CI.t) : Prop :=
  CI.interaction_timestamp pair.1 <= CI.interaction_timestamp pair.2
  /\ total_seconds_gt
       (CI.interaction_timestamp pair.2 - CI.interaction_timestamp pair.1)
       (session_gap_minutes * 60) = false.

(** The thresholds up to [2 ^ 33] seconds (272 years): below them the float
    of a number of seconds tells it from the threshold whenever the two
    differ by a microsecond. *)
Definition exact_threshold (session_gap_minutes : Z) : Prop :=
  - 2 ^ 33 <= session_gap_minutes * 60 <= 2 ^ 33.

(** Two neighbours inside a session: the second is not earlier than the
    first and follows it within the threshold. *)
Definition close_enough (session_gap_minutes : Z) (pair : CI.t * CI.t) : Prop :=
  0 <= CI.interaction_timestamp pair.2 - CI.interaction_timestamp pair.1
    <= gap_microseconds session_gap_minutes.

(** Two neighbours within the threshold up to the rounding of a float, one
    part in [2 ^ 53]. *)
Definition close_up_to_rounding (session_gap_minutes : Z) (pair : CI.t * CI.t)
  : Prop :=
  0 <= CI.interaction_timestamp pair.2 - CI.interaction_timestamp pair.1
  /\ (CI.interaction_timestamp pair.2 - CI.interaction_timestamp pair.1)
       * (2 ^ 53 - 1)
     <= gap_microseconds session_gap_minutes * 2 ^ 53.

(** Two neighbouring sessions: the second starts no earlier than the first
    ends, and the gap between them exceeds the threshold. *)
Definition far_apart (session_gap_minutes : Z) (pair : CS.t * CS.t) : Prop :=
  CS.end_time pair.1 <= CS.start_time pair.2
  /\ gap_microseconds session_gap_minutes < CS.start_time pair.2 - CS.end_time pair.1.

(** A session spans its members: it has a first member, it starts at the
    first member's timestamp and ends at the last member's. *)
Definition spans_members (s : CS.t) : Prop :=
  exists first rest,
    CS.interactions s = first :: rest
    /\ CS.start_time s = CI.interaction_timestamp first
    /\ CS.end_time s = CI.interaction_timestamp (List.last rest first).

Section SegmentationInvariant.
Context {L : PyLib}.

(** A session as the walk saves it: built by [_create_session] from members
    that the walk kept together. *)
Definition saved_session (session_gap_minutes : Z) (user_id project_id : string)
    (s : CS.t) : Prop :=
  exists first rest n,
    s = _create_session first rest user_id project_id n
    /\ Forall (joined session_gap_minutes) (adjacent (first :: rest)).

(** What holds of the walk [w] after the interactions [l], with [new] the
    sessions saved so far. *)
Record walk_inv (session_gap_minutes : Z) (user_id project_id : string)
    (l : list CI.t) (w : walk) (new : list CS.t) : Prop := {
  wi_members : concat (map CS.interactions new) ++ current_session w = l;
  wi_saved : Forall (saved_session session_gap_minutes user_id project_id) new;
  wi_current :
    Forall (joined session_gap_minutes) (adjacent (current_session w));
  wi_apart : Forall (far_apart session_gap_minutes) (adjacent new);
  wi_boundary :
    forall s x, last new = Some s -> head (current_session w) = Some x ->
      CS.end_time s <= CI.interaction_timestamp x
      /\ gap_microseconds session_gap_minutes
         < CI.interaction_timestamp x - CS.end_time s;
  wi_open : current_session w = [] -> new = [];
  wi_counter : session_counter w = 1 + Z.of_nat (length new)
}.

End SegmentationInvariant.

Section ParsedLogs.
Context {L : PyLib}.

(** The keys [parse_chat_logs] reads, in the order it reads them. *)
Definition log_fields : list string :=
  [ "id"; "user_query"; "claude_response"; "user_id"; "project_id";
    "interaction_timestamp"; "created_at"; "updated_at" ].

Definition timestamp_fields : list string :=
  [ "interaction_timestamp"; "created_at"; "updated_at" ].

(** A log that has every key and whose timestamps can be read. *)
Definition well_formed (log : gmap string string) : Prop :=
  Forall (fun key => is_Some (log !! key)) log_fields
  /\ Forall (fun key =>
               forall v, log !! key = Some v ->
                         is_Some (fromisoformat (PyStr.replace "Z" "+00:00" v)))
            timestamp_fields.

(** The time a timestamp field of a log reads as. *)
Definition reads_time (log : gmap string string) (key : string) (t : datetime)
  : Prop :=
  exists v, log !! key = Some v
            /\ fromisoformat (PyStr.replace "Z" "+00:00" v) = Some t.

(** The interaction holds the fields of the log as they are. *)
Definition read_from (log : gmap string string) (i : CI.t) : Prop :=
  log !! "id" = Some (CI.id i)
  /\ log !! "user_query" = Some (CI.user_query i)
  /\ log !! "claude_response" = Some (CI.claude_response i)
  /\ log !! "user_id" = Some (CI.user_id i)
  /\ log !! "project_id" = Some (CI.project_id i)
  /\ reads_time log "interaction_timestamp" (CI.interaction_timestamp i)
  /\ reads_time log "created_at" (CI.created_at i)
  /\ reads_time log "updated_at" (CI.updated_at i).

End ParsedLogs.

(** The sessions of a person that collision detection looks at: those of
    the project that end after the cutoff. *)
Definition sessions_in_window (now : datetime) (sessions : list CS.t)
    (project_id : string) (lookback_hours : Z) (user_id : string) : list CS.t :=
  List.filter
    (fun s => String.eqb (CS.user_id s) user_id)
    (List.filter
       (fun s => String.eqb (CS.project_id s) project_id
                 && (now - timedelta_hours lookback_hours <? CS.end_time s))
       sessions).

(** The dictionary [user_activities] of [detect_team_collisions]: the
    sessions of the project inside the window, by person. *)
Definition user_activities_of (now : datetime) (sessions : list CS.t)
    (project_id : string) (lookback_hours : Z) : list (string * list CS.t) :=
  foldl (fun d session => PyList.defaultdict_append d (CS.user_id session) session)
        []
        (List.filter
           (fun s => String.eqb (CS.project_id s) project_id
                     && (now - timedelta_hours lookback_hours <? CS.end_time s))
           sessions).

Definition files_of (sessions : list CS.t) : list string :=
  flat_map CS.files_mentioned sessions.

Definition features_of (sessions : list CS.t) : list string :=
  flat_map CS.features_discussed sessions.

(** Two collections have a member in common. *)
Definition share (a b : list string) : Prop := exists x, x ∈ a /\ x ∈ b.

(** The warning is about the unordered pair of the two people. *)
Definition about (u1 u2 : string) (w : Collision.t) : Prop :=
  Collision.users w = [u1; u2] \/ Collision.users w = [u2; u1].

#[global] Instance about_dec (u1 u2 : string) (w : Collision.t) :
  Decision (about u1 u2 w).
Proof. unfold about. apply _. Defined.

Section FoundPairs.
Context {L : PyLib}.

(** What a call that did not raise returned. *)
Definition value_of {A} (o : outcome (option A)) : option A :=
  match o with
  | Returned v => v
  | Raised _ => None
  end.

(** The warnings of the pairs of a list of people, each person against the
    people after it. *)
Fixpoint found_pairs (now_at : string -> string -> datetime)
    (user_activities : list (string * list CS.t)) : list Collision.t :=
  match user_activities with
  | [] => []
  | (user1, sessions1) :: later =>
      omap (fun '(user2, sessions2) =>
              value_of (_check_collision (now_at user1 user2)
                          sessions1 sessions2 user1 user2))
           later
      ++ found_pairs now_at later
  end.

(** The warning of a pair that has a file in common. *)
Definition file_warning (now : datetime) (user1 user2 resource : string)
  : Collision.t :=
  Collision.mk "file_collision" [user1; user2] resource (9 # 10)%Q
               (isoformat now) ("Coordinate work on " +:+ resource).

(** The warning of a pair that has a feature in common. *)
Definition feature_warning (now : datetime) (user1 user2 resource : string)
  : Collision.t :=
  Collision.mk "feature_collision" [user1; user2] resource (7 # 10)%Q
               (isoformat now) ("Coordinate " +:+ resource +:+ " development").

End FoundPairs.

(** A warning with its [detected_at] field blanked. *)
Definition without_time (w : Collision.t) : Collision.t :=
  Collision.mk (Collision.type w) (Collision.users w) (Collision.resource w)
               (Collision.confidence w) "" (Collision.suggestion w).

(** The interactions stamped [t], in the order of the list. *)
Definition stamped (t : datetime) (l : list CI.t) : list CI.t :=
  List.filter (fun i => CI.interaction_timestamp i =? t) l.

(** The records of one person and project, in the order of the list. *)
Definition records_of (user_id project_id : string) (l : list CI.t) : list CI.t :=
  List.filter
    (fun i => String.eqb (CI.user_id i) user_id
              && String.eqb (CI.project_id i) project_id) l.

(** The sessions of one person and project, in the order of the list. *)
Definition sessions_of (user_id project_id : string) (l : list CS.t) : list CS.t :=
  List.filter
    (fun s => String.eqb (CS.user_id s) user_id
              && String.eqb (CS.project_id s) project_id) l.

(** One minute, in the unit of the timestamps. *)
Definition minute_microseconds : Z := 60 * microseconds_per_second.

(** The indicators of a table are not empty strings. *)
Definition nonempty_indicators (indicators : list string) : Prop :=
  Forall (fun indicator => indicator <> "") indicators.

(** The text of one turn, as [_create_session] joins it. *)
Definition turn_text (i : CI.t) : string :=
  CI.user_query i +:+ " " +:+ CI.claude_response i.

(** What [text[:100] + "..." if len(text) > 100 else text] is. *)
Definition cut_of (text cut : string) : Prop :=
  ((String.length text <= 100)%nat /\ cut = text)
  \/ ((100 < String.length text)%nat
      /\ exists head, cut = head +:+ "..."
                      /\ String.prefix head text = true
                      /\ String.length head = 100%nat).

(** What the filter of [_extract_files] lets through. *)
Definition plausible_file (file : string) : Prop :=
  PyStr.contains "." file = true
  /\ (3 <= String.length file)%nat
  /\ PyStr.startswith file "." = false
  /\ PyStr.lower file ∉ ["www."; "http."; "https."].

Section Matches.
Context {L : PyLib}.

(** [file] is a match of one of the file patterns in [text]. *)
Definition file_match (text file : string) : Prop :=
  exists pattern, pattern ∈ file_patterns /\ file ∈ re_findall pattern text true.

(** [feature] is a match of one of the feature patterns in [text]. *)
Definition feature_match (text feature : string) : Prop :=
  exists pattern,
    pattern ∈ feature_patterns /\ feature ∈ re_findall pattern text false.

End Matches.

(** The four states of the classification. *)
Definition analyzer_states : list string := ["idle"; "flow"; "slow"; "stuck"].

(** The people with a session in the project. *)
Definition project_users (sessions : list CS.t) (project_id : string) : list string :=
  map CS.user_id
      (List.filter (fun s => String.eqb (CS.project_id s) project_id) sessions).

(** The readings of the clock for the statuses are at most [hours] hours
    before the reading for the metrics. *)
Definition statuses_read_within (hours : Z) (clock : DashboardClock.t) : Prop :=
  forall u, DashboardClock.metrics_at clock - DashboardClock.status_at clock u
            <= timedelta_hours hours.

(** The clock is read for the statuses before it is read for the cutoff
    of the collisions. *)
Definition statuses_read_first (clock : DashboardClock.t) : Prop :=
  forall u, DashboardClock.status_at clock u <= DashboardClock.collisions_at clock.


(** The number of sessions that mention [x]. *)
Definition mentioning (mentions : CS.t -> list string) (x : string)
    (sessions : list CS.t) : Z :=
  Z.of_nat (length (List.filter (fun s => PyStr.mem x (mentions s)) sessions)).

(** [ranking] ranks what the sessions mention: at most five entries with
    different keys, each with the number of sessions that mention it, the
    larger numbers first, and nothing left out is mentioned by more
    sessions than an entry. *)
Definition ranks (mentions : CS.t -> list string) (sessions : list CS.t)
    (ranking : list (string * Z)) : Prop :=
  (length ranking <= 5)%nat
  /\ NoDup ranking.*1
  /\ StronglySorted (fun a b => snd b <= snd a) ranking
  /\ (forall x n, (x, n) ∈ ranking ->
        n = mentioning mentions x sessions
        /\ 1 <= n <= Z.of_nat (length sessions))
  /\ (forall x s, s ∈ sessions -> x ∈ mentions s -> x ∉ ranking.*1 ->
        length ranking = 5%nat
        /\ forall e, e ∈ ranking -> mentioning mentions x sessions <= snd e).

(** [c[k]] on a [Counter] *)
Definition counted (c : list (string * Z)) (k : string) : Z :=
  match List.find (fun e => String.eqb (fst e) k) c with
  | Some e => snd e
  | None => 0
  end.

(** The occurrences of [x] in [l] *)
Definition occurrences (x : string) (l : list string) : Z :=
  Z.of_nat (length (List.filter (String.eqb x) l)).

(** The number of members of [l] whose state is [state]. *)
Definition in_state {A} (status : A -> string) (state : string) (l : list A) : Z :=
  Z.of_nat (length (List.filter (fun a => String.eqb (status a) state) l)).

(** No character of [s] is an underscore. *)
Fixpoint no_underscore (s : string) : Prop :=
  match s with
  | EmptyString => True
  | String c s' => c <> "_"%char /\ no_underscore s'
  end.

(** The characters of the parts of a split. *)
Definition total_length (parts : list string) : nat :=
  list_sum (map String.length parts).

Section DashboardVocabulary.
Context {L : PyLib}.

(** The status records of a dashboard, before [_activity_to_dict]. *)
Definition team_of (clock : DashboardClock.t) (sessions : list CS.t)
    (project_id : string) : list DA.t :=
  map (fun user_id =>
         calculate_developer_status (DashboardClock.status_at clock user_id)
           sessions user_id project_id 2)
      (set_iter (project_users sessions project_id)).

(** A log whose timestamp, if it has one, states its UTC offset: the
    datetime read from it is timezone-aware. *)
Definition stamped_with_offset (log : gmap string string) : Prop :=
  forall text, log !! "interaction_timestamp" = Some text ->
               has_utcoffset (PyStr.replace "Z" "+00:00" text) = true.

(** A log of the person and project with a timestamp after the cutoff. *)
Definition recent_log (cutoff_date : datetime) (user_id project_id : string)
    (log : gmap string string) : Prop :=
  exists t, reads_time log "interaction_timestamp" t /\ cutoff_date < t
            /\ log !! "user_id" = Some user_id
            /\ log !! "project_id" = Some project_id.

End DashboardVocabulary.

(** * Properties *)

(** ** Text primitives *)

Lemma app_cons (c : ascii) (s t : string) :
  String c s +:+ t = String c (s +:+ t).
Proof. reflexivity. Qed.

Lemma app_empty (t : string) : EmptyString +:+ t = t.
Proof. reflexivity. Qed.

Lemma prefix_app (sub rest : string) : String.prefix sub (sub +:+ rest) = true.
Proof.
  induction sub as [|c sub IH]; [now destruct rest|].
  rewrite app_cons. simpl.
  destruct (ascii_dec c c) as [_|ne]; [exact IH | now destruct ne].
Qed.

Lemma string_app_assoc (a b c : string) : (a +:+ b) +:+ c = a +:+ (b +:+ c).
Proof.
  induction a as [|x a IH]; [reflexivity|].
  rewrite !app_cons. now rewrite IH.
Qed.

Lemma lower_app (a b : string) :
  PyStr.lower (a +:+ b) = PyStr.lower a +:+ PyStr.lower b.
Proof.
  induction a as [|x a IH]; [reflexivity|].
  rewrite app_cons. simpl. now rewrite IH, app_cons.
Qed.

Lemma count_from_nonneg (sub : string) (s : string) :
  forall skip, 0 <= PyStr.count_from sub skip s.
Proof.
  induction s as [|c s IH]; intros skip; cbn [PyStr.count_from]; [lia|].
  destruct skip as [|k]; [|apply IH].
  destruct (String.prefix sub (String c s)).
  - match goal with
    | |- context [PyStr.count_from sub ?k s] => specialize (IH k)
    end. lia.
  - apply IH.
Qed.

Lemma count_nonneg (s sub : string) : 0 <= PyStr.count s sub.
Proof.
  destruct sub as [|c sub]; simpl; [lia | apply count_from_nonneg].
Qed.

(** A text in which [sub] occurs counts it at least once. *)
Lemma count_occurs (sub before after : string) :
  sub <> EmptyString -> 1 <= PyStr.count (before +:+ sub +:+ after) sub.
Proof.
  intros ne. destruct sub as [|c sub]; [congruence|]. unfold PyStr.count.
  induction before as [|x before IH].
  - change (EmptyString +:+ String c sub +:+ after)
      with (String c (sub +:+ after)).
    cbn [PyStr.count_from].
    change (String c (sub +:+ after)) with (String c sub +:+ after).
    rewrite prefix_app.
    pose proof (count_from_nonneg (String c sub) (sub +:+ after)
                  (String.length (String c sub) - 1)). lia.
  - change (String x before +:+ String c sub +:+ after)
      with (String x (before +:+ String c sub +:+ after)).
    cbn [PyStr.count_from].
    destruct (String.prefix _ _); [|exact IH].
    pose proof (count_from_nonneg (String c sub)
                  (before +:+ String c sub +:+ after)
                  (String.length (String c sub) - 1)). lia.
Qed.

Lemma foldl_add_sum {A} (f : A -> Z) (l : list A) (a : Z) :
  foldl (fun count x => count + f x) a l = a + PyList.sum (map f l).
Proof.
  revert a. induction l as [|x l IH]; intros a; simpl; [lia|].
  rewrite IH. unfold PyList.sum. lia.
Qed.

Lemma count_indicators_sum (text : string) (indicators : list string) :
  _count_indicators text indicators
  = PyList.sum (map (PyStr.count text) indicators).
Proof. unfold _count_indicators. now rewrite foldl_add_sum. Qed.

Lemma count_indicators_nonneg (text : string) (indicators : list string) :
  0 <= _count_indicators text indicators.
Proof.
  rewrite count_indicators_sum.
  induction indicators as [|i l IH]; simpl; [lia|].
  pose proof (count_nonneg text i). unfold PyList.sum in *. lia.
Qed.

Lemma perfect_counts_twice (before after : string) :
  2 <= _count_indicators (before +:+ "perfect!" +:+ after) success_indicators.
Proof.
  rewrite count_indicators_sum. set (text := before +:+ "perfect!" +:+ after).
  assert (1 <= PyStr.count text "perfect") as H1.
  { subst text.
    change ("perfect!" +:+ after) with ("perfect" +:+ ("!" +:+ after)).
    now apply count_occurs. }
  assert (1 <= PyStr.count text "perfect!") as H2.
  { subst text. now apply count_occurs. }
  unfold success_indicators, PyList.sum. cbn [map foldr].
  repeat match goal with
         | |- context [PyStr.count text ?i] =>
             lazymatch goal with
             | _ : 0 <= PyStr.count text i |- _ => fail
             | _ : 1 <= PyStr.count text i |- _ => fail
             | _ => pose proof (count_nonneg text i)
             end
         end.
  lia.
Qed.

(** ** Floats *)

Section FloatFacts.
Import Float64.
Local Open Scope Q_scope.

Lemma nearest_even_near (y : Q) :
  inject_Z (nearest_even y) - (1 # 2) <= y <= inject_Z (nearest_even y) + (1 # 2).
Proof.
  unfold nearest_even.
  pose proof (Qfloor_le y) as Hlo. pose proof (Qlt_floor y) as Hhi.
  rewrite inject_Z_plus in Hhi. change (inject_Z 1) with 1 in Hhi.
  destruct (Qcompare (y - inject_Z (Qfloor y)) (1 # 2)) eqn:Hc.
  - apply Qeq_alt in Hc.
    destruct (Z.even (Qfloor y)); rewrite ?inject_Z_plus;
      change (inject_Z 1) with 1; lra.
  - apply Qlt_alt in Hc. lra.
  - apply Qgt_alt in Hc. rewrite inject_Z_plus. change (inject_Z 1) with 1. lra.
Qed.

Lemma nearest_even_tie (y : Q) :
  y == inject_Z (nearest_even y) + (1 # 2)
  \/ y == inject_Z (nearest_even y) - (1 # 2) ->
  Z.even (nearest_even y) = true.
Proof.
  unfold nearest_even.
  pose proof (Qfloor_le y) as Hlo. pose proof (Qlt_floor y) as Hhi.
  rewrite inject_Z_plus in Hhi. change (inject_Z 1) with 1 in Hhi.
  destruct (Qcompare (y - inject_Z (Qfloor y)) (1 # 2)) eqn:Hc.
  - destruct (Z.even (Qfloor y)) eqn:He; [easy|].
    intros _. rewrite Z.even_add, He. reflexivity.
  - apply Qlt_alt in Hc. intros [H|H]; lra.
  - apply Qgt_alt in Hc. rewrite inject_Z_plus. change (inject_Z 1) with 1.
    intros [H|H]; lra.
Qed.

Lemma inject_Z_le_1 (a b : Z) : (a < b)%Z -> inject_Z a + 1 <= inject_Z b.
Proof.
  intros H. change 1 with (inject_Z 1).
  rewrite <- (inject_Z_plus a 1). rewrite <- Zle_Qle. lia.
Qed.

Lemma nearest_even_mono (x y : Q) :
  x <= y -> (nearest_even x <= nearest_even y)%Z.
Proof.
  intros Hxy.
  destruct (Z.le_gt_cases (nearest_even x) (nearest_even y)) as [|Hgt]; [easy|].
  exfalso.
  pose proof (nearest_even_near x) as Hx. pose proof (nearest_even_near y) as Hy.
  pose proof (inject_Z_le_1 _ _ Hgt) as H1.
  assert (Hex : x == inject_Z (nearest_even x) - (1 # 2)) by lra.
  assert (Hey : y == inject_Z (nearest_even y) + (1 # 2)) by lra.
  assert (Hm : nearest_even x = (nearest_even y + 1)%Z).
  { apply inject_Z_injective. rewrite inject_Z_plus.
    change (inject_Z 1) with 1. lra. }
  pose proof (nearest_even_tie x (or_intror Hex)) as E1.
  pose proof (nearest_even_tie y (or_introl Hey)) as E2.
  rewrite Hm, Z.even_add, E2 in E1. discriminate.
Qed.

Lemma nearest_even_integer (y : Q) (k : Z) :
  y == inject_Z k -> nearest_even y = k.
Proof.
  intros Hy. pose proof (nearest_even_near y) as Hn.
  destruct (Z.lt_trichotomy (nearest_even y) k) as [H|[H|H]]; [|easy|].
  - apply inject_Z_le_1 in H. lra.
  - apply inject_Z_le_1 in H. lra.
Qed.


Lemma pow2_pos (e : Z) : 0 < 2 ^ e.
Proof. now apply Qpower_0_lt. Qed.

Lemma pow2_succ (e : Z) : 2 ^ (e + 1) == 2 * 2 ^ e.
Proof. rewrite Qpower_plus by easy. change (2 ^ 1) with 2. ring. Qed.

Lemma pow2_add (a b : Z) : 2 ^ (a + b) == 2 ^ a * 2 ^ b.
Proof. now rewrite Qpower_plus. Qed.

Lemma pow2_opp (e : Z) : 2 ^ (- e) * 2 ^ e == 1.
Proof. rewrite <- pow2_add. now replace (- e + e)%Z with 0%Z by lia. Qed.

Lemma pow2_inject (a : Z) : (0 <= a)%Z -> inject_Z (2 ^ a) == 2 ^ a.
Proof. intros H. now rewrite Zpower_Qpower. Qed.

Lemma exponent_spec (x : Q) :
  0 < x -> 2 ^ exponent x <= x < 2 ^ (exponent x + 1).
Proof.
  intros Hx.
  assert (Hn : (0 < Qnum x)%Z).
  { destruct x as [n d]. unfold Qlt in Hx. cbn in *. lia. }
  unfold exponent.
  set (a := Z.log2 (Qnum x)). set (b := Z.log2 (Zpos (Qden x))).
  pose proof (Z.log2_spec _ Hn) as Ha. fold a in Ha.
  pose proof (Z.log2_spec (Zpos (Qden x)) eq_refl) as Hb. fold b in Hb.
  pose proof (Z.log2_nonneg (Qnum x)) as Ha0. fold a in Ha0.
  pose proof (Z.log2_nonneg (Zpos (Qden x))) as Hb0. fold b in Hb0.
  assert (HA : 2 ^ a <= inject_Z (Qnum x) < 2 * 2 ^ a).
  { rewrite <- pow2_succ, <- !pow2_inject by lia.
    rewrite <- Zle_Qle, <- Zlt_Qlt. replace (a + 1)%Z with (Z.succ a) by lia.
    exact Ha. }
  assert (HB : 2 ^ b <= inject_Z (Zpos (Qden x)) < 2 * 2 ^ b).
  { rewrite <- pow2_succ, <- !pow2_inject by lia.
    rewrite <- Zle_Qle, <- Zlt_Qlt. replace (b + 1)%Z with (Z.succ b) by lia.
    exact Hb. }
  assert (Hx' : x * inject_Z (Zpos (Qden x)) == inject_Z (Qnum x)).
  { destruct x as [n d]. unfold Qeq. cbn. lia. }
  assert (Hl : 2 ^ (a - b) * 2 ^ b == 2 ^ a).
  { rewrite <- pow2_add. now replace (a - b + b)%Z with a by lia. }
  pose proof (pow2_pos (a - b)) as Pl. pose proof (pow2_pos b) as Pb.
  pose proof (pow2_pos a) as Pa.
  assert (G : (2 ^ (a - b) <= x -> 2 ^ (a - b) <= x < 2 ^ (a - b + 1))
              /\ (x < 2 ^ (a - b)
                  -> 2 ^ (a - b - 1) <= x < 2 ^ (a - b - 1 + 1))).
  { assert (Hp : 2 ^ (a - b) == 2 * 2 ^ (a - b - 1)).
    { rewrite <- pow2_succ. now replace (a - b - 1 + 1)%Z with (a - b)%Z by lia. }
    pose proof (pow2_succ (a - b)) as Hs.
    replace (a - b - 1 + 1)%Z with (a - b)%Z by lia.
    set (N := inject_Z (Qnum x)) in *. set (D := inject_Z (Zpos (Qden x))) in *.
    set (P := 2 ^ (a - b)) in *. set (B := 2 ^ b) in *. set (A := 2 ^ a) in *.
    set (P' := 2 ^ (a - b - 1)) in *. set (P2 := 2 ^ (a - b + 1)) in *.
    clearbody N D P B A P' P2.
    assert (Hup : x < 2 * P).
    { apply Qnot_le_lt. intros Hc.
      assert (2 * P * B <= x * D).
      { apply Qle_trans with (x * B).
        - apply Qmult_le_compat_r; lra.
        - rewrite !(Qmult_comm x). apply Qmult_le_compat_r; lra. }
      lra. }
    assert (Hlow : P <= 2 * x).
    { apply Qnot_lt_le. intros Hc.
      assert (2 * x * D < P * (2 * B)).
      { apply Qle_lt_trans with (P * D).
        - apply Qmult_le_compat_r; lra.
        - rewrite !(Qmult_comm P). apply Qmult_lt_compat_r; lra. }
      lra. }
    split; intros Hc; lra. }
  destruct (Qle_bool (2 ^ (a - b)) x) eqn:Hc.
  - apply Qle_bool_iff in Hc. now apply G.
  - apply G. apply Qnot_le_lt. intros Hle. apply Qle_bool_iff in Hle. congruence.
Qed.

Lemma exponent_mono (x y : Q) : 0 < x -> x <= y -> (exponent x <= exponent y)%Z.
Proof.
  intros Hx Hxy.
  destruct (exponent_spec x Hx) as [Hlo _].
  destruct (exponent_spec y) as [_ Hhi]; [lra|].
  assert (H : 2 ^ exponent x < 2 ^ (exponent y + 1)) by lra.
  apply Qpower_lt_compat_l_inv in H; [lia|reflexivity].
Qed.

(** The significand of a positive number lies between [2 ^ 52] and
    [2 ^ 53]. *)
Lemma significand_range (x : Q) :
  0 < x ->
  let y := x * 2 ^ (- (exponent x - 52)) in
  2 ^ 52 <= y < 2 ^ 53
  /\ (2 ^ 52 <= nearest_even y <= 2 ^ 53)%Z.
Proof.
  intros Hx y.
  destruct (exponent_spec x Hx) as [Hlo Hhi].
  pose proof (pow2_pos (- (exponent x - 52))) as Ps.
  assert (H52 : 2 ^ exponent x * 2 ^ (- (exponent x - 52)) == 2 ^ 52).
  { rewrite <- pow2_add. now replace (exponent x + - (exponent x - 52))%Z with 52%Z by lia. }
  assert (H53 : 2 ^ (exponent x + 1) * 2 ^ (- (exponent x - 52)) == 2 ^ 53).
  { rewrite <- pow2_add.
    now replace (exponent x + 1 + - (exponent x - 52))%Z with 53%Z by lia. }
  assert (Hy : 2 ^ 52 <= y < 2 ^ 53).
  { unfold y. split.
    - rewrite <- H52. apply Qmult_le_compat_r; lra.
    - rewrite <- H53. apply Qmult_lt_compat_r; lra. }
  split; [exact Hy|]. split.
  - rewrite <- (nearest_even_integer (2 ^ 52) (2 ^ 52)%Z) by reflexivity.
    apply nearest_even_mono, Hy.
  - rewrite <- (nearest_even_integer (2 ^ 53) (2 ^ 53)%Z) by reflexivity.
    apply nearest_even_mono. lra.
Qed.

Lemma round_pos_range (x : Q) :
  0 < x -> 2 ^ exponent x <= round_pos x <= 2 ^ (exponent x + 1).
Proof.
  intros Hx. destruct (significand_range x Hx) as [_ [Hlo Hhi]].
  unfold round_pos.
  set (e := (exponent x - 52)%Z) in *. set (m := nearest_even _) in *.
  pose proof (pow2_pos e) as Pe.
  rewrite Zle_Qle in Hlo, Hhi. change (inject_Z (2 ^ 52)) with (2 ^ 52) in Hlo.
  change (inject_Z (2 ^ 53)) with (2 ^ 53) in Hhi.
  assert (H52 : 2 ^ exponent x == 2 ^ 52 * 2 ^ e).
  { rewrite <- pow2_add. now replace (52 + e)%Z with (exponent x) by lia. }
  assert (H53 : 2 ^ (exponent x + 1) == 2 ^ 53 * 2 ^ e).
  { rewrite <- pow2_add. now replace (53 + e)%Z with (exponent x + 1)%Z by lia. }
  rewrite H52, H53. split; apply Qmult_le_compat_r; lra.
Qed.

Lemma round_pos_pos (x : Q) : 0 < x -> 0 < round_pos x.
Proof.
  intros Hx. pose proof (round_pos_range x Hx). pose proof (pow2_pos (exponent x)).
  lra.
Qed.

Lemma round_pos_mono (x y : Q) : 0 < x -> x <= y -> round_pos x <= round_pos y.
Proof.
  intros Hx Hxy. assert (Hy : 0 < y) by lra.
  pose proof (exponent_mono x y Hx Hxy) as He.
  destruct (Z.eq_dec (exponent x) (exponent y)) as [Heq|Hne].
  - unfold round_pos. rewrite Heq.
    pose proof (pow2_pos (exponent y - 52)). pose proof (pow2_pos (- (exponent y - 52))).
    apply Qmult_le_compat_r; [|lra].
    rewrite <- Zle_Qle. apply nearest_even_mono.
    apply Qmult_le_compat_r; lra.
  - destruct (round_pos_range x Hx) as [_ Hhi].
    destruct (round_pos_range y Hy) as [Hlo _].
    assert (H : 2 ^ (exponent x + 1) <= 2 ^ exponent y).
    { apply Qpower_le_compat_l; [lia|]. discriminate. }
    lra.
Qed.

(** The relative error of rounding is at most [2 ^ -53]. *)
Lemma round_pos_error (x : Q) :
  0 < x ->
  x - x * (1 # 2 ^ 53) <= round_pos x <= x + x * (1 # 2 ^ 53).
Proof.
  intros Hx. destruct (significand_range x Hx) as [[Hlo _] _].
  unfold round_pos.
  set (e := (exponent x - 52)%Z) in *.
  pose proof (nearest_even_near (x * 2 ^ (- e))) as Hn.
  set (m := inject_Z (nearest_even _)) in *.
  pose proof (pow2_pos e) as Pe. pose proof (pow2_opp e) as Ho.
  set (s := 2 ^ e) in *. set (r := 2 ^ (- e)) in *.
  assert (Hs : 2 ^ 52 * s <= x).
  { apply Qle_trans with (x * r * s); [apply Qmult_le_compat_r; lra|].
    rewrite <- Qmult_assoc, Ho. lra. }
  assert (H1 : (m - (1 # 2)) * s <= x * r * s) by (apply Qmult_le_compat_r; lra).
  assert (H2 : x * r * s <= (m + (1 # 2)) * s) by (apply Qmult_le_compat_r; lra).
  rewrite <- Qmult_assoc, Ho in H1, H2.
  change (2 ^ 52) with (4503599627370496 # 1) in Hs.
  change (1 # 2 ^ 53) with (1 # 9007199254740992).
  lra.
Qed.

Lemma round_pos_integer (k : Z) :
  (0 < k < 2 ^ 53)%Z -> round_pos (inject_Z k) == inject_Z k.
Proof.
  intros Hk.
  assert (Hx : 0 < inject_Z k) by (change 0 with (inject_Z 0); rewrite <- Zlt_Qlt; lia).
  destruct (exponent_spec _ Hx) as [Hlo _].
  assert (He : (exponent (inject_Z k) < 53)%Z).
  { apply (Qpower_lt_compat_l_inv 2); [|reflexivity].
    apply Qle_lt_trans with (inject_Z k); [easy|].
    change (2 ^ 53) with (inject_Z (2 ^ 53)). rewrite <- Zlt_Qlt. lia. }
  unfold round_pos. set (e := (exponent (inject_Z k) - 52)%Z) in *.
  rewrite (nearest_even_integer _ (k * 2 ^ (- e))%Z).
  - rewrite inject_Z_mult, pow2_inject by lia.
    rewrite <- Qmult_assoc, pow2_opp. ring.
  - now rewrite inject_Z_mult, pow2_inject by lia.
Qed.

(** *** [round] on all rationals *)

Lemma round_of_pos (x : Q) : 0 < x -> round x = round_pos x.
Proof.
  destruct x as [[|n|n] d]; unfold Qlt; cbn; intros H; try lia. reflexivity.
Qed.

Lemma round_of_neg (x : Q) : x < 0 -> round x = - round_pos (- x).
Proof.
  destruct x as [[|n|n] d]; unfold Qlt; cbn; intros H; try lia. reflexivity.
Qed.

Lemma round_of_zero (x : Q) : x == 0 -> round x = 0.
Proof.
  destruct x as [[|n|n] d]; unfold Qeq; cbn; intros H; try lia. reflexivity.
Qed.

Lemma sign_cases (x : Q) : x < 0 \/ x == 0 \/ 0 < x.
Proof.
  destruct (Q_dec x 0) as [[H|H]|H]; auto.
Qed.

Lemma round_sign (x : Q) :
  (0 < x -> 0 < round x) /\ (x < 0 -> round x < 0) /\ (x == 0 -> round x == 0).
Proof.
  repeat split; intros H.
  - rewrite round_of_pos by easy. now apply round_pos_pos.
  - rewrite round_of_neg by easy.
    assert (0 < round_pos (- x)) by (apply round_pos_pos; lra). lra.
  - now rewrite round_of_zero.
Qed.

Lemma round_mono (x y : Q) : x <= y -> round x <= round y.
Proof.
  intros Hxy.
  destruct (round_sign x) as (Px & Nx & Zx). destruct (round_sign y) as (Py & Ny & Zy).
  destruct (sign_cases x) as [Hx|[Hx|Hx]], (sign_cases y) as [Hy|[Hy|Hy]];
    try lra;
    try (specialize (Px ltac:(lra))); try (specialize (Nx ltac:(lra)));
    try (specialize (Zx ltac:(lra))); try (specialize (Py ltac:(lra)));
    try (specialize (Ny ltac:(lra))); try (specialize (Zy ltac:(lra)));
    try lra.
  - rewrite (round_of_neg x), (round_of_neg y) by easy.
    assert (round_pos (- y) <= round_pos (- x)) by (apply round_pos_mono; lra).
    lra.
  - rewrite (round_of_pos x), (round_of_pos y) by easy.
    now apply round_pos_mono.
Qed.

Lemma round_error (x : Q) :
  (0 <= x -> x - x * (1 # 2 ^ 53) <= round x <= x + x * (1 # 2 ^ 53))
  /\ (x <= 0 -> x + x * (1 # 2 ^ 53) <= round x <= x - x * (1 # 2 ^ 53)).
Proof.
  pose proof (round_pos_error (- x)) as Hn. pose proof (round_pos_error x) as Hp.
  change (1 # 2 ^ 53) with (1 # 9007199254740992) in *.
  destruct (sign_cases x) as [Hx|[Hx|Hx]]; split; intros H; try lra.
  - rewrite round_of_neg by easy. specialize (Hn ltac:(lra)). lra.
  - rewrite round_of_zero by easy. lra.
  - rewrite round_of_zero by easy. lra.
  - rewrite round_of_pos by easy. now apply Hp.
Qed.

Lemma round_integer (k : Z) :
  (- 2 ^ 53 < k < 2 ^ 53)%Z -> round (inject_Z k) == inject_Z k.
Proof.
  intros Hk. destruct (Z.lt_trichotomy k 0) as [H|[H|H]].
  - rewrite round_of_neg by (change 0 with (inject_Z 0); rewrite <- Zlt_Qlt; lia).
    rewrite <- inject_Z_opp, round_pos_integer by lia.
    rewrite inject_Z_opp. ring.
  - subst k. reflexivity.
  - rewrite round_of_pos by (change 0 with (inject_Z 0); rewrite <- Zlt_Qlt; lia).
    apply round_pos_integer. lia.
Qed.

Lemma round_nonneg (x : Q) : 0 <= x -> 0 <= round x.
Proof.
  intros H. destruct (round_sign x) as (P & _ & Z0).
  destruct (Qlt_le_dec 0 x) as [Hx|Hx]; [specialize (P Hx); lra|].
  assert (x == 0) as E by lra. specialize (Z0 E). lra.
Qed.

End FloatFacts.

(** ** Seconds and minutes of a timedelta *)

Section TimedeltaFacts.
Import Float64.

Lemma seconds_le (delta secs : Z) :
  (delta # 1000000 <= inject_Z secs)%Q <-> delta <= secs * 1000000.
Proof. unfold Qle. cbn. lia. Qed.

Lemma is_timedelta_range (delta : Z) :
  is_timedelta delta = true ->
  (- inject_Z (2 ^ 52) <= delta # 1000000 <= inject_Z (2 ^ 52))%Q.
Proof.
  unfold is_timedelta, timedelta_min, timedelta_max, microseconds_per_second.
  intros H. apply andb_true_iff in H as [H1 H2].
  apply Z.leb_le in H1, H2. unfold Qle. cbn. lia.
Qed.

(** A float that is not above an integer: rounding does not step over an
    integer. *)
Lemma total_seconds_le (delta secs : Z) :
  delta <= secs * 1000000 -> (total_seconds delta <= inject_Z secs)%Q.
Proof.
  intros H. unfold total_seconds, as_float.
  destruct (is_timedelta delta) eqn:Hd; [|now apply (proj2 (seconds_le _ _))].
  apply is_timedelta_range in Hd. apply (proj2 (seconds_le _ _)) in H.
  destruct (Z.lt_ge_cases secs (2 ^ 53)) as [Hs|Hs].
  - assert (- 2 ^ 53 < secs).
    { apply Z.lt_nge. intros Hc.
      assert (inject_Z secs <= inject_Z (- 2 ^ 53))%Q by now rewrite <- Zle_Qle.
      change (inject_Z (- 2 ^ 53)) with (- 9007199254740992 # 1)%Q in *.
      change (inject_Z (2 ^ 52)) with (4503599627370496 # 1)%Q in *.
      lra. }
    rewrite <- (round_integer secs) by lia. now apply round_mono.
  - apply Qle_trans with (inject_Z (2 ^ 52)).
    + rewrite <- (round_integer (2 ^ 52)) by lia. apply round_mono, Hd.
    + rewrite <- Zle_Qle. lia.
Qed.

Lemma total_seconds_gt_sound (delta gap : Z) :
  total_seconds_gt delta (gap * 60) = true -> gap_microseconds gap < delta.
Proof.
  unfold total_seconds_gt, gap_microseconds, microseconds_per_second.
  intros H. apply negb_true_iff in H.
  apply Z.lt_nge. intros Hc.
  assert (Qle_bool (total_seconds delta) (inject_Z (gap * 60)) = true) as E.
  { apply Qle_bool_iff, total_seconds_le. lia. }
  congruence.
Qed.

Lemma total_seconds_gt_exact (delta gap : Z) :
  exact_threshold gap ->
  gap_microseconds gap < delta -> total_seconds_gt delta (gap * 60) = true.
Proof.
  unfold exact_threshold, total_seconds_gt, gap_microseconds, microseconds_per_second.
  intros Hgap H. apply negb_true_iff.
  destruct (Qle_bool _ _) eqn:E; [|reflexivity]. exfalso.
  apply Qle_bool_iff in E. unfold total_seconds, as_float in E.
  set (T := gap * 60) in *.
  destruct (is_timedelta delta).
  - assert (Hx : (inject_Z T + (1 # 1000000) <= delta # 1000000)%Q).
    { unfold Qle. cbn. lia. }
    apply round_mono in Hx.
    assert (HT : (- inject_Z (2 ^ 33) <= inject_Z T <= inject_Z (2 ^ 33))%Q).
    { rewrite <- inject_Z_opp, <- !Zle_Qle. lia. }
    destruct (round_error (inject_Z T + (1 # 1000000))) as [Hp Hn].
    change (1 # 2 ^ 53)%Q with (1 # 9007199254740992)%Q in *.
    change (inject_Z (2 ^ 33)) with (8589934592 # 1)%Q in HT.
    set (r0 := round (inject_Z T + (1 # 1000000))) in *.
    set (r := round (delta # 1000000)) in *. clearbody r r0 T.
    destruct (Qlt_le_dec (inject_Z T + (1 # 1000000)) 0) as [Hs|Hs].
    + specialize (Hn (Qlt_le_weak _ _ Hs)). lra.
    + specialize (Hp Hs). lra.
  - apply (proj1 (seconds_le _ _)) in E. lia.
Qed.

Lemma total_seconds_positive (delta : Z) :
  0 < delta -> (0 < total_seconds delta)%Q.
Proof.
  intros H. unfold total_seconds, as_float.
  assert (0 < delta # 1000000)%Q by (unfold Qlt; cbn; lia).
  destruct (is_timedelta delta); [|easy]. now apply round_sign.
Qed.

Lemma total_seconds_nonneg (delta : Z) :
  0 <= delta -> (0 <= total_seconds delta)%Q.
Proof.
  intros H. unfold total_seconds, as_float.
  assert (0 <= delta # 1000000)%Q by (unfold Qle; cbn; lia).
  destruct (is_timedelta delta); [|easy]. now apply round_nonneg.
Qed.

(** A threshold at or below zero is exceeded by every positive span, one
    below zero by every span. *)
Lemma total_seconds_gt_below (delta secs : Z) :
  (secs <= 0 -> 0 < delta -> total_seconds_gt delta secs = true)
  /\ (secs < 0 -> 0 <= delta -> total_seconds_gt delta secs = true).
Proof.
  unfold total_seconds_gt.
  split; intros Hs Hd; apply negb_true_iff;
    destruct (Qle_bool _ _) eqn:E; try reflexivity; exfalso;
    apply Qle_bool_iff in E.
  - pose proof (total_seconds_positive delta Hd) as P.
    assert (inject_Z secs <= 0)%Q.
    { change 0%Q with (inject_Z 0). now rewrite <- Zle_Qle. }
    set (t := total_seconds delta) in *. set (q := inject_Z secs) in *.
    clearbody t q. lra.
  - pose proof (total_seconds_nonneg delta Hd) as P.
    assert (inject_Z secs < 0)%Q.
    { change 0%Q with (inject_Z 0). now rewrite <- Zlt_Qlt. }
    set (t := total_seconds delta) in *. set (q := inject_Z secs) in *.
    clearbody t q. lra.
Qed.

(** Records that stay together are within the threshold up to the rounding
    of the float. *)
Lemma total_seconds_gt_nearly (delta gap : Z) :
  0 <= delta ->
  total_seconds_gt delta (gap * 60) = false ->
  delta * (2 ^ 53 - 1) <= gap_microseconds gap * 2 ^ 53.
Proof.
  unfold total_seconds_gt, gap_microseconds, microseconds_per_second.
  intros Hd H. apply negb_false_iff, Qle_bool_iff in H.
  unfold total_seconds, as_float in H. set (T := gap * 60) in *.
  destruct (is_timedelta delta).
  - destruct (round_error (delta # 1000000)) as [Hp _].
    specialize (Hp ltac:(unfold Qle; cbn; lia)).
    assert (Hq : ((delta # 1000000) - (delta # 1000000) * (1 # 2 ^ 53)
                  <= inject_Z T)%Q) by lra.
    unfold Qle, Qminus, Qplus, Qmult, Qopp in Hq. cbn in Hq.
    change (2 ^ 53) with 9007199254740992. lia.
  - apply (proj1 (seconds_le _ _)) in H. nia.
Qed.

Lemma int_of_float_floor (x : Q) : (0 <= x)%Q -> int_of_float x = Qfloor x.
Proof.
  destruct x as [n d]. unfold Qle, int_of_float, Qfloor. cbn. intros H.
  apply Z.quot_div_nonneg; lia.
Qed.

Lemma Qfloor_between (x : Q) (m : Z) :
  (inject_Z m <= x)%Q -> (x < inject_Z (m + 1))%Q -> Qfloor x = m.
Proof.
  intros Hlo Hhi.
  pose proof (Qfloor_le x) as H1. pose proof (Qlt_floor x) as H2.
  assert (inject_Z m < inject_Z (Qfloor x + 1))%Q as A by lra.
  assert (inject_Z (Qfloor x) < inject_Z (m + 1))%Q as B by lra.
  rewrite <- Zlt_Qlt in A, B. lia.
Qed.

Lemma minutes_of (delta : Z) :
  let m := delta / minute_microseconds in
  (inject_Z (60 * m) <= delta # 1000000)%Q
  /\ (delta # 1000000 <= inject_Z (60 * (m + 1)) - (1 # 1000000))%Q.
Proof.
  intros m. subst m. unfold minute_microseconds, microseconds_per_second.
  change (60 * 1000000) with 60000000.
  pose proof (Z.mul_div_le delta 60000000 eq_refl).
  pose proof (Z.mul_succ_div_gt delta 60000000 eq_refl).
  set (m := delta / 60000000) in *. clearbody m.
  unfold Qle, Qminus, Qplus, Qopp. cbn. lia.
Qed.

(** The minutes [m] of a span of [x] seconds, with [60 m <= x < 60 (m + 1)]:
    the float of the quotient lies between [m] and [m + 1]. *)
Lemma rounded_minutes (x : Q) (m : Z) :
  0 <= m -> 60 * (m + 1) < 2 ^ 53 ->
  (inject_Z (60 * m) <= x <= inject_Z (60 * (m + 1)))%Q ->
  (inject_Z m <= round (round x / 60) <= inject_Z (m + 1))%Q.
Proof.
  intros Hm Hr [Hlo Hhi].
  apply round_mono in Hlo, Hhi. rewrite round_integer in Hlo, Hhi by lia.
  rewrite inject_Z_mult in Hlo, Hhi. change (inject_Z 60) with 60%Q in *.
  set (xf := round x) in *. clearbody xf.
  rewrite <- (round_integer m), <- (round_integer (m + 1)) by lia.
  split; apply round_mono.
  - apply Qle_shift_div_l; [reflexivity|]. lra.
  - apply Qle_shift_div_r; [reflexivity|]. lra.
Qed.

(** Below [2 ^ 32] seconds the two roundings do not reach the next
    minute. *)
Lemma rounded_minutes_exact (x : Q) (m : Z) :
  0 <= m ->
  (inject_Z (60 * m) <= x <= inject_Z (60 * (m + 1)) - (1 # 1000000))%Q ->
  (x <= inject_Z (2 ^ 32))%Q ->
  (round (round x / 60) < inject_Z (m + 1))%Q.
Proof.
  intros Hm [Hlo Hhi] Hx.
  assert (Hm0 : (0 <= inject_Z m)%Q).
  { change 0%Q with (inject_Z 0). now rewrite <- Zle_Qle. }
  rewrite !inject_Z_mult, ?inject_Z_plus in *.
  change (inject_Z 60) with 60%Q in *. change (inject_Z 1) with 1%Q in *.
  change (inject_Z (2 ^ 32)) with (4294967296 # 1)%Q in Hx.
  assert (X0 : (0 <= x)%Q) by lra.
  destruct (round_error x) as [E1 _]. specialize (E1 X0).
  pose proof (round_nonneg x X0) as X1.
  set (xf := round x) in *. clearbody xf.
  assert (X2 : (0 <= xf / 60)%Q).
  { apply Qle_shift_div_l; [reflexivity|]. lra. }
  destruct (round_error (xf / 60)) as [E2 _]. specialize (E2 X2).
  assert (Q60 : (xf / 60 * 60 == xf)%Q) by field.
  change (1 # 2 ^ 53)%Q with (1 # 9007199254740992)%Q in *.
  set (q := (xf / 60)%Q) in *. set (qf := round q) in *. clearbody qf q.
  set (M := inject_Z m) in *. clearbody M.
  lra.
Qed.

Lemma whole_minutes_bounds (delta : Z) :
  0 <= delta ->
  delta / minute_microseconds <= whole_minutes delta
  <= delta / minute_microseconds + 1.
Proof.
  intros Hd. destruct (minutes_of delta) as [Hlo Hhi].
  set (m := delta / minute_microseconds) in *.
  assert (Hm : 0 <= m).
  { apply Z.div_pos; [easy|]. reflexivity. }
  clearbody m.
  assert (Hm0 : (0 <= inject_Z m)%Q).
  { change 0%Q with (inject_Z 0). now rewrite <- Zle_Qle. }
  assert (Hhi' : (delta # 1000000 <= inject_Z (60 * (m + 1)))%Q).
  { set (x := (delta # 1000000)%Q) in *. set (b := inject_Z (60 * (m + 1))) in *.
    clearbody x b. lra. }
  assert (Hq : (inject_Z m <= (delta # 1000000) / 60)%Q).
  { apply Qle_shift_div_l; [reflexivity|].
    rewrite inject_Z_mult in Hlo. change (inject_Z 60) with 60%Q in *.
    set (x := (delta # 1000000)%Q) in *. clearbody x. lra. }
  assert (Hq' : ((delta # 1000000) / 60 < inject_Z (m + 1))%Q).
  { apply Qlt_shift_div_r; [reflexivity|].
    rewrite inject_Z_mult in Hhi. change (inject_Z 60) with 60%Q in *.
    set (x := (delta # 1000000)%Q) in *. set (b := inject_Z (m + 1)) in *.
    clearbody x b. lra. }
  unfold whole_minutes, total_seconds, as_float.
  destruct (is_timedelta delta) eqn:Ht.
  - apply is_timedelta_range in Ht.
    assert (Hr : 60 * (m + 1) < 2 ^ 53).
    { apply Z.lt_nge. intros Hc.
      assert (inject_Z (2 ^ 53) <= inject_Z (60 * (m + 1)))%Q as Hc'
        by now rewrite <- Zle_Qle.
      rewrite !inject_Z_mult, inject_Z_plus in *.
      change (inject_Z (2 ^ 53)) with (9007199254740992 # 1)%Q in *.
      change (inject_Z (2 ^ 52)) with (4503599627370496 # 1)%Q in *.
      change (inject_Z 60) with 60%Q in *. change (inject_Z 1) with 1%Q in *.
      set (x := (delta # 1000000)%Q) in *. set (M := inject_Z m) in *.
      clearbody x M. lra. }
    destruct (rounded_minutes (delta # 1000000) m Hm Hr (conj Hlo Hhi')) as [H3 H4].
    rewrite int_of_float_floor.
    + split.
      * rewrite <- (Qfloor_Z m). now apply Qfloor_resp_le.
      * rewrite <- (Qfloor_Z (m + 1)). now apply Qfloor_resp_le.
    + eapply Qle_trans; [exact Hm0|exact H3].
  - rewrite int_of_float_floor by (eapply Qle_trans; [exact Hm0|exact Hq]).
    rewrite (Qfloor_between _ m Hq Hq'). lia.
Qed.

Lemma whole_minutes_exact (delta : Z) :
  0 <= delta < 2 ^ 32 * microseconds_per_second ->
  whole_minutes delta = delta / minute_microseconds.
Proof.
  intros [Hd Hb]. destruct (minutes_of delta) as [Hlo Hhi].
  pose proof (whole_minutes_bounds delta Hd) as [Hge _].
  set (m := delta / minute_microseconds) in *.
  assert (Hm : 0 <= m).
  { apply Z.div_pos; [easy|]. reflexivity. }
  clearbody m.
  assert (Hx : (delta # 1000000 <= inject_Z (2 ^ 32))%Q).
  { unfold Qle. cbn. unfold microseconds_per_second in Hb. lia. }
  apply Z.le_antisymm; [|exact Hge].
  unfold whole_minutes, total_seconds, as_float.
  assert (is_timedelta delta = true) as ->.
  { unfold is_timedelta, timedelta_min, timedelta_max, microseconds_per_second in *.
    apply andb_true_iff. split; apply Z.leb_le; lia. }
  pose proof (rounded_minutes_exact _ m Hm (conj Hlo Hhi) Hx) as Hlt.
  assert (Hm0 : (0 <= inject_Z m)%Q).
  { change 0%Q with (inject_Z 0). now rewrite <- Zle_Qle. }
  assert (H0 : (0 <= round (round (delta # 1000000) / 60))%Q).
  { apply round_nonneg. apply Qle_shift_div_l; [reflexivity|].
    rewrite Qmult_0_l. apply round_nonneg. unfold Qle. cbn. lia. }
  rewrite int_of_float_floor by exact H0.
  assert (Qfloor (round (round (delta # 1000000) / 60)) < m + 1); [|lia].
  rewrite Zlt_Qlt. eapply Qle_lt_trans; [apply Qfloor_le|exact Hlt].
Qed.

End TimedeltaFacts.

(** ** Sorting *)

Section SortFacts.
Context {A : Type} (key : A -> Z).

Lemma insert_by_Permutation (reverse : bool) (x : A) (l : list A) :
  Permutation (PyList.insert_by key reverse x l) (x :: l).
Proof.
  induction l as [|y l IH]; simpl; [reflexivity|].
  destruct (if reverse then _ else _); [reflexivity|].
  rewrite IH. apply perm_swap.
Qed.

Lemma sort_Permutation (reverse : bool) (l : list A) :
  Permutation (PyList.sort key reverse l) l.
Proof.
  induction l as [|x l IH]; simpl; [reflexivity|].
  unfold PyList.sort in *. simpl. rewrite insert_by_Permutation. now rewrite IH.
Qed.

Lemma insert_by_sorted (x : A) (l : list A) :
  StronglySorted (fun a b => key a <= key b) l ->
  StronglySorted (fun a b => key a <= key b) (PyList.insert_by key false x l).
Proof.
  induction 1 as [|y l Hl IH Hy]; simpl; [repeat constructor|].
  destruct (Z.leb_spec (key x) (key y)) as [Hxy|Hxy].
  - constructor; [now constructor|].
    constructor; [exact Hxy|].
    eapply Forall_impl; [exact Hy|]. simpl. intros z Hz. lia.
  - constructor; [exact IH|].
    rewrite insert_by_Permutation. constructor; [lia | exact Hy].
Qed.

Lemma sort_sorted (l : list A) :
  StronglySorted (fun a b => key a <= key b) (PyList.sort key false l).
Proof.
  induction l as [|x l IH]; [constructor|].
  unfold PyList.sort in *. simpl. now apply insert_by_sorted.
Qed.

(** The sort is stable: members with one key keep their order. *)
Lemma insert_by_stable (t : Z) (x : A) (l : list A) :
  List.filter (fun a => key a =? t) (PyList.insert_by key false x l)
  = List.filter (fun a => key a =? t) (x :: l).
Proof.
  induction l as [|y l IH]; [reflexivity|].
  cbn [PyList.insert_by]. destruct (Z.leb_spec (key x) (key y)) as [Hle|Hgt];
    [reflexivity|].
  cbn [List.filter] in *. rewrite IH.
  destruct (Z.eqb_spec (key x) t), (Z.eqb_spec (key y) t); try reflexivity. lia.
Qed.

Lemma sort_stable (t : Z) (l : list A) :
  List.filter (fun a => key a =? t) (PyList.sort key false l)
  = List.filter (fun a => key a =? t) l.
Proof.
  induction l as [|x l IH]; [reflexivity|].
  unfold PyList.sort in *. cbn [foldr]. rewrite insert_by_stable.
  cbn [List.filter]. now rewrite IH.
Qed.

Lemma sort_nil_inv (reverse : bool) (l : list A) :
  PyList.sort key reverse l = [] -> l = [].
Proof.
  intros H. apply Permutation_nil. now rewrite <- H, sort_Permutation.
Qed.

End SortFacts.

Lemma sum_Permutation (l k : list Z) :
  Permutation l k -> PyList.sum l = PyList.sum k.
Proof.
  unfold PyList.sum. induction 1; simpl; lia.
Qed.

(** ** Neighbours *)

Lemma adjacent_snoc {A} (l : list A) (x : A) :
  adjacent (l ++ [x])
  = adjacent l ++ match last l with Some y => [(y, x)] | None => [] end.
Proof.
  induction l as [|a l IH]; [reflexivity|].
  destruct l as [|b l]; [reflexivity|].
  change (adjacent ((a :: b :: l) ++ [x]))
    with ((a, b) :: adjacent ((b :: l) ++ [x])).
  rewrite IH. now rewrite last_cons_cons.
Qed.

Lemma last_default {A} (first : A) (rest : list A) :
  last (first :: rest) = Some (List.last rest first).
Proof.
  revert first. induction rest as [|y rest IH]; intros first; [reflexivity|].
  rewrite last_cons_cons. destruct rest as [|z rest]; [reflexivity|].
  change (List.last (y :: z :: rest) first) with (List.last (z :: rest) first).
  rewrite <- (IH first). now rewrite !last_cons_cons.
Qed.

Lemma join_cons (sep x : string) (xs : list string) :
  exists tl, PyStr.join sep (x :: xs) = x +:+ tl.
Proof.
  destruct xs as [|y ys]; simpl.
  - exists EmptyString. clear. induction x as [|c x IH]; [reflexivity|].
    now rewrite app_cons, <- IH.
  - eexists. reflexivity.
Qed.

Section WithLibrary.
Context {L : PyLib}.

(** ** The summarizer's counts *)

Lemma session_text_starts_with_query (first : CI.t) (rest : list CI.t) :
  exists tl,
    PyStr.join " "
      (map (fun i => CI.user_query i +:+ " " +:+ CI.claude_response i) (first :: rest))
    = CI.user_query first +:+ tl.
Proof.
  cbn [map].
  destruct (join_cons " " (CI.user_query first +:+ " " +:+ CI.claude_response first)
              (map (fun i => CI.user_query i +:+ " " +:+ CI.claude_response i) rest))
    as [tl ->].
  rewrite string_app_assoc. eexists. reflexivity.
Qed.

Lemma create_session_counts_nonneg first rest user_id project_id session_num :
  let s := _create_session first rest user_id project_id session_num in
  0 <= CS.success_indicators s /\ 0 <= CS.stuck_indicators s.
Proof. split; apply count_indicators_nonneg. Qed.

(** C10. Signal counting adds up one substring count per indicator phrase,
    and the success table holds both "perfect" and "perfect!": the text
    "perfect!" alone counts 2, every text in which "perfect!" occurs counts
    at least 2, and so does every session whose first (lower-cased) query
    holds "perfect!". *)
Theorem C10_overlapping_indicators_count_twice :
  (forall text indicators,
      _count_indicators text indicators
      = PyList.sum (map (PyStr.count text) indicators))
  /\ In "perfect" success_indicators
  /\ In "perfect!" success_indicators
  /\ _count_indicators "perfect!" success_indicators = 2
  /\ (forall before after,
         2 <= _count_indicators (before +:+ "perfect!" +:+ after) success_indicators)
  /\ (forall first rest user_id project_id session_num before after,
         PyStr.lower (CI.user_query first) = before +:+ "perfect!" +:+ after ->
         2 <= CS.success_indicators
                (_create_session first rest user_id project_id session_num)).
Proof.
  split; [exact count_indicators_sum|].
  split; [unfold success_indicators; simpl; tauto|].
  split; [unfold success_indicators; simpl; tauto|].
  split; [reflexivity|].
  split; [exact perfect_counts_twice|].
  intros first rest user_id project_id session_num before after Hq.
  unfold _create_session. cbn [CS.success_indicators].
  destruct (session_text_starts_with_query first rest) as [tl ->].
  rewrite lower_app, Hq, !string_app_assoc.
  apply perfect_counts_twice.
Qed.

(** ** Status classification *)

(** C1 (as the code has it). For an aggregate whose stuck count exceeds 1
    the state is [stuck] unless the flow rule, which is evaluated first,
    applies: with a success count above 0 and at most 6 interactions the
    state is [flow]. *)
Theorem C1_stuck_unless_flow_rule (sessions : list CS.t) :
  1 < total_stuck_of sessions ->
  _calculate_objective_status sessions
  = if (0 <? total_success_of sessions) && (total_interactions_of sessions <=? 6)
    then "flow" else "stuck".
Proof.
  intros Hstuck. unfold _calculate_objective_status.
  destruct sessions as [|s sessions]; [cbn in Hstuck; lia|].
  destruct ((0 <? _) && (_ <=? 6)); [reflexivity|].
  apply Z.ltb_lt in Hstuck. now rewrite Hstuck.
Qed.

Lemma recent_sessions_none (now : datetime) (sessions : list CS.t)
    (user_id project_id : string) (lookback_hours : Z) :
  Forall (fun s => ~ (CS.user_id s = user_id /\ CS.project_id s = project_id
                      /\ now - timedelta_hours lookback_hours < CS.end_time s))
         sessions ->
  recent_sessions_of now sessions user_id project_id lookback_hours = [].
Proof.
  intros Hnone. unfold recent_sessions_of.
  induction Hnone as [|s l Hs _ IH]; [reflexivity|].
  cbn [List.filter]. rewrite IH.
  destruct (String.eqb_spec (CS.user_id s) user_id) as [Hu|]; [|reflexivity].
  destruct (String.eqb_spec (CS.project_id s) project_id) as [Hp|]; [|reflexivity].
  destruct (Z.ltb_spec (now - timedelta_hours lookback_hours) (CS.end_time s));
    [|reflexivity].
  exfalso. apply Hs. auto.
Qed.

(** The cutoff raises nothing but [OverflowError], and it is computed
    exactly when the length of the window is a timedelta and the cutoff a
    datetime. *)
Lemma cutoff_raises (now : datetime) (delta : Z) (e : exn) :
  cutoff now delta = Raised e -> e = OverflowError.
Proof.
  unfold cutoff, new_timedelta, datetime_sub.
  destruct (is_timedelta delta); cbn; [|congruence].
  destruct (is_datetime (now - delta)); congruence.
Qed.

Lemma cutoff_returns (now : datetime) (delta : Z) (cutoff_time : datetime) :
  cutoff now delta = Returned cutoff_time
  <-> timedelta_min <= delta <= timedelta_max
      /\ datetime_min <= now - delta <= datetime_max
      /\ cutoff_time = now - delta.
Proof.
  unfold cutoff, new_timedelta, datetime_sub, is_timedelta, is_datetime.
  destruct (Z.leb_spec timedelta_min delta), (Z.leb_spec delta timedelta_max);
    cbn; try (split; [discriminate|lia]).
  destruct (Z.leb_spec datetime_min (now - delta)),
    (Z.leb_spec (now - delta) datetime_max);
    cbn; try (split; [discriminate|lia]).
  split; [intros [= <-]; lia|]. now intros (_ & _ & ->).
Qed.

Lemma idle_without_recent_sessions (now : datetime) (sessions : list CS.t)
    (user_id project_id : string) (lookback_hours : Z) :
  recent_sessions_of now sessions user_id project_id lookback_hours = [] ->
  calculate_developer_status now sessions user_id project_id lookback_hours
  = DA.mk user_id project_id "No recent activity" "idle" datetime_min
          0 [] [] 0 0%Q.
Proof. intros Hrecent. unfold calculate_developer_status. now rewrite Hrecent. Qed.

(** C6 (as the code has it). With no session of the person and project
    ending after the cutoff, the call returns the idle record: state
    [idle], no files, no problems, no interactions, success rate 0. That
    is so when the cutoff of the window can be computed; when it cannot,
    the call raises [OverflowError] whatever the sessions are. *)
Theorem C6_no_recent_sessions_idle (now : datetime) (sessions : list CS.t)
    (user_id project_id : string) (lookback_hours : Z) :
  Forall (fun s => ~ (CS.user_id s = user_id /\ CS.project_id s = project_id
                      /\ now - timedelta_hours lookback_hours < CS.end_time s))
         sessions ->
  match cutoff now (timedelta_hours lookback_hours) with
  | Raised _ =>
      Analyzer.calculate_developer_status now sessions user_id project_id
        lookback_hours
      = Raised OverflowError
  | Returned _ =>
      exists activity,
        Analyzer.calculate_developer_status now sessions user_id project_id
          lookback_hours
        = Returned activity
        /\ DA.status activity = "idle"
        /\ DA.files_working_on activity = []
        /\ DA.recent_problems activity = []
        /\ DA.iteration_count activity = 0
        /\ DA.success_rate activity = 0%Q
        /\ activity = DA.mk user_id project_id "No recent activity" "idle"
                            datetime_min 0 [] [] 0 0%Q
  end.
Proof.
  intros Hnone. unfold Analyzer.calculate_developer_status.
  destruct (cutoff now (timedelta_hours lookback_hours)) as [cutoff_time|e]
    eqn:Hcutoff; [|now apply cutoff_raises in Hcutoff as ->].
  cbn [mbind outcome_bind mret outcome_ret].
  rewrite idle_without_recent_sessions by now apply recent_sessions_none.
  eexists. repeat split; reflexivity.
Qed.

(** ** Segmentation *)

Lemma create_session_interactions first rest u p n :
  CS.interactions (_create_session first rest u p n) = first :: rest.
Proof. reflexivity. Qed.

Lemma create_session_spans first rest u p n :
  spans_members (_create_session first rest u p n).
Proof. exists first, rest. repeat split. Qed.

Section Walk.
Variables (gap : Z) (u p : string).

Lemma walk_inv_start (S0 : list CS.t) :
  walk_inv gap u p [] (mk_walk [] 1 S0) [].
Proof. split; simpl; try constructor; try done. Qed.

Lemma walk_step_inv (S0 new : list CS.t) (l : list CI.t) (x : CI.t) (w : walk) :
  StronglySorted not_later (l ++ [x]) ->
  sessions_so_far w = S0 ++ new ->
  walk_inv gap u p l w new ->
  exists new',
    sessions_so_far (walk_step gap u p w x) = S0 ++ new'
    /\ walk_inv gap u p (l ++ [x]) (walk_step gap u p w x) new'.
Proof.
  intros Hsorted Hsessions [Hmem Hsaved Hcur Hapart Hbound Hopen Hcount].
  assert (forall y, y ∈ l -> not_later y x) as Hle.
  { intros y Hy. eapply StronglySorted_app_1_elem_of; [exact Hsorted|exact Hy|].
    apply list_elem_of_singleton. reflexivity. }
  unfold walk_step. destruct (last (current_session w)) as [prev|] eqn:Hlast.
  - assert (not_later prev x) as Hprev.
    { apply Hle. rewrite <- Hmem. apply elem_of_app. right.
      now apply last_Some_elem_of. }
    unfold not_later in Hprev.
    destruct (total_seconds_gt _ _) eqn:Hgt.
    + (* the gap exceeds the threshold: the open session is saved *)
      apply total_seconds_gt_sound in Hgt.
      destruct (current_session w) as [|first rest] eqn:Hcurrent; [discriminate|].
      rewrite last_default in Hlast. injection Hlast as Hlast.
      set (saved := _create_session first rest u p (session_counter w)).
      exists (new ++ [saved]). split.
      { unfold save_session. cbn. rewrite Hcurrent, Hsessions.
        now rewrite <- app_assoc. }
      split; cbn [current_session session_counter sessions_so_far].
      * rewrite map_app, concat_app. cbn. rewrite app_nil_r, <- Hmem.
        now rewrite <- app_assoc.
      * apply Forall_app. split; [exact Hsaved|].
        constructor; [|constructor]. now exists first, rest, (session_counter w).
      * constructor.
      * rewrite adjacent_snoc. apply Forall_app. split; [exact Hapart|].
        destruct (last new) as [s|] eqn:Hs; [|constructor].
        constructor; [|constructor]. unfold far_apart. cbn.
        now apply (Hbound s first).
      * intros s y Hs Hy. rewrite last_snoc in Hs. injection Hs as <-.
        injection Hy as <-. cbn. rewrite Hlast. lia.
      * intros Hnil. discriminate.
      * rewrite length_app. cbn. lia.
    + (* within the threshold: the interaction joins the open session *)
      exists new. split; [exact Hsessions|].
      split; cbn [current_session session_counter sessions_so_far].
      * now rewrite app_assoc, Hmem.
      * exact Hsaved.
      * rewrite adjacent_snoc, Hlast. apply Forall_app. split; [exact Hcur|].
        constructor; [|constructor]. split; [exact Hprev|exact Hgt].
      * exact Hapart.
      * intros s y Hs Hy. apply (Hbound s y Hs).
        destruct (current_session w); [discriminate|exact Hy].
      * intros Hnil. now apply app_eq_nil in Hnil as [_ ?].
      * exact Hcount.
  - (* nothing is open yet *)
    apply last_None in Hlast. specialize (Hopen Hlast). subst new.
    exists []. split; [exact Hsessions|].
    split; cbn [current_session session_counter sessions_so_far].
    + rewrite Hlast in *. cbn in *. now subst l.
    + constructor.
    + rewrite Hlast. constructor.
    + constructor.
    + intros s y Hs. discriminate.
    + rewrite Hlast. discriminate.
    + exact Hcount.
Qed.

Lemma walk_inv_fold (S0 : list CS.t) (l : list CI.t) :
  StronglySorted not_later l ->
  let w := foldl (walk_step gap u p) (mk_walk [] 1 S0) l in
  exists new, sessions_so_far w = S0 ++ new /\ walk_inv gap u p l w new.
Proof.
  induction l as [|x l IH] using rev_ind; intros Hsorted w.
  - exists []. split; [now rewrite app_nil_r|]. apply walk_inv_start.
  - subst w. rewrite foldl_snoc.
    destruct IH as (new & Hsessions & Hinv).
    { now apply StronglySorted_app_1_l in Hsorted. }
    now apply (walk_step_inv S0 new).
Qed.

End Walk.

Lemma sessions_of_group_spec (gap : Z) (S0 : list CS.t) (u p : string)
    (items : list CI.t) :
  exists new,
    sessions_of_group gap S0 ((u, p), items) = S0 ++ new
    /\ concat (map CS.interactions new)
       = PyList.sort CI.interaction_timestamp false items
    /\ Forall (saved_session gap u p) new
    /\ Forall (far_apart gap) (adjacent new).
Proof.
  unfold sessions_of_group.
  set (sorted := PyList.sort CI.interaction_timestamp false items).
  destruct (walk_inv_fold gap u p S0 sorted) as (new & Hsessions & Hinv).
  { apply (sort_sorted CI.interaction_timestamp). }
  cbv zeta in Hsessions, Hinv.
  set (w := foldl (walk_step gap u p) (mk_walk [] 1 S0) sorted) in *.
  destruct Hinv as [Hmem Hsaved Hcur Hapart Hbound Hopen Hcount].
  unfold save_session. destruct (current_session w) as [|first rest] eqn:Hcurrent.
  - exists new. rewrite app_nil_r in Hmem. now repeat split.
  - exists (new ++ [_create_session first rest u p (session_counter w)]).
    split; [now rewrite Hsessions, app_assoc|].
    split; [|split].
    + rewrite map_app, concat_app. cbn. now rewrite app_nil_r.
    + apply Forall_app. split; [exact Hsaved|].
      constructor; [|constructor]. now exists first, rest, (session_counter w).
    + rewrite adjacent_snoc. apply Forall_app. split; [exact Hapart|].
      destruct (last new) as [s|] eqn:Hs; [|constructor].
      constructor; [|constructor]. now apply (Hbound s first).
Qed.

(** Every session the segmenter returns was saved by the walk of some
    person and project. *)
Lemma group_fold_saved (gap : Z) (groups : list ((string * string) * list CI.t))
    (S0 : list CS.t) :
  exists new,
    foldl (sessions_of_group gap) S0 groups = S0 ++ new
    /\ Forall (fun s => exists u p, saved_session gap u p s) new.
Proof.
  revert S0. induction groups as [|[[u p] items] groups IH]; intros S0.
  - exists []. split; [now rewrite app_nil_r | constructor].
  - cbn [foldl].
    destruct (sessions_of_group_spec gap S0 u p items) as (new1 & -> & _ & Hnew1 & _).
    destruct (IH (S0 ++ new1)) as (new2 & -> & Hnew2).
    exists (new1 ++ new2). split; [now rewrite app_assoc|].
    apply Forall_app. split; [|exact Hnew2].
    eapply Forall_impl; [exact Hnew1|]. intros s Hs. now exists u, p.
Qed.

Lemma group_into_sessions_saved (interactions : list CI.t) (gap : Z) :
  Forall (fun s => exists u p, saved_session gap u p s)
         (group_into_sessions interactions gap).
Proof.
  unfold group_into_sessions.
  destruct (group_fold_saved gap
              (foldl (fun d interaction =>
                        PyList.defaultdict_append d
                          (CI.user_id interaction, CI.project_id interaction)
                          interaction) [] interactions) [])
    as (new & -> & Hnew).
  exact Hnew.
Qed.

(** The records of one person and project make one group. *)
Lemma one_group (k : string * string) (acc l : list CI.t) :
  Forall (fun i => (CI.user_id i, CI.project_id i) = k) l ->
  foldl (fun d interaction =>
           PyList.defaultdict_append d
             (CI.user_id interaction, CI.project_id interaction) interaction)
        [(k, acc)] l
  = [(k, acc ++ l)].
Proof.
  intros Hall. revert acc. induction Hall as [|x l Hx _ IH]; intros acc.
  - now rewrite app_nil_r.
  - cbn [foldl PyList.defaultdict_append]. rewrite Hx.
    destruct (decide (k = k)) as [_|ne]; [|now destruct ne].
    rewrite IH. now rewrite <- app_assoc.
Qed.

Lemma group_into_sessions_one_pair (interactions : list CI.t) (gap : Z)
    (u p : string) :
  Forall (fun i => CI.user_id i = u /\ CI.project_id i = p) interactions ->
  interactions <> [] ->
  group_into_sessions interactions gap
  = sessions_of_group gap [] ((u, p), interactions).
Proof.
  intros Hall Hne. destruct interactions as [|x l]; [congruence|].
  unfold group_into_sessions. cbn [foldl PyList.defaultdict_append].
  inversion Hall as [|? ? [Hu Hp] Hl]; subst.
  rewrite one_group; [reflexivity|].
  eapply Forall_impl; [exact Hl|]. intros i [-> ->]. reflexivity.
Qed.

(** What the walk keeps together is within the threshold up to the
    rounding of the float, and within the threshold when that is at most
    [2 ^ 33] seconds. *)
Lemma joined_close_up_to_rounding (gap : Z) (pair : CI.t * CI.t) :
  joined gap pair -> close_up_to_rounding gap pair.
Proof.
  intros [Hle Hgt]. split; [lia|].
  apply total_seconds_gt_nearly; [lia|exact Hgt].
Qed.

Lemma joined_close_enough (gap : Z) (pair : CI.t * CI.t) :
  exact_threshold gap -> joined gap pair -> close_enough gap pair.
Proof.
  intros Hgap [Hle Hgt]. split; [lia|].
  apply Z.le_ngt. intros Hfar.
  apply (total_seconds_gt_exact _ _ Hgap) in Hfar. congruence.
Qed.

(** C2 (as the code has it). Segmenting the records of one person and
    project partitions them: the members of the sessions, read session
    after session, are the input records (each one once) in chronological
    order; every session has a member, belongs to the pair, starts at its
    first member and ends at its last; neighbouring sessions are more than
    the threshold apart; and a single record gives one session holding that
    record. Neighbours inside a session are those whose distance in
    seconds, a float, the walk found not above the threshold: they are
    within the threshold up to one part in [2 ^ 53], and within the
    threshold when that is at most [2 ^ 33] seconds. *)
Theorem C2_segmentation_is_a_partition_up_to_rounding (interactions : list CI.t)
    (gap : Z) (u p : string) :
  Forall (fun i => CI.user_id i = u /\ CI.project_id i = p) interactions ->
  let sessions := group_into_sessions interactions gap in
  let members := concat (map CS.interactions sessions) in
  Permutation interactions members
  /\ StronglySorted not_later members
  /\ Forall (fun s => CS.interactions s <> []
                      /\ CS.user_id s = u /\ CS.project_id s = p
                      /\ spans_members s) sessions
  /\ Forall (fun s => Forall (fun pair => joined gap pair
                                          /\ close_up_to_rounding gap pair)
                             (adjacent (CS.interactions s)))
            sessions
  /\ (exact_threshold gap ->
      Forall (fun s => Forall (close_enough gap) (adjacent (CS.interactions s)))
             sessions)
  /\ Forall (far_apart gap) (adjacent sessions)
  /\ (forall i, interactions = [i] ->
                sessions = [_create_session i [] u p 1]).
Proof.
  intros Hall sessions members.
  destruct interactions as [|x l].
  { subst members sessions. cbn. repeat split; try constructor. discriminate. }
  assert (sessions = sessions_of_group gap [] ((u, p), x :: l)) as Hsessions.
  { now apply group_into_sessions_one_pair. }
  destruct (sessions_of_group_spec gap [] u p (x :: l))
    as (new & Hnew & Hmembers & Hsaved & Hapart).
  rewrite app_nil_l in Hnew. rewrite Hnew in Hsessions.
  subst members. rewrite Hsessions, Hmembers.
  split; [symmetry; apply sort_Permutation|].
  split; [apply (sort_sorted CI.interaction_timestamp)|].
  split.
  { eapply Forall_impl; [exact Hsaved|].
    intros s (first & rest & n & -> & _). cbn.
    repeat split; [discriminate | apply create_session_spans]. }
  split.
  { eapply Forall_impl; [exact Hsaved|].
    intros s (first & rest & n & -> & Hjoined).
    eapply Forall_impl; [exact Hjoined|]. intros pair Hpair.
    split; [exact Hpair|now apply joined_close_up_to_rounding]. }
  split.
  { intros Hgap. eapply Forall_impl; [exact Hsaved|].
    intros s (first & rest & n & -> & Hjoined).
    eapply Forall_impl; [exact Hjoined|]. intros pair Hpair.
    now apply joined_close_enough. }
  split; [exact Hapart|].
  intros i Hi. injection Hi as -> ->. rewrite <- Hsessions.
  subst sessions. inversion Hall as [|? ? [Hu Hp] _]; subst. reflexivity.
Qed.

(** ** Aggregates of the status *)

Lemma total_success_Permutation (l k : list CS.t) :
  Permutation l k -> total_success_of l = total_success_of k.
Proof.
  intros H. unfold total_success_of. apply sum_Permutation.
  now apply Permutation_map.
Qed.

Lemma total_interactions_Permutation (l k : list CS.t) :
  Permutation l k -> total_interactions_of l = total_interactions_of k.
Proof.
  intros H. unfold total_interactions_of. apply sum_Permutation.
  now apply Permutation_map.
Qed.

Lemma total_interactions_nonneg (l : list CS.t) : 0 <= total_interactions_of l.
Proof.
  unfold total_interactions_of, PyList.sum.
  induction l as [|s l IH]; simpl; lia.
Qed.

Lemma total_success_nonneg (l : list CS.t) :
  Forall (fun s => 0 <= CS.success_indicators s) l -> 0 <= total_success_of l.
Proof.
  unfold total_success_of, PyList.sum. induction 1; simpl; lia.
Qed.

Lemma recent_sessions_subset (now : datetime) (sessions : list CS.t)
    (u p : string) (lookback : Z) (P : CS.t -> Prop) :
  Forall P sessions -> Forall P (recent_sessions_of now sessions u p lookback).
Proof.
  intros H. unfold recent_sessions_of. apply List.Forall_forall.
  intros s Hs. apply filter_In in Hs as [Hs _].
  revert s Hs. now apply List.Forall_forall.
Qed.

(** [recent_sessions[0]] is there: sorting keeps the list non-empty. *)
Lemma sorted_sessions_have_a_head (first : CS.t) (others : list CS.t) :
  exists latest rest,
    PyList.sort CS.end_time true (first :: others) = latest :: rest
    /\ hd first (PyList.sort CS.end_time true (first :: others)) = latest.
Proof.
  destruct (PyList.sort CS.end_time true (first :: others)) as [|latest rest]
    eqn:Hsort.
  - now apply sort_nil_inv in Hsort.
  - now exists latest, rest.
Qed.

(** The fields of the status of a person with recent sessions. *)
Lemma status_of_recent_sessions (now : datetime) (sessions : list CS.t)
    (u p : string) (lookback : Z) :
  let recent := recent_sessions_of now sessions u p lookback in
  let sorted := PyList.sort CS.end_time true recent in
  let activity := calculate_developer_status now sessions u p lookback in
  recent <> [] ->
  DA.status activity = _calculate_objective_status sorted
  /\ DA.iteration_count activity = total_interactions_of recent
  /\ DA.success_rate activity
     = (total_success_of recent # Z.to_pos (Z.max (total_interactions_of recent) 1))%Q
  /\ DA.files_working_on activity
     = take 5 (set_iter (flat_map CS.files_mentioned sorted))
  /\ DA.recent_problems activity
     = PyList.last_n 3 (flat_map CS.problems_encountered sorted).
Proof.
  intros recent sorted activity Hne.
  assert (Permutation sorted recent) as Hperm by apply sort_Permutation.
  subst activity sorted. unfold calculate_developer_status.
  fold recent in Hperm |- *. clearbody recent.
  destruct recent as [|first others]; [congruence|].
  cbn [DA.status DA.iteration_count DA.success_rate DA.files_working_on
       DA.recent_problems].
  rewrite (total_interactions_Permutation _ _ Hperm).
  rewrite (total_success_Permutation _ _ Hperm).
  repeat split; reflexivity.
Qed.

(** C4 (as the code has it). The success rate of a status computed from
    segmented records is the aggregate success count over the interaction
    count (over 1 when there is no interaction). It is never negative, and
    it is at most 1 exactly when the success count does not exceed that
    divisor: nothing bounds it by 1. *)
Theorem C4_success_rate_is_count_ratio (interactions : list CI.t) (gap : Z)
    (now : datetime) (u p : string) (lookback : Z) :
  let sessions := group_into_sessions interactions gap in
  let recent := recent_sessions_of now sessions u p lookback in
  let activity := calculate_developer_status now sessions u p lookback in
  DA.success_rate activity
  = (total_success_of recent # Z.to_pos (Z.max (total_interactions_of recent) 1))%Q
  /\ (0 <= DA.success_rate activity)%Q
  /\ ((DA.success_rate activity <= 1)%Q
      <-> total_success_of recent <= Z.max (total_interactions_of recent) 1).
Proof.
  intros sessions recent activity.
  assert (DA.success_rate activity
          = (total_success_of recent
               # Z.to_pos (Z.max (total_interactions_of recent) 1))%Q) as Hrate.
  { destruct recent as [|first others] eqn:Hrecent.
    - subst activity. now rewrite idle_without_recent_sessions.
    - rewrite <- Hrecent.
      apply (status_of_recent_sessions now sessions u p lookback).
      fold recent. now rewrite Hrecent. }
  assert (0 <= total_success_of recent) as Hnonneg.
  { apply total_success_nonneg. apply recent_sessions_subset.
    eapply Forall_impl; [apply group_into_sessions_saved|].
    intros s (u' & p' & first & rest & n & -> & _).
    exact (proj1 (create_session_counts_nonneg first rest u' p' n)). }
  pose proof (total_interactions_nonneg recent) as Hcount.
  split; [exact Hrate|]. rewrite Hrate. unfold Qle. cbn [Qnum Qden].
  rewrite Z2Pos.id by lia. split; lia.
Qed.

(** ** Parsing *)

Lemma parse_chat_log_read (log : gmap string string) (i : CI.t) :
  parse_chat_log log = Returned i -> read_from log i.
Proof.
  unfold parse_chat_log, getitem, parse_timestamp, read_from, reads_time.
  cbn [mbind outcome_bind mret outcome_ret].
  repeat match goal with
         | |- context [log !! ?k] =>
             lazymatch goal with
             | _ : log !! k = _ |- _ => fail
             | _ => destruct (log !! k) eqn:?
             end
         end; cbn; try discriminate.
  all: repeat match goal with
         | |- context [fromisoformat ?v] => destruct (fromisoformat v) eqn:?; cbn
         end; try discriminate.
  intros [= <-]. cbn. repeat split; eauto.
Qed.

Lemma parse_chat_log_returns (log : gmap string string) :
  (exists i, parse_chat_log log = Returned i) <-> well_formed log.
Proof.
  split.
  - intros [i Hi]. apply parse_chat_log_read in Hi.
    destruct Hi as (H1 & H2 & H3 & H4 & H5 & (v6 & H6 & T6) & (v7 & H7 & T7)
                    & (v8 & H8 & T8)).
    split.
    + unfold log_fields. repeat constructor; eauto.
    + unfold timestamp_fields.
      repeat constructor; intros v Hv;
        match goal with
        | H : log !! ?k = Some ?w, H' : log !! ?k = Some v |- _ =>
            rewrite H in H'; injection H' as <-
        end; eauto.
  - intros [Hfields Htimes]. unfold log_fields in Hfields.
    unfold timestamp_fields in Htimes.
    repeat match goal with
           | H : Forall _ (_ :: _) |- _ => inversion H; clear H; subst
           | H : Forall _ [] |- _ => clear H
           | H : is_Some (log !! _) |- _ => destruct H as [? H]
           end.
    repeat match goal with
           | H : forall v, log !! ?k = Some v -> _, H' : log !! ?k = Some ?w |- _ =>
               destruct (H w H'); clear H
           end.
    unfold parse_chat_log, getitem, parse_timestamp.
    cbn [mbind outcome_bind mret outcome_ret].
    repeat match goal with
           | H : log !! ?k = Some _ |- _ => rewrite H; clear H
           end.
    cbn [mbind outcome_bind mret outcome_ret].
    repeat match goal with
           | H : fromisoformat _ = Some _ |- _ =>
               rewrite H; clear H; cbn [mbind outcome_bind mret outcome_ret]
           end.
    eauto.
Qed.

Lemma for_each_Returned {A B} (f : A -> outcome B) (l : list A) (ys : list B) :
  for_each f l = Returned ys <-> Forall2 (fun x y => f x = Returned y) l ys.
Proof.
  revert ys. induction l as [|x l IH]; intros ys; cbn [for_each].
  - split; [intros [= <-]; constructor | now inversion 1].
  - destruct (f x) as [y|e] eqn:Hfx; [destruct (for_each f l) as [ys'|e'] eqn:Hl|];
      cbn [mbind outcome_bind mret outcome_ret].
    + split.
      * intros [= <-]. constructor; [exact Hfx | now apply IH].
      * inversion 1 as [|? y0 ? ys0 Hy0 Hys0]; subst.
        apply IH in Hys0 as [= <-]. rewrite Hfx in Hy0.
        injection Hy0 as <-. reflexivity.
    + split; [discriminate|]. inversion 1 as [|? y0 ? ys0 Hy0 Hys0]; subst.
      now apply IH in Hys0.
    + split; [discriminate|]. inversion 1; subst. congruence.
Qed.

Lemma outcome_cases {A} (o : outcome A) :
  (exists a, o = Returned a) \/ (exists e, o = Raised e).
Proof. destruct o; eauto. Qed.

(** C3 (as the code has it). [parse_chat_logs] is all or nothing: it
    returns a result exactly when every log of the batch has all the keys
    and readable timestamps; the result then holds one interaction per log,
    in the order of the batch, with the fields as they are in the log (an
    empty author or scope is kept as it is); and one log with a missing key
    or an unreadable timestamp makes the call raise for the whole batch. *)
Theorem C3_parsing_is_all_or_nothing (chat_logs : list (gmap string string)) :
  ((exists parsed, parse_chat_logs chat_logs = Returned parsed)
   <-> Forall well_formed chat_logs)
  /\ (forall parsed, parse_chat_logs chat_logs = Returned parsed ->
                     Forall2 read_from chat_logs parsed)
  /\ (forall log, log ∈ chat_logs -> ~ well_formed log ->
                  exists e, parse_chat_logs chat_logs = Raised e).
Proof.
  assert ((exists parsed, parse_chat_logs chat_logs = Returned parsed)
          <-> Forall well_formed chat_logs) as Hiff.
  { unfold parse_chat_logs. split.
    - intros [parsed Hparsed]. apply for_each_Returned in Hparsed.
      induction Hparsed as [|log i logs parsed Hi _ IH]; constructor; [|exact IH].
      apply parse_chat_log_returns. eauto.
    - induction 1 as [|log logs Hlog _ [parsed IH]].
      + exists []. reflexivity.
      + apply parse_chat_log_returns in Hlog as [i Hi].
        exists (i :: parsed). apply for_each_Returned.
        constructor; [exact Hi | now apply for_each_Returned]. }
  split; [exact Hiff|]. split.
  - intros parsed Hparsed. apply for_each_Returned in Hparsed.
    eapply Forall2_impl; [exact Hparsed|]. apply parse_chat_log_read.
  - intros log Hin Hbad.
    destruct (outcome_cases (parse_chat_logs chat_logs)) as [Hret|Hraise];
      [|exact Hraise].
    exfalso. apply Hbad. apply Hiff in Hret.
    rewrite Forall_forall in Hret. now apply Hret.
Qed.

(** ** Recent problems *)

Lemma last_n_length {A} (n : nat) (l : list A) :
  (length (PyList.last_n n l) <= n)%nat.
Proof. unfold PyList.last_n. rewrite length_drop. lia. Qed.

Lemma last_n_elem_of {A} (n : nat) (l : list A) (x : A) :
  x ∈ PyList.last_n n l -> x ∈ l.
Proof.
  unfold PyList.last_n. intros Hx.
  rewrite <- (take_drop (length l - n) l). apply elem_of_app. now right.
Qed.

(** C9 (as the code has it). The recent problems of a status are at most 3
    snippets, each one a problem snippet of a session inside the window.
    The snippets of one session stand in the order of its turns, so when
    the window holds one session they are its last three snippets, the
    newest one last. *)
Theorem C9_recent_problems_bounded_in_turn_order (now : datetime)
    (sessions : list CS.t) (u p : string) (lookback : Z) :
  let recent := recent_sessions_of now sessions u p lookback in
  let activity := calculate_developer_status now sessions u p lookback in
  (length (DA.recent_problems activity) <= 3)%nat
  /\ (forall problem, problem ∈ DA.recent_problems activity ->
                      exists s, s ∈ recent /\ problem ∈ CS.problems_encountered s)
  /\ (forall s, recent = [s] ->
                DA.recent_problems activity
                = PyList.last_n 3 (CS.problems_encountered s))
  /\ (forall first rest user_id project_id n,
         CS.problems_encountered (_create_session first rest user_id project_id n)
         = map snippet
             (List.filter
                (fun query => any_in problem_indicators (PyStr.lower query))
                (map CI.user_query (first :: rest)))).
Proof.
  intros recent activity.
  assert (DA.recent_problems activity
          = PyList.last_n 3
              (flat_map CS.problems_encountered
                 (PyList.sort CS.end_time true recent))) as Hproblems.
  { destruct recent as [|first others] eqn:Hrecent.
    - subst activity. now rewrite idle_without_recent_sessions.
    - rewrite <- Hrecent.
      apply (status_of_recent_sessions now sessions u p lookback).
      fold recent. now rewrite Hrecent. }
  rewrite Hproblems. split; [apply last_n_length|]. split; [|split].
  - intros problem Hin. apply last_n_elem_of in Hin.
    apply list_elem_of_In, in_flat_map in Hin as (s & Hs & Hp).
    exists s. split; [|now apply list_elem_of_In].
    apply list_elem_of_In.
    eapply Permutation_in; [apply sort_Permutation | exact Hs].
  - intros s ->. cbn. now rewrite app_nil_r.
  - reflexivity.
Qed.

(** ** Configuration values at or below zero *)

Lemma saved_session_below_zero (gap : Z) (u p : string) (s : CS.t) :
  gap < 0 -> saved_session gap u p s -> length (CS.interactions s) = 1%nat.
Proof.
  intros Hgap (first & rest & n & -> & Hclose). cbn.
  destruct rest as [|y rest]; [reflexivity|].
  inversion Hclose as [|pair ? [Hle Hgt] _]; subst. cbn in Hle, Hgt.
  rewrite (proj2 (total_seconds_gt_below _ _)) in Hgt by lia. discriminate.
Qed.

Lemma saved_session_at_zero (gap : Z) (u p : string) (s : CS.t) :
  gap <= 0 -> saved_session gap u p s ->
  Forall (fun pair => CI.interaction_timestamp pair.1
                      = CI.interaction_timestamp pair.2)
         (adjacent (CS.interactions s)).
Proof.
  intros Hgap (first & rest & n & -> & Hclose). cbn [CS.interactions _create_session].
  eapply Forall_impl; [exact Hclose|]. intros pair [Hle Hgt].
  apply Z.le_antisymm; [exact Hle|]. apply Z.le_ngt. intros Hlt.
  rewrite (proj1 (total_seconds_gt_below _ _)) in Hgt by lia. discriminate.
Qed.

Lemma no_session_in_window (now : datetime) (sessions : list CS.t) (lookback : Z) :
  lookback <= 0 ->
  Forall (fun s => CS.end_time s <= now) sessions ->
  Forall (fun s => ~ now - timedelta_hours lookback < CS.end_time s) sessions.
Proof.
  intros Hlookback Hended. eapply Forall_impl; [exact Hended|].
  intros s Hs. cbn in Hs. unfold timedelta_hours, microseconds_per_second. lia.
Qed.

(** C8 (as the code has it). No configuration value is checked: a
    threshold or a window at or below zero is computed with like any other.
    With a threshold at or below zero the neighbours inside a session have
    equal timestamps, and with one below zero every session holds one
    record. With a window at or below zero the cutoff is not before the
    clock reading, so sessions that end by then give the idle status and no
    collision. The one error a window can bring is the [OverflowError] of
    the date arithmetic, raised when the length of the window is no
    timedelta or the cutoff no datetime, whatever the sign. *)
Theorem C8_nonpositive_configuration_is_computed_with :
  (forall interactions gap, gap <= 0 ->
      Forall (fun s => Forall (fun pair => CI.interaction_timestamp pair.1
                                           = CI.interaction_timestamp pair.2)
                              (adjacent (CS.interactions s)))
             (group_into_sessions interactions gap))
  /\ (forall interactions gap, gap < 0 ->
         Forall (fun s => length (CS.interactions s) = 1%nat)
                (group_into_sessions interactions gap))
  /\ (forall now sessions u p lookback, lookback <= 0 ->
         Forall (fun s => CS.end_time s <= now) sessions ->
         match cutoff now (timedelta_hours lookback) with
         | Raised _ =>
             Analyzer.calculate_developer_status now sessions u p lookback
             = Raised OverflowError
         | Returned _ =>
             Analyzer.calculate_developer_status now sessions u p lookback
             = Returned (DA.mk u p "No recent activity" "idle" datetime_min
                               0 [] [] 0 0%Q)
         end)
  /\ (forall now now_at sessions project_id lookback, lookback <= 0 ->
         Forall (fun s => CS.end_time s <= now) sessions ->
         match cutoff now (timedelta_hours lookback) with
         | Raised _ =>
             Analyzer.detect_team_collisions now now_at sessions project_id
               lookback
             = Raised OverflowError
         | Returned _ =>
             Analyzer.detect_team_collisions now now_at sessions project_id
               lookback
             = Returned []
         end)
  /\ (forall now lookback,
         (exists cutoff_time,
             cutoff now (timedelta_hours lookback) = Returned cutoff_time)
         <-> timedelta_min <= timedelta_hours lookback <= timedelta_max
             /\ datetime_min <= now - timedelta_hours lookback <= datetime_max).
Proof.
  split; [|split; [|split; [|split]]].
  - intros interactions gap Hgap.
    eapply Forall_impl; [apply group_into_sessions_saved|].
    intros s (u & p & Hs). now apply (saved_session_at_zero gap u p).
  - intros interactions gap Hgap.
    eapply Forall_impl; [apply group_into_sessions_saved|].
    intros s (u & p & Hs). now apply (saved_session_below_zero gap u p).
  - intros now sessions u p lookback Hlookback Hended.
    unfold Analyzer.calculate_developer_status.
    destruct (cutoff now (timedelta_hours lookback)) as [cutoff_time|e]
      eqn:Hcutoff; [|now apply cutoff_raises in Hcutoff as ->].
    cbn [mbind outcome_bind mret outcome_ret]. f_equal.
    apply idle_without_recent_sessions, recent_sessions_none.
    eapply Forall_impl;
      [exact (no_session_in_window now sessions lookback Hlookback Hended)|].
    intros s Hs (_ & _ & Hlate). now apply Hs.
  - intros now now_at sessions project_id lookback Hlookback Hended.
    unfold Analyzer.detect_team_collisions.
    destruct (cutoff now (timedelta_hours lookback)) as [cutoff_time|e]
      eqn:Hcutoff; [|now apply cutoff_raises in Hcutoff as ->].
    cbn [mbind outcome_bind]. unfold detect_team_collisions.
    replace (List.filter _ sessions) with (@nil CS.t); [reflexivity|].
    symmetry. apply (no_session_in_window now sessions lookback Hlookback) in Hended.
    induction Hended as [|s l Hs _ IH]; [reflexivity|].
    cbn [List.filter]. rewrite <- IH.
    destruct (Z.ltb_spec (now - timedelta_hours lookback) (CS.end_time s));
      [contradiction|].
    now rewrite andb_false_r.
  - intros now lookback. split.
    + intros [cutoff_time Hcutoff]. apply cutoff_returns in Hcutoff. tauto.
    + intros [Hdelta Hcutoff]. exists (now - timedelta_hours lookback).
      now apply cutoff_returns.
Qed.

(** ** Grouping by key *)

Section Grouping.
Context {K V : Type} `{EqDecision K} (key : V -> K).

Lemma defaultdict_append_keys (d : list (K * list V)) (k : K) (v : V) :
  (k ∈ (d.*1) /\ (PyList.defaultdict_append d k v).*1 = d.*1)
  \/ ((k ∉ d.*1) /\ (PyList.defaultdict_append d k v).*1 = d.*1 ++ [k]).
Proof.
  induction d as [|[k' vs] d IH]; cbn.
  - right. split; [apply not_elem_of_nil | reflexivity].
  - destruct (decide (k' = k)) as [->|Hne]; cbn.
    + left. split; [apply elem_of_cons; now left | reflexivity].
    + destruct IH as [[Hin ->]|[Hnin ->]].
      * left. split; [apply elem_of_cons; now right | reflexivity].
      * right. split; [|reflexivity].
        rewrite elem_of_cons. intros [->|?]; [now apply Hne | contradiction].
Qed.

Lemma defaultdict_append_elem (d : list (K * list V)) (k : K) (v : V)
    (k' : K) (vs' : list V) :
  NoDup d.*1 ->
  (k', vs') ∈ PyList.defaultdict_append d k v ->
  (k' <> k /\ (k', vs') ∈ d)
  \/ (k' = k /\ exists vs, (k, vs) ∈ d /\ vs' = vs ++ [v])
  \/ (k' = k /\ (k ∉ d.*1) /\ vs' = [v]).
Proof.
  induction d as [|[k0 vs0] d IH]; cbn; intros Hnodup Hin.
  - apply list_elem_of_singleton in Hin as [= -> ->].
    right; right. repeat split. apply not_elem_of_nil.
  - apply NoDup_cons in Hnodup as [Hk0 Hnodup].
    destruct (decide (k0 = k)) as [->|Hne].
    + apply elem_of_cons in Hin as [[= -> ->]|Hin].
      * right; left. split; [reflexivity|]. exists vs0.
        split; [apply elem_of_cons; now left | reflexivity].
      * left. split; [|apply elem_of_cons; now right].
        intros ->. apply Hk0. apply list_elem_of_fmap. now exists (k, vs').
    + apply elem_of_cons in Hin as [[= -> ->]|Hin].
      * left. split; [exact Hne | apply elem_of_cons; now left].
      * destruct (IH Hnodup Hin) as [[? ?]|[(-> & vs & ? & ->)|(-> & ? & ->)]].
        -- left. split; [assumption | apply elem_of_cons; now right].
        -- right; left. split; [reflexivity|]. exists vs.
           split; [apply elem_of_cons; now right | reflexivity].
        -- right; right. repeat split.
           rewrite elem_of_cons. intros [?|?]; [congruence | contradiction].
Qed.

(** The dictionary a loop of [d[key(v)].append(v)] builds: its keys are
    distinct, every entry holds the members with its key in their order,
    and every member's key is there. *)
Lemma grouped (l : list V) :
  let d := foldl (fun d v => PyList.defaultdict_append d (key v) v) [] l in
  NoDup d.*1
  /\ (forall k vs, (k, vs) ∈ d ->
                   vs = List.filter (fun v => bool_decide (key v = k)) l)
  /\ (forall v, v ∈ l -> key v ∈ d.*1).
Proof.
  induction l as [|x l IH] using rev_ind; intros d.
  - subst d. cbn. split; [constructor|].
    split; [intros k vs Hin; now apply elem_of_nil in Hin|].
    intros v Hin. now apply elem_of_nil in Hin.
  - subst d. rewrite foldl_snoc.
    set (d := foldl (fun d v => PyList.defaultdict_append d (key v) v) [] l) in *.
    destruct IH as (Hnodup & Hentries & Hkeys).
    destruct (defaultdict_append_keys d (key x) x) as [[Hin Heq]|[Hnin Heq]].
    + split; [now rewrite Heq|]. split.
      * intros k vs Hkvs. rewrite List.filter_app. cbn.
        apply defaultdict_append_elem in Hkvs
            as [[Hne Hkvs]|[(-> & vs0 & Hkvs & ->)|(-> & Hnin & ->)]];
          [| | |exact Hnodup].
        -- rewrite bool_decide_eq_false_2 by congruence.
           rewrite app_nil_r. now apply Hentries.
        -- rewrite bool_decide_eq_true_2 by reflexivity.
           now rewrite <- (Hentries _ _ Hkvs).
        -- contradiction.
      * intros v Hv. rewrite Heq. apply elem_of_app in Hv as [Hv|Hv].
        -- now apply Hkeys.
        -- apply list_elem_of_singleton in Hv as ->. exact Hin.
    + split.
      { rewrite Heq. apply NoDup_app. split; [exact Hnodup|].
        split; [|apply NoDup_singleton].
        intros k Hk Hk'. apply list_elem_of_singleton in Hk' as ->. contradiction. }
      split.
      * intros k vs Hkvs. rewrite List.filter_app. cbn.
        apply defaultdict_append_elem in Hkvs
            as [[Hne Hkvs]|[(-> & vs0 & Hkvs & ->)|(-> & _ & ->)]];
          [| | |exact Hnodup].
        -- rewrite bool_decide_eq_false_2 by congruence.
           rewrite app_nil_r. now apply Hentries.
        -- exfalso. apply Hnin. apply list_elem_of_fmap. now exists (key x, vs0).
        -- rewrite bool_decide_eq_true_2 by reflexivity.
           replace (List.filter _ l) with (@nil V); [reflexivity|].
           symmetry. clearbody d. clear -Hkeys Hnin.
           induction l as [|y l IH]; [reflexivity|]. cbn.
           destruct (bool_decide_reflect (key y = key x)) as [Hy|Hy].
           ++ exfalso. apply Hnin. rewrite <- Hy. apply Hkeys.
              apply elem_of_cons. now left.
           ++ apply IH. intros v Hv. apply Hkeys. apply elem_of_cons. now right.
      * intros v Hv. rewrite Heq. apply elem_of_app.
        apply elem_of_app in Hv as [Hv|Hv]; [left; now apply Hkeys|].
        apply list_elem_of_singleton in Hv as ->. right.
        now apply list_elem_of_singleton.
Qed.

End Grouping.

(** ** Collisions of one pair *)

Lemma mem_elem_of (x : string) (l : list string) :
  PyStr.mem x l = true <-> x ∈ l.
Proof.
  unfold PyStr.mem. rewrite existsb_exists. split.
  - intros (y & Hy & Heq). apply String.eqb_eq in Heq as ->.
    now apply list_elem_of_In.
  - intros Hx. exists x. split; [now apply list_elem_of_In | apply String.eqb_refl].
Qed.

Lemma intersection_elem_of (a b : list string) (x : string) :
  x ∈ intersection a b <-> x ∈ a /\ x ∈ b.
Proof.
  unfold intersection. rewrite list_elem_of_In, filter_In, mem_elem_of.
  now rewrite <- list_elem_of_In.
Qed.

Lemma intersection_nil (a b : list string) :
  intersection a b = [] <-> ~ share a b.
Proof.
  split.
  - intros Hnil (x & Ha & Hb).
    assert (x ∈ intersection a b) as Hx by now apply intersection_elem_of.
    rewrite Hnil in Hx. now apply elem_of_nil in Hx.
  - intros Hno. destruct (intersection a b) as [|x l] eqn:Hi; [reflexivity|].
    exfalso. apply Hno. exists x. apply intersection_elem_of.
    rewrite Hi. apply elem_of_cons. now left.
Qed.

Lemma first_of_set_returns (s : list string) :
  s <> [] -> exists x, first_of_set s = Returned x /\ x ∈ s.
Proof.
  intros Hne. unfold first_of_set.
  destruct (set_iter s) as [|x l] eqn:Hiter.
  - destruct s as [|y s]; [congruence|]. exfalso.
    assert (y ∈ set_iter (y :: s)) as Hy.
    { apply set_iter_elem. apply elem_of_cons. now left. }
    rewrite Hiter in Hy. now apply elem_of_nil in Hy.
  - exists x. split; [reflexivity|]. apply set_iter_elem. rewrite Hiter.
    apply elem_of_cons. now left.
Qed.

(** [_check_collision] never raises: a pair that has a file in common gets
    a file warning about one such file, a pair that has no file but a
    feature in common a feature warning about one such feature, and any
    other pair nothing. *)
Lemma check_collision_cases (now : datetime) (sessions1 sessions2 : list CS.t)
    (user1 user2 : string) :
  (share (files_of sessions1) (files_of sessions2)
   /\ exists resource,
        resource ∈ files_of sessions1 /\ resource ∈ files_of sessions2
        /\ _check_collision now sessions1 sessions2 user1 user2
           = Returned (Some (file_warning now user1 user2 resource)))
  \/ (~ share (files_of sessions1) (files_of sessions2)
      /\ share (features_of sessions1) (features_of sessions2)
      /\ exists resource,
           resource ∈ features_of sessions1 /\ resource ∈ features_of sessions2
           /\ _check_collision now sessions1 sessions2 user1 user2
              = Returned (Some (feature_warning now user1 user2 resource)))
  \/ (~ share (files_of sessions1) (files_of sessions2)
      /\ ~ share (features_of sessions1) (features_of sessions2)
      /\ _check_collision now sessions1 sessions2 user1 user2 = Returned None).
Proof.
  unfold _check_collision. fold (files_of sessions1) (files_of sessions2).
  fold (features_of sessions1) (features_of sessions2).
  destruct (intersection (files_of sessions1) (files_of sessions2))
    as [|f fs] eqn:Hfiles.
  - apply intersection_nil in Hfiles. right.
    destruct (intersection (features_of sessions1) (features_of sessions2))
      as [|g gs] eqn:Hfeatures.
    + apply intersection_nil in Hfeatures. right. now repeat split.
    + left. destruct (first_of_set_returns (g :: gs)) as (r & Hr & Hin);
        [discriminate|].
      rewrite <- Hfeatures in Hin. apply intersection_elem_of in Hin as [H1 H2].
      split; [exact Hfiles|]. split; [now exists r|].
      exists r. rewrite Hr. now repeat split.
  - left. destruct (first_of_set_returns (f :: fs)) as (r & Hr & Hin);
      [discriminate|].
    rewrite <- Hfiles in Hin. apply intersection_elem_of in Hin as [H1 H2].
    split; [now exists r|]. exists r. rewrite Hr. now repeat split.
Qed.

Lemma check_collision_returns (now : datetime) (sessions1 sessions2 : list CS.t)
    (user1 user2 : string) :
  _check_collision now sessions1 sessions2 user1 user2
  = Returned (value_of (_check_collision now sessions1 sessions2 user1 user2)).
Proof.
  destruct (check_collision_cases now sessions1 sessions2 user1 user2)
    as [(_ & r & _ & _ & ->)|[(_ & _ & r & _ & _ & ->)|(_ & _ & ->)]];
    reflexivity.
Qed.

Lemma check_collision_users (now : datetime) (sessions1 sessions2 : list CS.t)
    (user1 user2 : string) (w : Collision.t) :
  value_of (_check_collision now sessions1 sessions2 user1 user2) = Some w ->
  Collision.users w = [user1; user2].
Proof.
  destruct (check_collision_cases now sessions1 sessions2 user1 user2)
    as [(_ & r & _ & _ & ->)|[(_ & _ & r & _ & _ & ->)|(_ & _ & ->)]];
    cbn; intros [= <-]; reflexivity.
Qed.

(** ** Collisions of a team *)

Lemma for_each_total {A B} (f : A -> outcome B) (g : A -> B) (l : list A) :
  (forall x, f x = Returned (g x)) -> for_each f l = Returned (map g l).
Proof.
  intros Hf. induction l as [|x l IH]; [reflexivity|].
  cbn [for_each map]. now rewrite Hf, IH.
Qed.

Lemma omap_id_map {A B} (g : A -> option B) (l : list A) :
  omap (fun o => o) (map g l) = omap g l.
Proof.
  induction l as [|x l IH]; [reflexivity|]. cbn. rewrite IH. reflexivity.
Qed.

Lemma check_pairs_found (now_at : string -> string -> datetime)
    (user_activities : list (string * list CS.t)) :
  check_pairs now_at user_activities
  = Returned (found_pairs now_at user_activities).
Proof.
  induction user_activities as [|[user1 sessions1] later IH]; [reflexivity|].
  cbn [check_pairs found_pairs].
  rewrite (for_each_total _
             (fun '(user2, sessions2) =>
                value_of (_check_collision (now_at user1 user2)
                            sessions1 sessions2 user1 user2))).
  - rewrite IH. cbn. now rewrite omap_id_map.
  - intros [user2 sessions2]. apply check_collision_returns.
Qed.

Lemma found_pairs_elem (now_at : string -> string -> datetime)
    (ua : list (string * list CS.t)) (w : Collision.t) :
  w ∈ found_pairs now_at ua <->
  exists pre u1 ss1 mid u2 ss2 post,
    ua = pre ++ (u1, ss1) :: mid ++ (u2, ss2) :: post
    /\ value_of (_check_collision (now_at u1 u2) ss1 ss2 u1 u2) = Some w.
Proof.
  induction ua as [|[a sa] later IH]; cbn [found_pairs].
  - split; [intros H; now apply elem_of_nil in H|].
    intros (pre & u1 & ss1 & mid & u2 & ss2 & post & Heq & _).
    now destruct pre.
  - rewrite elem_of_app, list_elem_of_omap, IH. split.
    + intros [([b sb] & Hin & Hw)|(pre & u1 & ss1 & mid & u2 & ss2 & post & -> & Hw)].
      * apply list_elem_of_split in Hin as (mid & post & ->).
        now exists [], a, sa, mid, b, sb, post.
      * now exists ((a, sa) :: pre), u1, ss1, mid, u2, ss2, post.
    + intros (pre & u1 & ss1 & mid & u2 & ss2 & post & Heq & Hw).
      destruct pre as [|e pre]; cbn in Heq; simplify_eq.
      * left. exists (u2, ss2).
        split; [|exact Hw]. apply elem_of_app. right. apply elem_of_cons. now left.
      * right. now exists pre, u1, ss1, mid, u2, ss2, post.
Qed.

Lemma filter_none {A} (P : A -> Prop) `{forall x, Decision (P x)} (l : list A) :
  (forall x, x ∈ l -> ~ P x) -> filter P l = [].
Proof.
  induction l as [|x l IH]; intros Hnone; [reflexivity|].
  rewrite filter_cons_False by (apply Hnone, elem_of_cons; now left).
  apply IH. intros y Hy. apply Hnone, elem_of_cons. now right.
Qed.

Lemma filter_omap_length {A B} (f : A -> option B) (P : B -> Prop) (Q : A -> Prop)
    `{forall y, Decision (P y)} `{forall x, Decision (Q x)} (l : list A) :
  (forall x y, f x = Some y -> P y -> Q x) ->
  (length (filter P (omap f l)) <= length (filter Q l))%nat.
Proof.
  intros Himp. induction l as [|x l IH]; [reflexivity|].
  cbn [omap list_omap]. destruct (f x) as [y|] eqn:Hfx.
  - destruct (decide (P y)) as [Hy|Hy].
    + rewrite filter_cons_True by exact Hy.
      rewrite (filter_cons_True Q) by now apply (Himp x y). cbn. lia.
    + rewrite filter_cons_False by exact Hy.
      rewrite (filter_cons Q). destruct (decide (Q x)); cbn; lia.
  - rewrite (filter_cons Q). destruct (decide (Q x)); cbn; lia.
Qed.

Lemma one_entry_per_key {A B} `{EqDecision A} (c : A) (l : list (A * B)) :
  NoDup l.*1 -> (length (filter (fun e => e.1 = c) l) <= 1)%nat.
Proof.
  induction l as [|[k v] l IH]; cbn [fmap list_fmap]; intros Hnodup; [cbn; lia|].
  apply NoDup_cons in Hnodup as [Hk Hnodup].
  rewrite filter_cons. cbn [fst] in *. destruct (decide (k = c)) as [->|Hne].
  - rewrite filter_none; [cbn; lia|].
    intros [k' v'] Hin Heq. cbn in Heq. subst k'. apply Hk.
    apply list_elem_of_fmap. now exists (c, v').
  - now apply IH.
Qed.

Lemma found_pairs_users (now_at : string -> string -> datetime)
    (ua : list (string * list CS.t)) (w : Collision.t) :
  w ∈ found_pairs now_at ua ->
  exists u1 u2, u1 ∈ ua.*1 /\ u2 ∈ ua.*1 /\ Collision.users w = [u1; u2].
Proof.
  intros Hw. apply found_pairs_elem in Hw
    as (pre & u1 & ss1 & mid & u2 & ss2 & post & -> & Hw).
  exists u1, u2. split; [|split].
  - rewrite fmap_app, fmap_cons. apply elem_of_app. right.
    apply elem_of_cons. now left.
  - rewrite fmap_app, fmap_cons, fmap_app, fmap_cons.
    apply elem_of_app. right. apply elem_of_cons. right.
    apply elem_of_app. right. apply elem_of_cons. now left.
  - now apply check_collision_users in Hw.
Qed.

(** Among the warnings of a list of distinct people at most one is about a
    given pair of two people. *)
Lemma found_pairs_at_most_one (now_at : string -> string -> datetime)
    (ua : list (string * list CS.t)) (u1 u2 : string) :
  NoDup ua.*1 -> u1 <> u2 ->
  (length (filter (about u1 u2) (found_pairs now_at ua)) <= 1)%nat.
Proof.
  intros Hnodup Hne. induction ua as [|[a sa] later IH]; [cbn; lia|].
  cbn [fmap list_fmap] in Hnodup. apply NoDup_cons in Hnodup as [Ha Hnodup].
  specialize (IH Hnodup). cbn [found_pairs]. rewrite filter_app, length_app.
  set (g := fun '(user2, sessions2) =>
              value_of (_check_collision (now_at a user2) sa sessions2 a user2)).
  set (c := if decide (a = u1) then u2 else u1).
  assert (length (filter (about u1 u2) (omap g later)) <= 1)%nat as Hfirst.
  { etransitivity; [|apply (one_entry_per_key c later Hnodup)].
    apply filter_omap_length. intros [b sb] w Hw Habout. cbn.
    apply check_collision_users in Hw. subst c.
    destruct Habout as [Hu|Hu]; rewrite Hw in Hu; injection Hu as -> ->.
    - now rewrite decide_True.
    - now rewrite decide_False by congruence. }
  destruct (decide (a = u1 \/ a = u2)) as [Hin|Hout].
  - (* the warnings of the later people are about pairs without [a] *)
    rewrite (filter_none (about u1 u2) (found_pairs now_at later)); [cbn; lia|].
    intros w Hw Habout. apply found_pairs_users in Hw as (x & y & Hx & Hy & Hw).
    destruct Habout as [Hu|Hu]; rewrite Hw in Hu; injection Hu as -> ->;
      destruct Hin as [->| ->]; contradiction.
  - rewrite (filter_none (about u1 u2) (omap g later)); [cbn; lia|].
    intros w Hw Habout. apply list_elem_of_omap in Hw as ([b sb] & _ & Hw).
    apply check_collision_users in Hw.
    destruct Habout as [Hu|Hu]; rewrite Hw in Hu; injection Hu as -> ->;
      apply Hout; auto.
Qed.

Lemma two_entries_split {A} (l : list A) (e1 e2 : A) :
  e1 ∈ l -> e2 ∈ l -> e1 <> e2 ->
  (exists pre mid post, l = pre ++ e1 :: mid ++ e2 :: post)
  \/ (exists pre mid post, l = pre ++ e2 :: mid ++ e1 :: post).
Proof.
  intros H1 H2 Hne. apply list_elem_of_split in H1 as (l1 & l2 & ->).
  apply elem_of_app in H2 as [H2|H2].
  - right. apply list_elem_of_split in H2 as (a & b & ->).
    exists a, b, l2. now rewrite <- app_assoc.
  - apply elem_of_cons in H2 as [->|H2]; [congruence|].
    left. apply list_elem_of_split in H2 as (a & b & ->). now exists l1, a, b.
Qed.

Lemma share_sym (a b : list string) : share a b -> share b a.
Proof. intros (x & Ha & Hb). now exists x. Qed.

Lemma share_files_active (ss : list CS.t) (other : list string)
    (field : CS.t -> list string) :
  share (flat_map field ss) other -> ss <> [].
Proof.
  intros (x & Hx & _) ->. cbn in Hx. now apply elem_of_nil in Hx.
Qed.

Section Team.
Variables (now : datetime) (sessions : list CS.t) (project_id : string)
          (lookback : Z).

#[local] Abbreviation user_activities :=
  (user_activities_of now sessions project_id lookback).

Lemma user_activities_NoDup : NoDup user_activities.*1.
Proof. apply (grouped CS.user_id). Qed.

Lemma user_activities_entry (u : string) (ss : list CS.t) :
  (u, ss) ∈ user_activities ->
  ss = sessions_in_window now sessions project_id lookback u.
Proof.
  intros Hin. apply (grouped CS.user_id) in Hin. rewrite Hin.
  unfold sessions_in_window. apply filter_ext. intros s.
  destruct (String.eqb_spec (CS.user_id s) u) as [Heq|Hne].
  - now apply bool_decide_eq_true_2.
  - now apply bool_decide_eq_false_2.
Qed.

Lemma user_activities_active (u : string) :
  sessions_in_window now sessions project_id lookback u <> [] ->
  (u, sessions_in_window now sessions project_id lookback u) ∈ user_activities.
Proof.
  intros Hne.
  destruct (sessions_in_window now sessions project_id lookback u)
    as [|s rest] eqn:Hwin; [congruence|].
  assert (In s (sessions_in_window now sessions project_id lookback u)) as Hs.
  { rewrite Hwin. now left. }
  unfold sessions_in_window in Hs. apply filter_In in Hs as [Hs Hu].
  apply String.eqb_eq in Hu.
  assert (CS.user_id s ∈ user_activities.*1) as Hkey.
  { apply (grouped CS.user_id). now apply list_elem_of_In. }
  rewrite Hu in Hkey. apply list_elem_of_fmap in Hkey as ([u' ss] & Hfst & Hin).
  cbn in Hfst. subst u'.
  pose proof (user_activities_entry u ss Hin) as Hss.
  rewrite Hwin in Hss. now rewrite <- Hss.
Qed.

Lemma detect_team_collisions_found (now_at : string -> string -> datetime) :
  detect_team_collisions now now_at sessions project_id lookback
  = Returned (found_pairs now_at user_activities).
Proof. unfold detect_team_collisions. apply check_pairs_found. Qed.

End Team.

(** C5. Collision detection raises [OverflowError] when the cutoff of the
    window cannot be computed, and nothing else; otherwise it returns, and
    of its warnings:
    at most one is about a given pair of two people; each is about two
    different people and is either the file warning for a file both have in
    their sessions inside the window, or the feature warning for a feature
    both have, the latter only when they have no file in common; a pair
    with a file in common gets a file warning, of confidence 9/10; a pair
    with no file but a feature in common gets a feature warning, of
    confidence 7/10; and a file warning's confidence is above a feature
    warning's. *)
Theorem C5_one_warning_per_pair_files_first (now : datetime)
    (now_at : string -> string -> datetime) (sessions : list CS.t)
    (project_id : string) (lookback : Z) :
  let in_window := sessions_in_window now sessions project_id lookback in
  match cutoff now (timedelta_hours lookback) with
  | Raised e =>
      e = OverflowError
      /\ Analyzer.detect_team_collisions now now_at sessions project_id lookback
         = Raised OverflowError
  | Returned _ =>
  exists warnings,
    Analyzer.detect_team_collisions now now_at sessions project_id lookback
    = Returned warnings
    /\ (forall u1 u2, u1 <> u2 ->
           (length (filter (about u1 u2) warnings) <= 1)%nat)
    /\ (forall w, w ∈ warnings ->
           exists u1 u2 resource,
             u1 <> u2
             /\ ((w = file_warning (now_at u1 u2) u1 u2 resource
                  /\ resource ∈ files_of (in_window u1)
                  /\ resource ∈ files_of (in_window u2))
                 \/ (w = feature_warning (now_at u1 u2) u1 u2 resource
                     /\ ~ share (files_of (in_window u1)) (files_of (in_window u2))
                     /\ resource ∈ features_of (in_window u1)
                     /\ resource ∈ features_of (in_window u2))))
    /\ (forall u1 u2, u1 <> u2 ->
           share (files_of (in_window u1)) (files_of (in_window u2)) ->
           exists w, w ∈ warnings /\ about u1 u2 w
                     /\ Collision.type w = "file_collision"
                     /\ Collision.confidence w = (9 # 10)%Q)
    /\ (forall u1 u2, u1 <> u2 ->
           ~ share (files_of (in_window u1)) (files_of (in_window u2)) ->
           share (features_of (in_window u1)) (features_of (in_window u2)) ->
           exists w, w ∈ warnings /\ about u1 u2 w
                     /\ Collision.type w = "feature_collision"
                     /\ Collision.confidence w = (7 # 10)%Q)
    /\ (forall w w', w ∈ warnings -> w' ∈ warnings ->
           Collision.type w = "file_collision" ->
           Collision.type w' = "feature_collision" ->
           (Collision.confidence w' < Collision.confidence w)%Q)
  end.
Proof.
  intros in_window. unfold Analyzer.detect_team_collisions.
  destruct (cutoff now (timedelta_hours lookback)) as [cutoff_time|e] eqn:Hcutoff;
    [|apply cutoff_raises in Hcutoff as ->; split; reflexivity].
  cbn [mbind outcome_bind].
  set (ua := user_activities_of now sessions project_id lookback).
  pose proof (user_activities_NoDup now sessions project_id lookback) as Hnodup.
  pose proof (user_activities_entry now sessions project_id lookback) as Hentry.
  pose proof (user_activities_active now sessions project_id lookback) as Hactive.
  fold ua in Hnodup, Hentry, Hactive. fold in_window in Hentry, Hactive.
  exists (found_pairs now_at ua).
  assert (forall w, w ∈ found_pairs now_at ua ->
            exists u1 u2 resource,
              u1 <> u2
              /\ ((w = file_warning (now_at u1 u2) u1 u2 resource
                   /\ resource ∈ files_of (in_window u1)
                   /\ resource ∈ files_of (in_window u2))
                  \/ (w = feature_warning (now_at u1 u2) u1 u2 resource
                      /\ ~ share (files_of (in_window u1)) (files_of (in_window u2))
                      /\ resource ∈ features_of (in_window u1)
                      /\ resource ∈ features_of (in_window u2)))) as Hshape.
  { intros w Hw. apply found_pairs_elem in Hw
      as (pre & u1 & ss1 & mid & u2 & ss2 & post & Hua & Hw).
    assert ((u1, ss1) ∈ ua) as H1.
    { rewrite Hua. apply elem_of_app. right. apply elem_of_cons. now left. }
    assert ((u2, ss2) ∈ ua) as H2.
    { rewrite Hua. apply elem_of_app. right. apply elem_of_cons. right.
      apply elem_of_app. right. apply elem_of_cons. now left. }
    assert (u1 <> u2) as Hne.
    { intros ->. rewrite Hua in Hnodup.
      rewrite fmap_app, fmap_cons, fmap_app, fmap_cons in Hnodup.
      apply NoDup_app in Hnodup as (_ & _ & Hnodup).
      apply NoDup_cons in Hnodup as [Hnotin _]. apply Hnotin.
      apply elem_of_app. right. apply elem_of_cons. now left. }
    apply Hentry in H1, H2. subst ss1 ss2.
    exists u1, u2.
    destruct (check_collision_cases (now_at u1 u2) (in_window u1) (in_window u2)
                u1 u2)
      as [(_ & r & Hr1 & Hr2 & Heq)|[(Hno & _ & r & Hr1 & Hr2 & Heq)|(_ & _ & Heq)]];
      rewrite Heq in Hw; cbn in Hw; [| |discriminate];
      injection Hw as <-; exists r; split; auto. }
  split; [apply detect_team_collisions_found|].
  split; [intros u1 u2 Hne; now apply found_pairs_at_most_one|].
  split; [exact Hshape|].
  assert (forall u1 u2, u1 <> u2 ->
            in_window u1 <> [] -> in_window u2 <> [] ->
            exists a b, ((a = u1 /\ b = u2) \/ (a = u2 /\ b = u1))
              /\ forall w,
                   value_of (_check_collision (now_at a b) (in_window a)
                               (in_window b) a b) = Some w ->
                   w ∈ found_pairs now_at ua) as Hchecked.
  { intros u1 u2 Hne Ha1 Ha2. apply Hactive in Ha1, Ha2.
    destruct (two_entries_split ua _ _ Ha1 Ha2) as [Hsplit|Hsplit];
      [congruence| |].
    - destruct Hsplit as (pre & mid & post & Hua). exists u1, u2.
      split; [now left|]. intros w Hw. apply found_pairs_elem.
      now exists pre, u1, (in_window u1), mid, u2, (in_window u2), post.
    - destruct Hsplit as (pre & mid & post & Hua). exists u2, u1.
      split; [now right|]. intros w Hw. apply found_pairs_elem.
      now exists pre, u2, (in_window u2), mid, u1, (in_window u1), post. }
  split; [|split].
  - intros u1 u2 Hne Hshare.
    destruct (Hchecked u1 u2 Hne) as (a & b & Hab & Hin).
    { now apply (share_files_active _ _ CS.files_mentioned) in Hshare. }
    { now apply share_sym, (share_files_active _ _ CS.files_mentioned) in Hshare. }
    assert (share (files_of (in_window a)) (files_of (in_window b))) as Hshare'.
    { destruct Hab as [[-> ->]|[-> ->]]; [exact Hshare | now apply share_sym]. }
    destruct (check_collision_cases (now_at a b) (in_window a) (in_window b) a b)
      as [(_ & r & _ & _ & Heq)|[(Hno & _)|(Hno & _)]]; [|contradiction..].
    exists (file_warning (now_at a b) a b r). split.
    { apply Hin. now rewrite Heq. }
    split; [|now split].
    unfold about. cbn. destruct Hab as [[-> ->]|[-> ->]]; auto.
  - intros u1 u2 Hne Hnofile Hshare.
    destruct (Hchecked u1 u2 Hne) as (a & b & Hab & Hin).
    { now apply (share_files_active _ _ CS.features_discussed) in Hshare. }
    { now apply share_sym, (share_files_active _ _ CS.features_discussed)
        in Hshare. }
    assert (share (features_of (in_window a)) (features_of (in_window b)))
      as Hshare'.
    { destruct Hab as [[-> ->]|[-> ->]]; [exact Hshare | now apply share_sym]. }
    assert (~ share (files_of (in_window a)) (files_of (in_window b))) as Hnofile'.
    { destruct Hab as [[-> ->]|[-> ->]]; [exact Hnofile|].
      intros H. now apply Hnofile, share_sym. }
    destruct (check_collision_cases (now_at a b) (in_window a) (in_window b) a b)
      as [(Hyes & _)|[(_ & _ & r & _ & _ & Heq)|(_ & Hno & _)]];
      [contradiction| |contradiction].
    exists (feature_warning (now_at a b) a b r). split.
    { apply Hin. now rewrite Heq. }
    split; [|now split].
    unfold about. cbn. destruct Hab as [[-> ->]|[-> ->]]; auto.
  - intros w w' Hw Hw' Htype Htype'.
    apply Hshape in Hw as (u1 & u2 & r & _ & [(-> & _)|(-> & _)]);
      [|discriminate].
    apply Hshape in Hw' as (u1' & u2' & r' & _ & [(-> & _)|(-> & _)]);
      [discriminate|].
    cbn. unfold Qlt. cbn. lia.
Qed.

(** ** The clock, ties and reruns *)

Lemma recent_sessions_same_window (now1 now2 : datetime) (sessions : list CS.t)
    (u p : string) (lookback : Z) :
  Forall (fun s => now1 - timedelta_hours lookback < CS.end_time s
                   <-> now2 - timedelta_hours lookback < CS.end_time s)
         sessions ->
  recent_sessions_of now1 sessions u p lookback
  = recent_sessions_of now2 sessions u p lookback.
Proof.
  intros Hsame. unfold recent_sessions_of. apply filter_ext_in. intros s Hs.
  rewrite List.Forall_forall in Hsame. specialize (Hsame s Hs).
  f_equal.
  destruct (Z.ltb_spec (now1 - timedelta_hours lookback) (CS.end_time s)),
           (Z.ltb_spec (now2 - timedelta_hours lookback) (CS.end_time s));
    try reflexivity; lia.
Qed.

Lemma check_collision_without_time (now1 now2 : datetime)
    (sessions1 sessions2 : list CS.t) (user1 user2 : string) :
  without_time
    <$> value_of (_check_collision now1 sessions1 sessions2 user1 user2)
  = without_time
      <$> value_of (_check_collision now2 sessions1 sessions2 user1 user2).
Proof.
  unfold _check_collision.
  destruct (intersection _ _) as [|f fs].
  - destruct (intersection _ _) as [|g gs]; [reflexivity|].
    destruct (first_of_set (g :: gs)); reflexivity.
  - destruct (first_of_set (f :: fs)); reflexivity.
Qed.

Lemma map_omap {A B C} (f : B -> C) (g : A -> option B) (l : list A) :
  map f (omap g l) = omap (fun x => f <$> g x) l.
Proof.
  induction l as [|x l IH]; [reflexivity|]. cbn.
  destruct (g x); cbn; now rewrite IH.
Qed.

Lemma omap_pointwise {A B} (f g : A -> option B) (l : list A) :
  (forall x, f x = g x) -> omap f l = omap g l.
Proof.
  intros Hfg. induction l as [|x l IH]; [reflexivity|]. cbn.
  now rewrite Hfg, IH.
Qed.

Lemma found_pairs_without_time (now_at1 now_at2 : string -> string -> datetime)
    (ua : list (string * list CS.t)) :
  map without_time (found_pairs now_at1 ua)
  = map without_time (found_pairs now_at2 ua).
Proof.
  induction ua as [|[a sa] later IH]; [reflexivity|].
  cbn [found_pairs]. rewrite !map_app, IH, !map_omap. f_equal.
  apply omap_pointwise. intros [b sb]. apply check_collision_without_time.
Qed.

Lemma window_filter_same (now1 now2 : datetime) (sessions : list CS.t)
    (project_id : string) (lookback : Z) :
  Forall (fun s => now1 - timedelta_hours lookback < CS.end_time s
                   <-> now2 - timedelta_hours lookback < CS.end_time s)
         sessions ->
  List.filter
    (fun s => String.eqb (CS.project_id s) project_id
              && (now1 - timedelta_hours lookback <? CS.end_time s)) sessions
  = List.filter
      (fun s => String.eqb (CS.project_id s) project_id
                && (now2 - timedelta_hours lookback <? CS.end_time s)) sessions.
Proof.
  intros Hsame. apply filter_ext_in. intros s Hs.
  rewrite List.Forall_forall in Hsame. specialize (Hsame s Hs).
  f_equal.
  destruct (Z.ltb_spec (now1 - timedelta_hours lookback) (CS.end_time s)),
           (Z.ltb_spec (now2 - timedelta_hours lookback) (CS.end_time s));
    try reflexivity; lia.
Qed.

(** C7 (as the code has it). The outputs are functions of the records, the
    configuration and the clock. Two clock readings whose cutoffs can be
    computed and leave the same sessions inside the window give the same
    status, and the same warnings but for [detected_at], which is the clock
    reading. Records of one person and project with one timestamp stay in
    the order of the input: the sort is by timestamp alone and stable. *)
Theorem C7_reruns_agree_up_to_the_clock :
  (forall now1 now2 cutoff1 cutoff2 sessions u p lookback,
      cutoff now1 (timedelta_hours lookback) = Returned cutoff1 ->
      cutoff now2 (timedelta_hours lookback) = Returned cutoff2 ->
      Forall (fun s => cutoff1 < CS.end_time s <-> cutoff2 < CS.end_time s)
             sessions ->
      exists activity,
        Analyzer.calculate_developer_status now1 sessions u p lookback
        = Returned activity
        /\ Analyzer.calculate_developer_status now2 sessions u p lookback
           = Returned activity)
  /\ (forall now1 now2 cutoff1 cutoff2 now_at1 now_at2 sessions project_id
             lookback,
         cutoff now1 (timedelta_hours lookback) = Returned cutoff1 ->
         cutoff now2 (timedelta_hours lookback) = Returned cutoff2 ->
         Forall (fun s => cutoff1 < CS.end_time s <-> cutoff2 < CS.end_time s)
                sessions ->
         exists warnings1 warnings2,
           Analyzer.detect_team_collisions now1 now_at1 sessions project_id
             lookback
           = Returned warnings1
           /\ Analyzer.detect_team_collisions now2 now_at2 sessions project_id
                lookback
              = Returned warnings2
           /\ map without_time warnings1 = map without_time warnings2)
  /\ (forall interactions gap u p t,
         Forall (fun i => CI.user_id i = u /\ CI.project_id i = p) interactions ->
         stamped t (concat (map CS.interactions
                                (group_into_sessions interactions gap)))
         = stamped t interactions).
Proof.
  split; [|split].
  - intros now1 now2 cutoff1 cutoff2 sessions u p lookback H1 H2 Hsame.
    unfold Analyzer.calculate_developer_status. rewrite H1, H2.
    cbn [mbind outcome_bind mret outcome_ret].
    apply cutoff_returns in H1 as (_ & _ & ->), H2 as (_ & _ & ->).
    eexists. split; [reflexivity|]. f_equal.
    unfold calculate_developer_status.
    now rewrite (recent_sessions_same_window now1 now2).
  - intros now1 now2 cutoff1 cutoff2 now_at1 now_at2 sessions project_id lookback
      H1 H2 Hsame.
    unfold Analyzer.detect_team_collisions. rewrite H1, H2.
    cbn [mbind outcome_bind].
    apply cutoff_returns in H1 as (_ & _ & ->), H2 as (_ & _ & ->).
    eexists _, _. split; [apply detect_team_collisions_found|].
    split; [apply detect_team_collisions_found|].
    unfold user_activities_of.
    rewrite (window_filter_same now1 now2) by exact Hsame.
    apply found_pairs_without_time.
  - intros interactions gap u p t Hall.
    destruct interactions as [|x l]; [reflexivity|].
    rewrite (group_into_sessions_one_pair (x :: l) gap u p Hall) by discriminate.
    destruct (sessions_of_group_spec gap [] u p (x :: l))
      as (new & -> & Hmembers & _).
    rewrite app_nil_l, Hmembers. apply sort_stable.
Qed.

End WithLibrary.

(** * Further properties *)

Section Further.
Context {L : PyLib}.

(** ** Segmentation of a mixed batch *)

Lemma defaultdict_append_members {K V} `{EqDecision K}
    (d : list (K * list V)) (k : K) (v : V) :
  Permutation (concat (PyList.defaultdict_append d k v).*2) (v :: concat d.*2).
Proof.
  induction d as [|[k' vs] d IH]; cbn; [reflexivity|].
  destruct (decide (k' = k)) as [->|Hne]; cbn.
  - rewrite <- app_assoc. cbn. symmetry. apply Permutation_middle.
  - rewrite IH. symmetry. apply Permutation_middle.
Qed.

Lemma grouped_members {K V} `{EqDecision K} (key : V -> K) (l : list V) :
  Permutation
    (concat (foldl (fun d v => PyList.defaultdict_append d (key v) v) [] l).*2) l.
Proof.
  induction l as [|x l IH] using rev_ind; [reflexivity|].
  rewrite foldl_snoc, defaultdict_append_members, IH.
  apply Permutation_cons_append.
Qed.

Lemma saved_session_pair (gap : Z) (u p : string) (s : CS.t) :
  saved_session gap u p s -> CS.user_id s = u /\ CS.project_id s = p.
Proof. intros (first & rest & n & -> & _). now split. Qed.

Lemma sessions_of_all (u p : string) (l : list CS.t) :
  Forall (fun s => CS.user_id s = u /\ CS.project_id s = p) l ->
  sessions_of u p l = l.
Proof.
  unfold sessions_of. induction 1 as [|s l [Hu Hp] _ IH]; [reflexivity|].
  cbn. rewrite IH, Hu, Hp, !String.eqb_refl. reflexivity.
Qed.

Lemma sessions_of_none (u p : string) (l : list CS.t) :
  Forall (fun s => (CS.user_id s, CS.project_id s) <> (u, p)) l ->
  sessions_of u p l = [].
Proof.
  unfold sessions_of. induction 1 as [|s l Hs _ IH]; [reflexivity|].
  cbn. rewrite IH.
  destruct (String.eqb_spec (CS.user_id s) u) as [Hu|]; [|reflexivity].
  destruct (String.eqb_spec (CS.project_id s) p) as [Hp|]; [|reflexivity].
  exfalso. apply Hs. congruence.
Qed.

(** The sessions of the groups of a dictionary, pair by pair. *)
Lemma group_fold_by_pair (gap : Z)
    (groups : list ((string * string) * list CI.t)) (S0 : list CS.t) :
  NoDup groups.*1 ->
  exists new,
    foldl (sessions_of_group gap) S0 groups = S0 ++ new
    /\ Permutation (concat (map CS.interactions new)) (concat groups.*2)
    /\ Forall (fun s => (CS.user_id s, CS.project_id s) ∈ groups.*1) new
    /\ (forall u p items,
          ((u, p), items) ∈ groups ->
          concat (map CS.interactions (sessions_of u p new))
          = PyList.sort CI.interaction_timestamp false items
          /\ Forall (far_apart gap) (adjacent (sessions_of u p new))).
Proof.
  revert S0. induction groups as [|[[u0 p0] items0] groups IH]; intros S0 Hnodup.
  - exists []. rewrite app_nil_r. split; [reflexivity|].
    split; [reflexivity|]. split; [constructor|].
    intros u p items Hin. now apply elem_of_nil in Hin.
  - cbn [fmap list_fmap] in Hnodup. apply NoDup_cons in Hnodup as [Hfresh Hnodup].
    cbn [foldl].
    destruct (sessions_of_group_spec gap S0 u0 p0 items0)
      as (new1 & -> & Hmem1 & Hsaved1 & Hapart1).
    destruct (IH (S0 ++ new1) Hnodup) as (new2 & -> & Hperm2 & Hkeys2 & Hpairs2).
    assert (Forall (fun s => CS.user_id s = u0 /\ CS.project_id s = p0) new1)
      as Hpair1.
    { eapply Forall_impl; [exact Hsaved1|]. apply saved_session_pair. }
    exists (new1 ++ new2). split; [now rewrite app_assoc|].
    split; [|split].
    + rewrite map_app, concat_app. cbn. rewrite Hmem1.
      rewrite sort_Permutation. now rewrite Hperm2.
    + apply Forall_app. split.
      * eapply Forall_impl; [exact Hpair1|]. intros s [-> ->].
        cbn. apply elem_of_cons. now left.
      * eapply Forall_impl; [exact Hkeys2|]. intros s Hs.
        cbn. apply elem_of_cons. now right.
    + intros u p items Hin. unfold sessions_of in *.
      rewrite List.filter_app. fold (sessions_of u p new1) (sessions_of u p new2).
      apply elem_of_cons in Hin as [Heq|Hin].
      * simplify_eq.
        rewrite (sessions_of_all u0 p0 new1 Hpair1).
        rewrite (sessions_of_none u0 p0 new2).
        { rewrite app_nil_r. now split. }
        eapply Forall_impl; [exact Hkeys2|]. intros s Hs Heq.
        apply Hfresh. now rewrite <- Heq.
      * rewrite (sessions_of_none u p new1).
        { cbn. now apply Hpairs2. }
        eapply Forall_impl; [exact Hpair1|]. intros s [Hu Hp] Heq.
        apply Hfresh. rewrite Hu, Hp in Heq. rewrite Heq.
        apply list_elem_of_fmap. now exists ((u, p), items).
Qed.

Lemma records_of_grouped (u p : string) (l : list CI.t) :
  List.filter (fun i => bool_decide ((CI.user_id i, CI.project_id i) = (u, p))) l
  = records_of u p l.
Proof.
  unfold records_of. apply filter_ext. intros i.
  destruct (String.eqb_spec (CI.user_id i) u) as [Hu|Hu];
    destruct (String.eqb_spec (CI.project_id i) p) as [Hp|Hp]; cbn.
  - apply bool_decide_eq_true_2. congruence.
  - apply bool_decide_eq_false_2. congruence.
  - apply bool_decide_eq_false_2. congruence.
  - apply bool_decide_eq_false_2. congruence.
Qed.

Lemma records_of_empty (u p : string) (l : list CI.t) :
  Forall (fun i => (CI.user_id i, CI.project_id i) <> (u, p)) l ->
  records_of u p l = [].
Proof.
  unfold records_of. induction 1 as [|i l Hi _ IH]; [reflexivity|].
  cbn. rewrite IH.
  destruct (String.eqb_spec (CI.user_id i) u) as [Hu|]; [|reflexivity].
  destruct (String.eqb_spec (CI.project_id i) p) as [Hp|]; [|reflexivity].
  exfalso. apply Hi. congruence.
Qed.

Lemma total_interactions_members (sessions : list CS.t) :
  total_interactions_of sessions
  = Z.of_nat (length (concat (map CS.interactions sessions))).
Proof.
  unfold total_interactions_of, PyList.sum.
  induction sessions as [|s l IH]; [reflexivity|].
  cbn. rewrite length_app, IH. lia.
Qed.

Lemma nonempty_members_count (sessions : list CS.t) :
  Forall (fun s => CS.interactions s <> []) sessions ->
  (length sessions <= length (concat (map CS.interactions sessions)))%nat.
Proof.
  induction 1 as [|s l Hs _ IH]; [reflexivity|].
  cbn. rewrite length_app. destruct (CS.interactions s); [congruence|]. cbn. lia.
Qed.

(** The members of the sessions are the records of the batch, and every
    session has a member, members that carry its person and project and
    follow each other within the threshold, and spans them. *)
Lemma segmented_members (interactions : list CI.t) (gap : Z) :
  let sessions := group_into_sessions interactions gap in
  Permutation interactions (concat (map CS.interactions sessions))
  /\ Forall (fun s =>
               CS.interactions s <> []
               /\ Forall (fun i => CI.user_id i = CS.user_id s
                                   /\ CI.project_id i = CS.project_id s)
                         (CS.interactions s)
               /\ Forall (joined gap) (adjacent (CS.interactions s))
               /\ spans_members s)
            sessions.
Proof.
  intros sessions. subst sessions. unfold group_into_sessions.
  set (groups := foldl _ [] interactions).
  pose proof (grouped (fun i => (CI.user_id i, CI.project_id i)) interactions)
    as (Hnodup & Hentries & Hkeys).
  fold groups in Hnodup, Hentries, Hkeys.
  pose proof (grouped_members (fun i => (CI.user_id i, CI.project_id i))
                interactions) as Hgroups.
  fold groups in Hgroups.
  pose proof (group_into_sessions_saved interactions gap) as Hsaved.
  change (Forall (fun s => exists u p, saved_session gap u p s)
                 (foldl (sessions_of_group gap) [] groups)) in Hsaved.
  destruct (group_fold_by_pair gap groups [] Hnodup)
    as (new & Heq & Hperm & Hpairs & Hby_pair).
  rewrite Heq in Hsaved |- *. rewrite app_nil_l in Hsaved |- *.
  assert (Permutation interactions (concat (map CS.interactions new))) as Hall.
  { transitivity (concat groups.*2); [symmetry; exact Hgroups|].
    symmetry. exact Hperm. }
  split; [exact Hall|].
  apply List.Forall_forall. intros s Hs.
  assert (s ∈ new) as Hs' by now apply list_elem_of_In.
  rewrite Forall_forall in Hsaved, Hpairs.
  destruct (Hsaved s Hs') as (u & p & Hsaved_s).
  pose proof (saved_session_pair gap u p s Hsaved_s) as [Hu Hp].
  specialize (Hpairs s Hs'). rewrite Hu, Hp in Hpairs.
  apply list_elem_of_fmap in Hpairs as ([[u' p'] items] & Hkey & Hin).
  cbn in Hkey. injection Hkey as <- <-.
  destruct (Hby_pair u p items Hin) as [Hmembers _].
  destruct Hsaved_s as (first & rest & n & -> & Hclose).
  split; [discriminate|]. split; [|split; [exact Hclose|apply create_session_spans]].
  apply Forall_forall. intros i Hi. cbn.
  assert (i ∈ PyList.sort CI.interaction_timestamp false items) as Hsorted.
  { rewrite <- Hmembers. apply list_elem_of_In, in_concat.
    exists (first :: rest). split; [|now apply list_elem_of_In].
    apply in_map_iff. exists (_create_session first rest u p n).
    split; [reflexivity|]. apply filter_In. split; [exact Hs|].
    cbn. now rewrite !String.eqb_refl. }
  rewrite sort_Permutation in Hsorted.
  rewrite (Hentries _ _ Hin) in Hsorted.
  apply list_elem_of_In, filter_In in Hsorted as [_ Hkey].
  apply bool_decide_eq_true_1 in Hkey. now injection Hkey as -> ->.
Qed.

(** X1. Segmenting a batch that mixes people and projects partitions it:
    the members of all sessions are the records of the batch, each once;
    every session has a member, and its members carry its person and
    project and are those the walk kept together, each following the one
    before within the threshold up to one part in [2 ^ 53], and within the
    threshold when that is at most [2 ^ 33] seconds; so the session sizes
    add up to the size of the batch and there are no more sessions than
    records. *)
Theorem X1_mixed_batch_is_partitioned (interactions : list CI.t) (gap : Z) :
  let sessions := group_into_sessions interactions gap in
  Permutation interactions (concat (map CS.interactions sessions))
  /\ Forall (fun s =>
               CS.interactions s <> []
               /\ Forall (fun i => CI.user_id i = CS.user_id s
                                   /\ CI.project_id i = CS.project_id s)
                         (CS.interactions s)
               /\ Forall (fun pair => joined gap pair
                                      /\ close_up_to_rounding gap pair)
                         (adjacent (CS.interactions s))
               /\ spans_members s)
            sessions
  /\ (exact_threshold gap ->
      Forall (fun s => Forall (close_enough gap) (adjacent (CS.interactions s)))
             sessions)
  /\ total_interactions_of sessions = Z.of_nat (length interactions)
  /\ (length sessions <= length interactions)%nat.
Proof.
  intros sessions.
  destruct (segmented_members interactions gap) as [Hall Hsessions].
  fold sessions in Hall, Hsessions.
  split; [exact Hall|]. split; [|split; [|split]].
  - eapply Forall_impl; [exact Hsessions|].
    intros s (Hne & Hpair & Hjoined & Hspan). repeat split; try assumption.
    eapply Forall_impl; [exact Hjoined|]. intros pair Hj.
    split; [exact Hj|now apply joined_close_up_to_rounding].
  - intros Hgap. eapply Forall_impl; [exact Hsessions|].
    intros s (_ & _ & Hjoined & _).
    eapply Forall_impl; [exact Hjoined|]. intros pair Hj.
    now apply joined_close_enough.
  - rewrite total_interactions_members. now rewrite <- Hall.
  - rewrite (Permutation_length Hall). apply nonempty_members_count.
    eapply Forall_impl; [exact Hsessions|]. now intros s (Hne & _).
Qed.

(** X2. In the segmentation of a mixed batch, the sessions of one person
    and project hold, session after session, that pair's records in
    chronological order, records with one timestamp in the order of the
    batch; and neighbouring sessions of the pair are more than the
    threshold apart. *)
Theorem X2_sessions_of_each_pair (interactions : list CI.t) (gap : Z)
    (u p : string) :
  let mine := sessions_of u p (group_into_sessions interactions gap) in
  concat (map CS.interactions mine)
  = PyList.sort CI.interaction_timestamp false (records_of u p interactions)
  /\ Forall (far_apart gap) (adjacent mine).
Proof.
  intros mine. subst mine. unfold group_into_sessions.
  set (groups := foldl _ [] interactions).
  pose proof (grouped (fun i => (CI.user_id i, CI.project_id i)) interactions)
    as (Hnodup & Hentries & Hkeys).
  fold groups in Hnodup, Hentries, Hkeys.
  destruct (group_fold_by_pair gap groups [] Hnodup)
    as (new & -> & _ & Hpairs & Hby_pair).
  rewrite app_nil_l.
  destruct (decide ((u, p) ∈ groups.*1)) as [Hin|Hout].
  - apply list_elem_of_fmap in Hin as ([[u' p'] items] & Hkey & Hin).
    cbn in Hkey. injection Hkey as <- <-.
    destruct (Hby_pair u p items Hin) as [Hmembers Hapart].
    split; [|exact Hapart].
    rewrite Hmembers, (Hentries _ _ Hin). now rewrite records_of_grouped.
  - rewrite (sessions_of_none u p new).
    + rewrite records_of_empty; [split; [reflexivity|constructor]|].
      apply Forall_forall. intros i Hi Heq. apply Hout. rewrite <- Heq.
      now apply Hkeys.
    + eapply Forall_impl; [exact Hpairs|]. intros s Hs Heq.
      apply Hout. now rewrite <- Heq.
Qed.

(** ** Sessions as the segmenter builds them *)

Lemma close_chain (gap : Z) (first : CI.t) (rest : list CI.t) :
  Forall (joined gap) (adjacent (first :: rest)) ->
  CI.interaction_timestamp first
  <= CI.interaction_timestamp (List.last rest first).
Proof.
  revert first. induction rest as [|y rest IH]; intros first Hclose; [cbn; lia|].
  change (adjacent (first :: y :: rest))
    with ((first, y) :: adjacent (y :: rest)) in Hclose.
  apply Forall_cons in Hclose as [Hfirst Hrest].
  specialize (IH y Hrest). destruct Hfirst as [Hfirst _]. cbn in Hfirst.
  assert (List.last (y :: rest) first = List.last rest y) as ->.
  { pose proof (last_default first (y :: rest)) as H1.
    pose proof (last_default y rest) as H2.
    rewrite last_cons_cons, H2 in H1. now injection H1. }
  lia.
Qed.

(** X3. Every session the segmenter returns starts no later than it ends
    and lasts at least one minute on record. The recorded duration is the
    whole minutes of the span, worked out in floats, raised to 1: it
    differs from the span by less than a minute, except that a span under
    one minute counts as 1; and for a span under [2 ^ 32] seconds (136
    years) it is the quotient of the span by a minute, raised to 1. *)
Theorem X3_session_times_and_duration (interactions : list CI.t) (gap : Z) :
  Forall (fun s =>
            CS.start_time s <= CS.end_time s
            /\ 1 <= CS.duration_minutes s
            /\ (CS.duration_minutes s - 1) * minute_microseconds
               <= CS.end_time s - CS.start_time s
               < (CS.duration_minutes s + 1) * minute_microseconds
            /\ (CS.end_time s - CS.start_time s < 2 ^ 32 * microseconds_per_second ->
                CS.duration_minutes s
                = Z.max ((CS.end_time s - CS.start_time s) / minute_microseconds) 1))
         (group_into_sessions interactions gap).
Proof.
  eapply Forall_impl; [apply group_into_sessions_saved|].
  intros s (u & p & first & rest & n & -> & Hclose).
  apply close_chain in Hclose. cbn [CS.start_time CS.end_time CS.duration_minutes
                                     _create_session].
  set (span := CI.interaction_timestamp (List.last rest first)
               - CI.interaction_timestamp first) in *.
  assert (0 <= span) as Hspan by (subst span; lia).
  pose proof (whole_minutes_bounds span Hspan) as Hbounds.
  pose proof (whole_minutes_exact span) as Hexact.
  unfold minute_microseconds, microseconds_per_second in *.
  pose proof (Z.div_mod span (60 * 1000000) ltac:(lia)) as Hdiv.
  pose proof (Z.mod_pos_bound span (60 * 1000000) ltac:(lia)) as Hmod.
  assert (0 <= span / (60 * 1000000)) as Hq by (apply Z.div_pos; lia).
  split; [lia|]. split; [lia|]. split; [lia|].
  intros Hsmall. rewrite Hexact by lia. reflexivity.
Qed.

(** ** The rules of the classification *)

Lemma total_stuck_Permutation (l k : list CS.t) :
  Permutation l k -> total_stuck_of l = total_stuck_of k.
Proof.
  intros H. unfold total_stuck_of. apply sum_Permutation.
  now apply Permutation_map.
Qed.

Lemma status_Permutation (l k : list CS.t) :
  Permutation l k ->
  _calculate_objective_status l = _calculate_objective_status k.
Proof.
  intros H. unfold _calculate_objective_status.
  rewrite (total_success_Permutation _ _ H), (total_interactions_Permutation _ _ H),
    (total_stuck_Permutation _ _ H).
  destruct l as [|a l], k as [|b k]; try reflexivity.
  - now apply Permutation_nil_cons in H.
  - symmetry in H. now apply Permutation_nil_cons in H.
Qed.

Lemma status_idle_iff (sessions : list CS.t) :
  _calculate_objective_status sessions = "idle" <-> sessions = [].
Proof.
  unfold _calculate_objective_status. destruct sessions as [|s l].
  - tauto.
  - split; [|discriminate].
    destruct (_ && _); [discriminate|]. destruct (_ || _); [discriminate|].
    destruct (_ <? _); discriminate.
Qed.

Lemma status_rules_nonempty (n success stuck : Z) :
  let state :=
    if (0 <? success) && (n <=? 6) then "flow"
    else if (1 <? stuck) || ((10 <? n) && (success =? 0)) then "stuck"
    else if 6 <? n then "slow"
    else "flow" in
  (state = "flow" <-> n <= 6 /\ (0 < success \/ stuck <= 1))
  /\ (state = "slow" <-> 6 < n /\ stuck <= 1 /\ ~ (10 < n /\ success = 0))
  /\ (state = "stuck" <->
      (success <= 0 \/ 6 < n) /\ (1 < stuck \/ (10 < n /\ success = 0))).
Proof.
  cbv zeta.
  destruct (Z.ltb_spec 0 success), (Z.leb_spec n 6), (Z.ltb_spec 1 stuck),
           (Z.ltb_spec 10 n), (Z.eqb_spec success 0), (Z.ltb_spec 6 n);
    cbn; repeat split; intros; try discriminate; try lia.
Qed.

(** X4. The classification in closed form, with [n] the interaction count:
    [idle] exactly for no sessions; [flow] exactly for at most 6
    interactions with a success signal or at most one stuck signal; [slow]
    exactly for more than 6 interactions, at most one stuck signal, and not
    more than 10 interactions without success; [stuck] in the remaining
    cases. The state does not depend on the order of the sessions. *)
Theorem X4_classification_rules (sessions : list CS.t) :
  let n := total_interactions_of sessions in
  let success := total_success_of sessions in
  let stuck := total_stuck_of sessions in
  let state := _calculate_objective_status sessions in
  (state = "idle" <-> sessions = [])
  /\ (state = "flow" <->
      sessions <> [] /\ n <= 6 /\ (0 < success \/ stuck <= 1))
  /\ (state = "slow" <->
      sessions <> [] /\ 6 < n /\ stuck <= 1 /\ ~ (10 < n /\ success = 0))
  /\ (state = "stuck" <->
      sessions <> [] /\ (success <= 0 \/ 6 < n)
      /\ (1 < stuck \/ (10 < n /\ success = 0)))
  /\ (forall reordered, Permutation sessions reordered ->
                        _calculate_objective_status reordered = state).
Proof.
  intros n success stuck state.
  split; [apply status_idle_iff|].
  assert (forall reordered, Permutation sessions reordered ->
                            _calculate_objective_status reordered = state) as Hperm.
  { intros reordered H. symmetry. now apply status_Permutation. }
  destruct sessions as [|s sessions].
  { subst state. cbn. repeat split; try discriminate; try exact Hperm.
    all: intros (H & _); congruence. }
  assert (s :: sessions <> []) as Hne by discriminate.
  destruct (status_rules_nonempty n success stuck) as (Hflow & Hslow & Hstuck).
  change (_calculate_objective_status (s :: sessions))
    with (if (0 <? success) && (n <=? 6) then "flow"
          else if (1 <? stuck) || ((10 <? n) && (success =? 0)) then "stuck"
          else if 6 <? n then "slow"
          else "flow") in state.
  fold state in Hflow, Hslow, Hstuck. clearbody state.
  split; [rewrite Hflow; tauto|]. split; [rewrite Hslow; tauto|].
  split; [rewrite Hstuck; tauto|]. exact Hperm.
Qed.

(** ** The status of a person *)

Lemma insert_by_sorted_reverse {A} (key : A -> Z) (x : A) (l : list A) :
  StronglySorted (fun a b => key b <= key a) l ->
  StronglySorted (fun a b => key b <= key a) (PyList.insert_by key true x l).
Proof.
  induction 1 as [|y l Hl IH Hy]; simpl; [repeat constructor|].
  destruct (Z.leb_spec (key y) (key x)) as [Hxy|Hxy].
  - constructor; [now constructor|].
    constructor; [exact Hxy|].
    eapply Forall_impl; [exact Hy|]. simpl. intros z Hz. lia.
  - constructor; [exact IH|].
    rewrite insert_by_Permutation. constructor; [lia | exact Hy].
Qed.

Lemma sort_sorted_reverse {A} (key : A -> Z) (l : list A) :
  StronglySorted (fun a b => key b <= key a) (PyList.sort key true l).
Proof.
  induction l as [|x l IH]; [constructor|].
  unfold PyList.sort in *. simpl. now apply insert_by_sorted_reverse.
Qed.

(** The latest session and the fields read from it. *)
Lemma latest_of_recent_sessions (now : datetime) (sessions : list CS.t)
    (u p : string) (lookback : Z) :
  let recent := recent_sessions_of now sessions u p lookback in
  let activity := calculate_developer_status now sessions u p lookback in
  recent <> [] ->
  exists latest rest,
    PyList.sort CS.end_time true recent = latest :: rest
    /\ DA.last_activity activity = CS.end_time latest
    /\ DA.current_task activity = _infer_current_task latest
    /\ DA.duration_minutes activity
       = PyList.sum (map CS.duration_minutes (latest :: rest)).
Proof.
  intros recent activity Hne. subst activity. unfold calculate_developer_status.
  fold recent. clearbody recent. destruct recent as [|first others]; [congruence|].
  destruct (sorted_sessions_have_a_head first others)
    as (latest & rest & Hsort & Hhd).
  exists latest, rest. split; [exact Hsort|].
  cbn [DA.last_activity DA.current_task DA.duration_minutes].
  rewrite Hhd, Hsort. repeat split; reflexivity.
Qed.

Lemma recent_sessions_elem (now : datetime) (sessions : list CS.t)
    (u p : string) (lookback : Z) (s : CS.t) :
  s ∈ recent_sessions_of now sessions u p lookback <->
  s ∈ sessions /\ CS.user_id s = u /\ CS.project_id s = p
  /\ now - timedelta_hours lookback < CS.end_time s.
Proof.
  unfold recent_sessions_of.
  rewrite list_elem_of_In, filter_In, <- list_elem_of_In, !andb_true_iff.
  rewrite !String.eqb_eq, Z.ltb_lt. tauto.
Qed.

(** X5. The status of a person with a session inside the window reports
    the latest of those sessions: [last_activity] is the end of one of them
    and no other ends later, it is after the cutoff, and the current task
    is inferred from that session. With no session inside the window
    [last_activity] is the least datetime. *)
Theorem X5_last_activity_is_the_latest_end (now : datetime)
    (sessions : list CS.t) (u p : string) (lookback : Z) :
  let recent := recent_sessions_of now sessions u p lookback in
  let activity := calculate_developer_status now sessions u p lookback in
  (recent = [] /\ DA.last_activity activity = datetime_min)
  \/ (exists latest,
        latest ∈ recent
        /\ DA.last_activity activity = CS.end_time latest
        /\ DA.current_task activity = _infer_current_task latest
        /\ (forall s, s ∈ recent -> CS.end_time s <= DA.last_activity activity)
        /\ now - timedelta_hours lookback < DA.last_activity activity).
Proof.
  intros recent activity.
  destruct recent as [|first others] eqn:Hrecent.
  - left. split; [reflexivity|]. subst activity.
    now rewrite idle_without_recent_sessions.
  - right.
    destruct (latest_of_recent_sessions now sessions u p lookback)
      as (latest & rest & Hsort & Hlast & Htask & _).
    { fold recent. now rewrite Hrecent. }
    fold recent in Hsort. rewrite Hrecent in Hsort.
    assert (Permutation (latest :: rest) (first :: others)) as Hperm.
    { rewrite <- Hsort. apply sort_Permutation. }
    assert (latest ∈ first :: others) as Hin.
    { rewrite <- Hperm. apply elem_of_cons. now left. }
    exists latest. split; [exact Hin|]. split; [exact Hlast|].
    split; [exact Htask|]. fold activity in Hlast. rewrite Hlast. split.
    + intros s Hs. rewrite <- Hperm in Hs.
      pose proof (sort_sorted_reverse CS.end_time (first :: others)) as Hsorted.
      rewrite Hsort in Hsorted. apply StronglySorted_inv in Hsorted as [_ Hall].
      apply elem_of_cons in Hs as [->|Hs]; [lia|].
      rewrite Forall_forall in Hall. now apply Hall.
    + rewrite <- Hrecent in Hin. subst recent.
      now apply recent_sessions_elem in Hin.
Qed.

(** X6. The state of a person is [idle] exactly when no session of the
    person and project ends after the cutoff; otherwise it is the
    classification of the sessions inside the window, in whatever order,
    and never [idle]. The interaction count and the duration are the sums
    over those sessions. *)
Theorem X6_state_is_idle_iff_window_is_empty (now : datetime)
    (sessions : list CS.t) (u p : string) (lookback : Z) :
  let recent := recent_sessions_of now sessions u p lookback in
  let activity := calculate_developer_status now sessions u p lookback in
  (DA.status activity = "idle" <-> recent = [])
  /\ DA.status activity = _calculate_objective_status recent
  /\ DA.iteration_count activity = total_interactions_of recent
  /\ DA.duration_minutes activity = PyList.sum (map CS.duration_minutes recent)
  /\ DA.user_id activity = u /\ DA.project_id activity = p.
Proof.
  intros recent activity.
  destruct recent as [|first others] eqn:Hrecent.
  - subst activity. rewrite idle_without_recent_sessions by exact Hrecent.
    cbn. repeat split; reflexivity.
  - assert (recent <> []) as Hne by (subst recent; now rewrite Hrecent).
    destruct (status_of_recent_sessions now sessions u p lookback Hne)
      as (Hstatus & Hcount & _).
    destruct (latest_of_recent_sessions now sessions u p lookback Hne)
      as (latest & rest & Hsort & _ & _ & Hduration).
    fold recent activity in Hstatus, Hcount, Hduration, Hsort.
    rewrite <- Hsort in Hduration.
    rewrite (status_Permutation _ recent) in Hstatus by apply sort_Permutation.
    rewrite Hrecent in Hstatus, Hcount, Hduration.
    split; [|split; [exact Hstatus|split; [exact Hcount|split]]].
    + rewrite Hstatus. split; [|discriminate].
      intros Hidle. now apply status_idle_iff in Hidle.
    + rewrite Hduration. apply sum_Permutation, Permutation_map.
      rewrite <- Hrecent. apply sort_Permutation.
    + subst activity. unfold calculate_developer_status.
      fold recent. rewrite Hrecent. now split.
Qed.

(** X7. The files of a status are at most five, pairwise different, and
    each is mentioned by a session of the person inside the window. *)
Theorem X7_files_in_progress_are_bounded (now : datetime)
    (sessions : list CS.t) (u p : string) (lookback : Z) :
  let recent := recent_sessions_of now sessions u p lookback in
  let files :=
    DA.files_working_on (calculate_developer_status now sessions u p lookback) in
  (length files <= 5)%nat
  /\ NoDup files
  /\ (forall file, file ∈ files ->
                   exists s, s ∈ recent /\ file ∈ CS.files_mentioned s).
Proof.
  intros recent files.
  assert (files = [] \/ files
          = take 5 (set_iter (flat_map CS.files_mentioned
                                (PyList.sort CS.end_time true recent)))) as Hfiles.
  { destruct recent as [|first others] eqn:Hrecent.
    - left. subst files. now rewrite idle_without_recent_sessions.
    - right. rewrite <- Hrecent.
      apply (status_of_recent_sessions now sessions u p lookback).
      fold recent. now rewrite Hrecent. }
  destruct Hfiles as [->| ->].
  { split; [cbn; lia|]. split; [constructor|].
    intros file Hin. now apply elem_of_nil in Hin. }
  split; [rewrite length_take; lia|]. split.
  - eapply sublist_NoDup; [apply set_iter_NoDup | apply sublist_take].
  - intros file Hin. apply subseteq_take in Hin.
    apply (proj1 (set_iter_elem _ _)) in Hin.
    apply list_elem_of_In, in_flat_map in Hin as (s & Hs & Hfile).
    exists s. split; [|now apply list_elem_of_In].
    apply list_elem_of_In.
    eapply Permutation_in; [apply sort_Permutation | exact Hs].
Qed.

(** ** The number of warnings *)

Lemma omap_length_le {A B} (g : A -> option B) (l : list A) :
  (length (omap g l) <= length l)%nat.
Proof.
  induction l as [|x l IH]; [reflexivity|].
  cbn [omap list_omap]. destruct (g x); cbn; lia.
Qed.

Lemma found_pairs_length (now_at : string -> string -> datetime)
    (ua : list (string * list CS.t)) :
  (2 * length (found_pairs now_at ua) <= length ua * (length ua - 1))%nat.
Proof.
  induction ua as [|[a sa] later IH]; [cbn; lia|].
  cbn [found_pairs]. rewrite length_app.
  match goal with
  | |- context [length (omap ?g later)] =>
      pose proof (omap_length_le g later) as Hfirst
  end.
  cbn [length]. nia.
Qed.

Lemma distinct_keys_length {A} `{EqDecision A} (keys values : list A) :
  NoDup keys -> (forall x, x ∈ keys <-> x ∈ values) ->
  length keys = length (remove_dups values).
Proof.
  intros Hnodup Hsame. apply Permutation_length, NoDup_Permutation.
  - exact Hnodup.
  - apply NoDup_remove_dups.
  - intros x. now rewrite elem_of_remove_dups.
Qed.

(** X8. With [n] different people having a session of the project inside
    the window, collision detection, when the cutoff of the window can be
    computed, returns at most [n (n - 1) / 2] warnings; with fewer than two
    such people it returns none. When the cutoff cannot be computed it
    raises [OverflowError]. *)
Theorem X8_warnings_are_at_most_the_pairs (now : datetime)
    (now_at : string -> string -> datetime) (sessions : list CS.t)
    (project_id : string) (lookback : Z) :
  let people :=
    remove_dups
      (map CS.user_id
           (List.filter
              (fun s => String.eqb (CS.project_id s) project_id
                        && (now - timedelta_hours lookback <? CS.end_time s))
              sessions)) in
  match cutoff now (timedelta_hours lookback) with
  | Raised _ =>
      Analyzer.detect_team_collisions now now_at sessions project_id lookback
      = Raised OverflowError
  | Returned _ =>
      exists warnings,
        Analyzer.detect_team_collisions now now_at sessions project_id lookback
        = Returned warnings
        /\ (2 * length warnings <= length people * (length people - 1))%nat
        /\ ((length people <= 1)%nat -> warnings = [])
  end.
Proof.
  intros people. unfold Analyzer.detect_team_collisions.
  destruct (cutoff now (timedelta_hours lookback)) as [cutoff_time|e] eqn:Hcutoff;
    [|now apply cutoff_raises in Hcutoff as ->].
  cbn [mbind outcome_bind].
  set (ua := user_activities_of now sessions project_id lookback).
  exists (found_pairs now_at ua).
  split; [apply detect_team_collisions_found|].
  assert (length ua = length people) as Hlen.
  { rewrite <- (length_fmap fst ua). subst people.
    apply distinct_keys_length.
    - apply user_activities_NoDup.
    - intros x. split.
      + intros Hx. apply list_elem_of_fmap in Hx as ([u ss] & -> & Hin). cbn.
        pose proof (user_activities_entry _ _ _ _ u ss Hin) as Hss.
        destruct ss as [|s ss'].
        * exfalso. revert Hin. subst ua. unfold user_activities_of.
          generalize (List.filter
                        (fun s => String.eqb (CS.project_id s) project_id
                                  && (now - timedelta_hours lookback
                                      <? CS.end_time s)) sessions).
          intros l Hin. clear Hss.
          induction l as [|x l IH] using rev_ind; [now apply elem_of_nil in Hin|].
          rewrite foldl_snoc in Hin.
          apply defaultdict_append_elem in Hin
              as [[_ Hin]|[(_ & vs & _ & Habs)|(_ & _ & Habs)]].
          -- now apply IH.
          -- now destruct vs.
          -- discriminate.
          -- apply (grouped CS.user_id).
        * assert (In s (sessions_in_window now sessions project_id lookback u))
            as Hs by (rewrite <- Hss; now left).
          unfold sessions_in_window in Hs. apply filter_In in Hs as [Hs Hu].
          apply String.eqb_eq in Hu. subst u.
          apply list_elem_of_In, in_map. exact Hs.
      + intros Hx. apply list_elem_of_In, in_map_iff in Hx as (s & <- & Hs).
        apply (grouped CS.user_id). now apply list_elem_of_In. }
  rewrite <- Hlen. split; [apply found_pairs_length|].
  intros Hfew. pose proof (found_pairs_length now_at ua) as Hbound.
  destruct (found_pairs now_at ua) as [|w ws]; [reflexivity|].
  cbn [length] in Hbound. exfalso.
  destruct (length ua) as [|[|n]]; cbn in *; lia.
Qed.

(** ** What [parse_chat_logs] raises *)

Ltac in_list :=
  repeat first [apply list_elem_of_here | apply list_elem_of_further].

Lemma parse_chat_log_raises (log : gmap string string) (e : exn) :
  parse_chat_log log = Raised e ->
  (exists key, e = KeyError key /\ key ∈ log_fields /\ log !! key = None)
  \/ (e = ValueError
      /\ exists key v, key ∈ timestamp_fields /\ log !! key = Some v
                       /\ fromisoformat (PyStr.replace "Z" "+00:00" v) = None).
Proof.
  unfold parse_chat_log, getitem, parse_timestamp, log_fields, timestamp_fields.
  cbn [mbind outcome_bind mret outcome_ret].
  assert (forall key : string,
             key ∈ [ "id"; "user_query"; "claude_response"; "user_id";
                     "project_id"; "interaction_timestamp"; "created_at";
                     "updated_at" ] ->
             log !! key = None ->
             @Raised CI.t (KeyError key) = Raised e ->
             (exists key, e = KeyError key
                          /\ key ∈ [ "id"; "user_query"; "claude_response";
                                     "user_id"; "project_id";
                                     "interaction_timestamp"; "created_at";
                                     "updated_at" ]
                          /\ log !! key = None)
             \/ (e = ValueError
                 /\ exists key v,
                      key ∈ ["interaction_timestamp"; "created_at"; "updated_at"]
                      /\ log !! key = Some v
                      /\ fromisoformat (PyStr.replace "Z" "+00:00" v) = None))
    as Hkey.
  { intros key Hin Hnone [= <-]. left. now exists key. }
  assert (forall key v : string,
             key ∈ ["interaction_timestamp"; "created_at"; "updated_at"] ->
             log !! key = Some v ->
             fromisoformat (PyStr.replace "Z" "+00:00" v) = None ->
             @Raised CI.t ValueError = Raised e ->
             (exists key, e = KeyError key
                          /\ key ∈ [ "id"; "user_query"; "claude_response";
                                     "user_id"; "project_id";
                                     "interaction_timestamp"; "created_at";
                                     "updated_at" ]
                          /\ log !! key = None)
             \/ (e = ValueError
                 /\ exists key v,
                      key ∈ ["interaction_timestamp"; "created_at"; "updated_at"]
                      /\ log !! key = Some v
                      /\ fromisoformat (PyStr.replace "Z" "+00:00" v) = None))
    as Htime.
  { intros key v Hin Hsome Hnone [= <-]. right. split; [reflexivity|].
    now exists key, v. }
  destruct (log !! "id") eqn:H1; cbn [mbind outcome_bind mret outcome_ret];
    [|apply (Hkey "id"); [in_list | exact H1]].
  destruct (log !! "user_query") eqn:H2; cbn [mbind outcome_bind mret outcome_ret];
    [|apply (Hkey "user_query"); [in_list | exact H2]].
  destruct (log !! "claude_response") eqn:H3;
    cbn [mbind outcome_bind mret outcome_ret];
    [|apply (Hkey "claude_response"); [in_list | exact H3]].
  destruct (log !! "user_id") eqn:H4; cbn [mbind outcome_bind mret outcome_ret];
    [|apply (Hkey "user_id"); [in_list | exact H4]].
  destruct (log !! "project_id") eqn:H5; cbn [mbind outcome_bind mret outcome_ret];
    [|apply (Hkey "project_id"); [in_list | exact H5]].
  destruct (log !! "interaction_timestamp") as [v6|] eqn:H6;
    cbn [mbind outcome_bind mret outcome_ret];
    [|apply (Hkey "interaction_timestamp"); [in_list | exact H6]].
  destruct (fromisoformat (PyStr.replace "Z" "+00:00" v6)) eqn:T6;
    cbn [mbind outcome_bind mret outcome_ret];
    [|apply (Htime "interaction_timestamp" v6); [in_list | exact H6 | exact T6]].
  destruct (log !! "created_at") as [v7|] eqn:H7;
    cbn [mbind outcome_bind mret outcome_ret];
    [|apply (Hkey "created_at"); [in_list | exact H7]].
  destruct (fromisoformat (PyStr.replace "Z" "+00:00" v7)) eqn:T7;
    cbn [mbind outcome_bind mret outcome_ret];
    [|apply (Htime "created_at" v7); [in_list | exact H7 | exact T7]].
  destruct (log !! "updated_at") as [v8|] eqn:H8;
    cbn [mbind outcome_bind mret outcome_ret];
    [|apply (Hkey "updated_at"); [in_list | exact H8]].
  destruct (fromisoformat (PyStr.replace "Z" "+00:00" v8)) eqn:T8;
    cbn [mbind outcome_bind mret outcome_ret];
    [|apply (Htime "updated_at" v8); [in_list | exact H8 | exact T8]].
  discriminate.
Qed.

Lemma for_each_first_failure {A B} (f : A -> outcome B) (good : list A)
    (bad : A) (rest : list A) (results : list B) (e : exn) :
  Forall2 (fun x y => f x = Returned y) good results ->
  f bad = Raised e ->
  for_each f (good ++ bad :: rest) = Raised e.
Proof.
  intros Hgood Hbad. induction Hgood as [|x y good results Hx _ IH];
    cbn [for_each app]; cbn [mbind outcome_bind mret outcome_ret].
  - now rewrite Hbad.
  - rewrite Hx, IH. reflexivity.
Qed.

(** X9. What [parse_chat_logs] raises is what the first log that does not
    parse raises, whatever follows it: [KeyError] for a key the log lacks
    (one of the eight keys read), or [ValueError] for a timestamp that is
    present and unreadable; an empty batch parses to no interaction. *)
Theorem X9_parse_raises_the_first_failure :
  (forall good bad rest parsed e,
      Forall2 (fun log i => parse_chat_log log = Returned i) good parsed ->
      parse_chat_log bad = Raised e ->
      parse_chat_logs (good ++ bad :: rest) = Raised e)
  /\ (forall chat_logs e,
         parse_chat_logs chat_logs = Raised e ->
         exists log,
           log ∈ chat_logs
           /\ ((exists key, e = KeyError key /\ key ∈ log_fields
                            /\ log !! key = None)
               \/ (e = ValueError
                   /\ exists key v,
                        key ∈ timestamp_fields /\ log !! key = Some v
                        /\ fromisoformat (PyStr.replace "Z" "+00:00" v) = None)))
  /\ parse_chat_logs [] = Returned [].
Proof.
  split; [|split; [|reflexivity]].
  - intros good bad rest parsed e Hgood Hbad.
    now apply (for_each_first_failure parse_chat_log good bad rest parsed).
  - intros chat_logs e. unfold parse_chat_logs.
    induction chat_logs as [|log logs IH]; cbn [for_each]; [discriminate|].
    cbn [mbind outcome_bind mret outcome_ret].
    destruct (parse_chat_log log) as [i|e'] eqn:Hlog.
    + destruct (for_each parse_chat_log logs) as [parsed|e''] eqn:Hlogs;
        cbn; [discriminate|].
      intros [= ->]. destruct (IH eq_refl) as (log' & Hin & Hwhy).
      exists log'. split; [apply elem_of_cons; now right | exact Hwhy].
    + intros [= ->]. exists log. split; [apply elem_of_cons; now left|].
      now apply parse_chat_log_raises.
Qed.

(** ** Occurrences in a text and in its parts *)

Lemma prefix_longer (sub s : string) :
  (String.length s < String.length sub)%nat -> String.prefix sub s = false.
Proof.
  revert s. induction sub as [|c sub IH]; intros [|d s] Hlen; simpl in *;
    try lia; try reflexivity.
  destruct (ascii_dec c d); [apply IH; lia | reflexivity].
Qed.

Lemma prefix_of_app (sub a b : string) :
  String.prefix sub a = true -> String.prefix sub (a +:+ b) = true.
Proof.
  revert a. induction sub as [|c sub IH]; intros [|d a] H;
    try (destruct b; reflexivity); try (simpl in H; discriminate).
  rewrite app_cons. simpl in *.
  destruct (ascii_dec c d); [apply IH; exact H | discriminate].
Qed.

Lemma prefix_within (sub a b : string) :
  (String.length sub <= String.length a)%nat ->
  String.prefix sub (a +:+ b) = true -> String.prefix sub a = true.
Proof.
  revert a. induction sub as [|c sub IH]; intros [|d a] Hlen H;
    try reflexivity; try (simpl in Hlen; lia).
  rewrite app_cons in H. simpl in *.
  destruct (ascii_dec c d); [apply IH; [lia | exact H] | discriminate].
Qed.

Lemma count_from_short (sub s : string) (skip : nat) :
  (String.length s < String.length sub)%nat -> PyStr.count_from sub skip s = 0.
Proof.
  revert skip. induction s as [|c s IH]; intros skip Hlen; [reflexivity|].
  cbn [PyStr.count_from]. destruct skip as [|k].
  - rewrite prefix_longer by exact Hlen. apply IH. simpl in Hlen. lia.
  - apply IH. simpl in Hlen. lia.
Qed.

(** Passing over more characters first never finds more occurrences, and
    passing over fewer than the length of [sub] loses at most one. *)
Lemma count_from_skip (sub s : string) :
  (forall k, (k <= String.length sub - 1)%nat ->
     PyStr.count_from sub 0 s <= 1 + PyStr.count_from sub k s)
  /\ (forall j k, (j <= k)%nat -> (k <= String.length sub - 1)%nat ->
     PyStr.count_from sub k s <= PyStr.count_from sub j s).
Proof.
  induction s as [|c s [IHa IHb]].
  - split; intros; simpl; destruct k; simpl; try destruct j; lia.
  - split.
    + intros [|k] Hk; [lia|].
      cbn [PyStr.count_from].
      destruct (String.prefix sub (String c s)).
      * specialize (IHb k (String.length sub - 1)%nat). lia.
      * specialize (IHa k). lia.
    + intros j [|k] Hjk Hk.
      * assert (j = 0%nat) as -> by lia. lia.
      * destruct j as [|j].
        -- cbn [PyStr.count_from].
           destruct (String.prefix sub (String c s)).
           ++ specialize (IHb 0%nat k). specialize (IHa (String.length sub - 1)%nat).
              lia.
           ++ apply IHb; lia.
        -- cbn [PyStr.count_from]. apply IHb; lia.
Qed.

Lemma count_from_app (sub a b : string) (k : nat) :
  (k <= String.length sub - 1)%nat ->
  PyStr.count_from sub k a + PyStr.count_from sub 0 b
  <= PyStr.count_from sub k (a +:+ b)
     + (if (k <=? String.length a)%nat then 0 else 1).
Proof.
  revert k. induction a as [|c a IH]; intros k Hk.
  - change ("" +:+ b) with b.
    destruct k as [|k]; simpl String.length.
    + simpl. lia.
    + replace (S k <=? 0)%nat with false by (symmetry; apply Nat.leb_gt; lia).
      pose proof (proj1 (count_from_skip sub b) (S k) Hk).
      destruct b; simpl in *; lia.
  - rewrite app_cons. destruct k as [|k].
    + cbn [PyStr.count_from]. simpl Nat.leb.
      destruct (String.prefix sub (String c a)) eqn:Hpa.
      * rewrite <- app_cons, (prefix_of_app _ _ _ Hpa).
        specialize (IH (String.length sub - 1)%nat ltac:(lia)).
        assert (String.length sub <= String.length (String c a))%nat as Hlen.
        { destruct (le_lt_dec (String.length sub) (String.length (String c a)));
            [assumption|].
          rewrite prefix_longer in Hpa by assumption. discriminate. }
        simpl in Hlen.
        replace (String.length sub - 1 <=? String.length a)%nat with true in IH
          by (symmetry; apply Nat.leb_le; lia).
        lia.
      * rewrite <- app_cons.
        destruct (String.prefix sub (String c a +:+ b)) eqn:Hpab.
        -- assert (String.length (String c a) < String.length sub)%nat as Hlen.
           { destruct (le_lt_dec (String.length sub) (String.length (String c a)));
               [|assumption].
             rewrite (prefix_within _ _ _ l Hpab) in Hpa. discriminate. }
           simpl in Hlen.
           specialize (IH (String.length sub - 1)%nat ltac:(lia)).
           replace (String.length sub - 1 <=? String.length a)%nat with false in IH
             by (symmetry; apply Nat.leb_gt; lia).
           rewrite (count_from_short sub a 0) by lia.
           rewrite (count_from_short sub a (String.length sub - 1)) in IH by lia.
           lia.
        -- specialize (IH 0%nat ltac:(lia)).
           change (0 <=? String.length a)%nat with true in IH.
           cbv iota in IH. lia.
    + cbn [PyStr.count_from]. specialize (IH k ltac:(lia)).
      simpl String.length. simpl Nat.leb. exact IH.
Qed.

(** The occurrences counted in two texts are counted again in their
    concatenation. *)
Lemma count_app (a b sub : string) :
  sub <> "" -> PyStr.count a sub + PyStr.count b sub <= PyStr.count (a +:+ b) sub.
Proof.
  intros Hsub. unfold PyStr.count. destruct sub as [|c sub]; [congruence|].
  pose proof (count_from_app (String c sub) a b 0 ltac:(lia)) as H.
  change (0 <=? String.length a)%nat with true in H. cbv iota in H. lia.
Qed.

Lemma count_app_l (a b sub : string) :
  sub <> "" -> PyStr.count a sub <= PyStr.count (a +:+ b) sub.
Proof.
  intros Hsub. pose proof (count_app a b sub Hsub).
  pose proof (count_nonneg b sub). lia.
Qed.

Lemma count_app_r (a b sub : string) :
  sub <> "" -> PyStr.count b sub <= PyStr.count (a +:+ b) sub.
Proof.
  intros Hsub. pose proof (count_app a b sub Hsub).
  pose proof (count_nonneg a sub). lia.
Qed.

(** [sub in s] holds exactly when [s.count(sub)] is positive. *)
Lemma count_from_contains (sub s : string) :
  sub <> "" ->
  (PyStr.contains sub s = true <-> 1 <= PyStr.count_from sub 0 s).
Proof.
  intros Hsub. induction s as [|c s IH].
  - cbn [PyStr.contains PyStr.count_from].
    destruct sub; [congruence|]. simpl. split; [discriminate | lia].
  - cbn [PyStr.contains PyStr.count_from].
    destruct (String.prefix sub (String c s)) eqn:Hp.
    + pose proof (count_from_nonneg sub s (String.length sub - 1)).
      simpl. split; [lia | reflexivity].
    + simpl. exact IH.
Qed.

Lemma count_contains (sub s : string) :
  sub <> "" -> (PyStr.contains sub s = true <-> 1 <= PyStr.count s sub).
Proof.
  intros Hsub. unfold PyStr.count. destruct sub; [congruence|].
  apply count_from_contains. exact Hsub.
Qed.

Lemma contains_empty (s : string) : PyStr.contains "" s = true.
Proof. destruct s; reflexivity. Qed.

Lemma count_positive_iff (sub s : string) :
  PyStr.contains sub s = true <-> 1 <= PyStr.count s sub.
Proof.
  destruct (decide (sub = "")) as [->|Hsub].
  - rewrite contains_empty. unfold PyStr.count. split; [lia | reflexivity].
  - apply count_contains. exact Hsub.
Qed.

Lemma any_in_count (indicators : list string) (text : string) :
  any_in indicators text = true <-> 1 <= _count_indicators text indicators.
Proof.
  rewrite count_indicators_sum. unfold any_in.
  induction indicators as [|i l IH]; cbn [existsb map].
  - unfold PyList.sum; simpl. split; [discriminate | lia].
  - rewrite orb_true_iff, IH, count_positive_iff.
    pose proof (count_nonneg text i).
    assert (0 <= PyList.sum (map (PyStr.count text) l)) as Hl.
    { rewrite <- count_indicators_sum. apply count_indicators_nonneg. }
    unfold PyList.sum in *. simpl. lia.
Qed.

Lemma count_indicators_app (indicators : list string) (a b : string) :
  nonempty_indicators indicators ->
  _count_indicators a indicators + _count_indicators b indicators
  <= _count_indicators (a +:+ b) indicators.
Proof.
  intros Hne. rewrite !count_indicators_sum.
  induction Hne as [|i l Hi Hl IH]; [unfold PyList.sum; simpl; lia|].
  pose proof (count_app a b i Hi). unfold PyList.sum in *. simpl. lia.
Qed.

Lemma count_indicators_join (indicators : list string) (texts : list string) :
  nonempty_indicators indicators ->
  PyList.sum (map (fun text => _count_indicators (PyStr.lower text) indicators) texts)
  <= _count_indicators (PyStr.lower (PyStr.join " " texts)) indicators.
Proof.
  intros Hne. induction texts as [|x l IH].
  - unfold PyList.sum. simpl. apply count_indicators_nonneg.
  - destruct l as [|y l].
    + unfold PyList.sum. simpl. lia.
    + change (PyStr.join " " (x :: y :: l))
        with (x +:+ " " +:+ PyStr.join " " (y :: l)).
      rewrite !lower_app.
      pose proof (count_indicators_app indicators (PyStr.lower x)
                    (PyStr.lower " " +:+ PyStr.lower (PyStr.join " " (y :: l))) Hne).
      pose proof (count_indicators_app indicators (PyStr.lower " ")
                    (PyStr.lower (PyStr.join " " (y :: l))) Hne).
      pose proof (count_indicators_nonneg (PyStr.lower " ") indicators).
      unfold PyList.sum in *. cbn [map foldr] in *. lia.
Qed.

Lemma success_indicators_nonempty : nonempty_indicators success_indicators.
Proof.
  unfold nonempty_indicators, success_indicators.
  repeat constructor; discriminate.
Qed.

Lemma stuck_indicators_nonempty : nonempty_indicators stuck_indicators.
Proof.
  unfold nonempty_indicators, stuck_indicators.
  repeat constructor; discriminate.
Qed.

Lemma count_indicators_turns (indicators : list string) (turns : list CI.t) :
  nonempty_indicators indicators ->
  PyList.sum
    (map (fun i => _count_indicators (PyStr.lower (CI.user_query i)) indicators
                   + _count_indicators (PyStr.lower (CI.claude_response i)) indicators)
         turns)
  <= _count_indicators (PyStr.lower (PyStr.join " " (map turn_text turns))) indicators.
Proof.
  intros Hne.
  etransitivity; [|apply count_indicators_join; exact Hne].
  rewrite map_map.
  induction turns as [|i l IH]; [reflexivity|].
  unfold PyList.sum in *. cbn [map foldr].
  unfold turn_text at 1. rewrite !lower_app.
  pose proof (count_indicators_app indicators (PyStr.lower (CI.user_query i))
                (PyStr.lower " " +:+ PyStr.lower (CI.claude_response i)) Hne).
  pose proof (count_indicators_app indicators (PyStr.lower " ")
                (PyStr.lower (CI.claude_response i)) Hne).
  pose proof (count_indicators_nonneg (PyStr.lower " ") indicators).
  lia.
Qed.

Lemma filter_length_sum {A} (f : A -> bool) (g : A -> Z) (l : list A) :
  (forall x, f x = true -> 1 <= g x) -> (forall x, 0 <= g x) ->
  Z.of_nat (length (List.filter f l)) <= PyList.sum (map g l).
Proof.
  intros Hf Hg. induction l as [|x l IH]; [reflexivity|].
  unfold PyList.sum in *. cbn [List.filter map foldr].
  specialize (Hg x). destruct (f x) eqn:Hx.
  - specialize (Hf x Hx). cbn [length]. lia.
  - lia.
Qed.

(** X10. The counts of a session are at least the counts of its queries and
    responses taken one by one, for the success and for the stuck table; so
    a session counts at least one success indicator per solution it lists,
    and a session whose success count is 0 lists no solution. *)
Theorem X10_solutions_are_counted first rest user_id project_id session_num :
  let s := _create_session first rest user_id project_id session_num in
  let heard indicators (i : CI.t) :=
    _count_indicators (PyStr.lower (CI.user_query i)) indicators
    + _count_indicators (PyStr.lower (CI.claude_response i)) indicators in
  PyList.sum (map (heard success_indicators) (first :: rest)) <= CS.success_indicators s
  /\ PyList.sum (map (heard stuck_indicators) (first :: rest)) <= CS.stuck_indicators s
  /\ Z.of_nat (length (CS.solutions_found s)) <= CS.success_indicators s
  /\ (CS.success_indicators s = 0 -> CS.solutions_found s = []).
Proof.
  intros s heard.
  assert (PyList.sum (map (heard success_indicators) (first :: rest))
          <= CS.success_indicators s) as Hsuccess.
  { apply (count_indicators_turns success_indicators (first :: rest)).
    apply success_indicators_nonempty. }
  assert (Z.of_nat (length (CS.solutions_found s)) <= CS.success_indicators s) as Hlen.
  { etransitivity; [|exact Hsuccess].
    change (CS.solutions_found s)
      with (_extract_solutions (map CI.claude_response (first :: rest))).
    unfold _extract_solutions. rewrite length_map.
    etransitivity.
    - apply (filter_length_sum _
               (fun response =>
                  _count_indicators (PyStr.lower response) success_indicators)).
      + intros response. apply any_in_count.
      + intros response. apply count_indicators_nonneg.
    - rewrite map_map. clear.
      induction (first :: rest) as [|i l IH]; [reflexivity|].
      unfold PyList.sum in *. cbn [map foldr]. unfold heard at 1.
      pose proof (count_indicators_nonneg (PyStr.lower (CI.user_query i))
                    success_indicators).
      lia. }
  split; [exact Hsuccess|]. split.
  - apply (count_indicators_turns stuck_indicators (first :: rest)).
    apply stuck_indicators_nonempty.
  - split; [exact Hlen|].
    intros Hzero. destruct (CS.solutions_found s); [reflexivity|].
    cbn [length] in Hlen. lia.
Qed.

(** ** Problems and solutions of a session *)

Lemma string_length_app (a b : string) :
  String.length (a +:+ b) = (String.length a + String.length b)%nat.
Proof.
  induction a as [|c a IH]; [reflexivity|].
  rewrite app_cons. simpl. now rewrite IH.
Qed.

Lemma slice_to_length (n : nat) (s : string) :
  String.length (PyStr.slice_to n s) = Nat.min n (String.length s).
Proof.
  unfold PyStr.slice_to. revert n. induction s as [|c s IH]; intros [|n];
    simpl; try reflexivity.
  now rewrite IH.
Qed.

Lemma slice_to_prefix (n : nat) (s : string) :
  String.prefix (PyStr.slice_to n s) s = true.
Proof.
  unfold PyStr.slice_to. revert n. induction s as [|c s IH]; intros [|n];
    simpl; try reflexivity.
  destruct (ascii_dec c c); [apply IH | congruence].
Qed.

Lemma snippet_cut (text : string) :
  cut_of text (snippet text) /\ (String.length (snippet text) <= 103)%nat.
Proof.
  unfold cut_of, snippet.
  destruct (100 <? String.length text)%nat eqn:Hlen.
  - apply Nat.ltb_lt in Hlen. split.
    + right. split; [exact Hlen|]. exists (PyStr.slice_to 100 text).
      split; [reflexivity|].
      split; [apply slice_to_prefix|]. rewrite slice_to_length. lia.
    + rewrite string_length_app, slice_to_length.
      change (String.length "...") with 3%nat. lia.
  - apply Nat.ltb_ge in Hlen. split; [left; split; [exact Hlen | reflexivity] | lia].
Qed.

Lemma extract_snippets (indicators : list string) (texts : list string) :
  let kept := map snippet
                (List.filter (fun text => any_in indicators (PyStr.lower text)) texts) in
  kept `sublist_of` map snippet texts
  /\ (forall cut, cut ∈ kept ->
        (String.length cut <= 103)%nat
        /\ exists text, text ∈ texts
             /\ 1 <= _count_indicators (PyStr.lower text) indicators
             /\ cut_of text cut)
  /\ (forall text, text ∈ texts ->
        1 <= _count_indicators (PyStr.lower text) indicators -> snippet text ∈ kept).
Proof.
  intros kept. split; [|split].
  - unfold kept. apply (fmap_sublist snippet).
    induction texts as [|x l IH]; cbn [List.filter]; [constructor|].
    destruct (any_in indicators (PyStr.lower x)); now constructor.
  - intros cut Hcut. unfold kept in Hcut.
    apply list_elem_of_fmap in Hcut as (text & -> & Hin).
    apply list_elem_of_In, filter_In in Hin as [Hin Hany].
    split; [apply snippet_cut|].
    exists text. split; [now apply list_elem_of_In|].
    split; [now apply any_in_count | apply snippet_cut].
  - intros text Hin Hcount. unfold kept.
    apply list_elem_of_fmap. exists text. split; [reflexivity|].
    apply list_elem_of_In, filter_In. split; [now apply list_elem_of_In|].
    now apply any_in_count.
Qed.

(** X11. The problems of a session are the queries that hold a problem
    indicator, the solutions the responses that hold a success indicator,
    each in turn order and cut to 100 characters followed by "..." when
    longer: no entry is longer than 103 characters, and there are at most as
    many as turns. *)
Theorem X11_problems_and_solutions_are_cut_turns
    first rest user_id project_id session_num :
  let s := _create_session first rest user_id project_id session_num in
  let turns := first :: rest in
  CS.problems_encountered s `sublist_of` map snippet (map CI.user_query turns)
  /\ CS.solutions_found s `sublist_of` map snippet (map CI.claude_response turns)
  /\ (forall problem, problem ∈ CS.problems_encountered s ->
        (String.length problem <= 103)%nat
        /\ exists i, i ∈ turns
             /\ 1 <= _count_indicators (PyStr.lower (CI.user_query i)) problem_indicators
             /\ cut_of (CI.user_query i) problem)
  /\ (forall solution, solution ∈ CS.solutions_found s ->
        (String.length solution <= 103)%nat
        /\ exists i, i ∈ turns
             /\ 1 <= _count_indicators (PyStr.lower (CI.claude_response i))
                       success_indicators
             /\ cut_of (CI.claude_response i) solution)
  /\ (forall i, i ∈ turns ->
        (1 <= _count_indicators (PyStr.lower (CI.user_query i)) problem_indicators ->
         snippet (CI.user_query i) ∈ CS.problems_encountered s)
        /\ (1 <= _count_indicators (PyStr.lower (CI.claude_response i))
                   success_indicators ->
            snippet (CI.claude_response i) ∈ CS.solutions_found s))
  /\ (length (CS.problems_encountered s) <= length (CS.interactions s))%nat
  /\ (length (CS.solutions_found s) <= length (CS.interactions s))%nat.
Proof.
  intros s turns.
  destruct (extract_snippets problem_indicators (map CI.user_query turns))
    as (Hpsub & Hpcut & Hpall).
  destruct (extract_snippets success_indicators (map CI.claude_response turns))
    as (Hssub & Hscut & Hsall).
  pose proof (sublist_length _ _ Hpsub) as Hplen.
  pose proof (sublist_length _ _ Hssub) as Hslen.
  rewrite !length_map in Hplen, Hslen.
  split; [exact Hpsub|]. split; [exact Hssub|]. split; [|split; [|split; [|split]]].
  - intros problem Hin.
    destruct (Hpcut problem Hin) as (Hlen & text & Htext & Hcount & Hcut).
    split; [exact Hlen|].
    apply list_elem_of_fmap in Htext as (i & -> & Hi). now exists i.
  - intros solution Hin.
    destruct (Hscut solution Hin) as (Hlen & text & Htext & Hcount & Hcut).
    split; [exact Hlen|].
    apply list_elem_of_fmap in Htext as (i & -> & Hi). now exists i.
  - intros i Hi. split; intros Hcount.
    + apply (Hpall (CI.user_query i)); [|exact Hcount].
      apply list_elem_of_fmap. now exists i.
    + apply (Hsall (CI.claude_response i)); [|exact Hcount].
      apply list_elem_of_fmap. now exists i.
  - unfold s, _create_session, _extract_problems.
    cbn [CS.problems_encountered CS.interactions].
    rewrite length_map. exact Hplen.
  - unfold s, _create_session, _extract_solutions.
    cbn [CS.solutions_found CS.interactions].
    rewrite length_map. exact Hslen.
Qed.

(** ** Files and features of a session *)

Lemma elem_of_flat_map {A B} (f : A -> list B) (l : list A) (y : B) :
  y ∈ flat_map f l <-> exists x, x ∈ l /\ y ∈ f x.
Proof.
  rewrite list_elem_of_In, in_flat_map.
  split; intros (x & Hx & Hy); exists x; split; now apply list_elem_of_In.
Qed.

Lemma mem_false (x : string) (l : list string) :
  PyStr.mem x l = false <-> x ∉ l.
Proof.
  rewrite <- mem_elem_of. destruct (PyStr.mem x l); split; congruence.
Qed.

Lemma extract_files_spec (text file : string) :
  (file ∈ _extract_files text -> file_match text file /\ plausible_file file)
  /\ (file_match text file -> plausible_file file ->
      (length (_extract_files text) < 10)%nat -> file ∈ _extract_files text).
Proof.
  unfold _extract_files.
  set (files := flat_map _ file_patterns).
  set (keep := fun file : string => _).
  assert (forall f, f ∈ set_iter (List.filter keep (set_iter files))
                    <-> file_match text f /\ plausible_file f) as Hspec.
  { intros f. rewrite set_iter_elem, list_elem_of_In, filter_In, <- list_elem_of_In.
    rewrite set_iter_elem. unfold files. rewrite elem_of_flat_map.
    unfold keep, file_match, plausible_file.
    rewrite !andb_true_iff, !negb_true_iff, Nat.ltb_lt, mem_false.
    intuition lia. }
  split.
  - intros Hin. apply Hspec. now apply subseteq_take in Hin.
  - intros Hm Hp Hlen. rewrite length_take in Hlen.
    rewrite take_ge by lia. apply Hspec. now split.
Qed.

(** X12. The files of a session are at most ten, pairwise different,
    matches of a file pattern in the joined text that pass the filter, and
    all of these when they are fewer than ten; its features are pairwise
    different and exactly the matches of the feature patterns in the
    lower-cased text. *)
Theorem X12_files_and_features_of_a_session
    first rest user_id project_id session_num :
  let s := _create_session first rest user_id project_id session_num in
  let all_text := PyStr.join " " (map turn_text (first :: rest)) in
  (length (CS.files_mentioned s) <= 10)%nat
  /\ NoDup (CS.files_mentioned s)
  /\ (forall file, file ∈ CS.files_mentioned s ->
        file_match all_text file /\ plausible_file file)
  /\ (forall file, file_match all_text file -> plausible_file file ->
        (length (CS.files_mentioned s) < 10)%nat -> file ∈ CS.files_mentioned s)
  /\ NoDup (CS.features_discussed s)
  /\ (forall feature, feature ∈ CS.features_discussed s
        <-> feature_match (PyStr.lower all_text) feature).
Proof.
  intros s all_text.
  change (CS.files_mentioned s) with (_extract_files all_text).
  change (CS.features_discussed s) with (_extract_features all_text).
  split; [|split; [|split; [|split; [|split]]]].
  - unfold _extract_files. rewrite length_take. lia.
  - unfold _extract_files. eapply sublist_NoDup; [apply set_iter_NoDup|].
    apply sublist_take.
  - intros file. apply extract_files_spec.
  - intros file. apply extract_files_spec.
  - apply set_iter_NoDup.
  - intros feature. unfold _extract_features, feature_match.
    rewrite set_iter_elem. apply elem_of_flat_map.
Qed.

(** ** Dashboards and insights *)

(** [round(x, ndigits)] of the float or integer that [x] stands for *)
Variable round_ndigits : Q -> Z -> Q.

(** ** The status of a person, field by field *)

Lemma status_is_a_state (sessions : list CS.t) :
  _calculate_objective_status sessions ∈ analyzer_states.
Proof.
  unfold _calculate_objective_status, analyzer_states.
  destruct sessions; [in_list|].
  destruct (_ && _); [in_list|]. destruct (_ || _); [in_list|].
  destruct (_ <? _); in_list.
Qed.

Lemma activity_fields (now : datetime) (sessions : list CS.t) (u p : string)
    (lookback : Z) :
  let recent := recent_sessions_of now sessions u p lookback in
  let activity := calculate_developer_status now sessions u p lookback in
  DA.user_id activity = u
  /\ DA.project_id activity = p
  /\ DA.status activity = _calculate_objective_status recent
  /\ DA.iteration_count activity = total_interactions_of recent
  /\ (length (DA.files_working_on activity) <= 5)%nat
  /\ (recent = [] -> DA.files_working_on activity = [])
  /\ DA.success_rate activity
     = (if decide (recent = []) then 0%Q
        else (total_success_of recent
              # Z.to_pos (Z.max (total_interactions_of recent) 1))%Q)
  /\ DA.duration_minutes activity = PyList.sum (map CS.duration_minutes recent).
Proof.
  intros recent activity.
  destruct recent as [|first others] eqn:Hrecent.
  - subst activity. rewrite idle_without_recent_sessions by exact Hrecent.
    cbn. repeat split; try reflexivity; lia.
  - assert (recent <> []) as Hne by (subst recent; now rewrite Hrecent).
    destruct (status_of_recent_sessions now sessions u p lookback Hne)
      as (Hstatus & Hcount & Hrate & Hfiles & _).
    fold recent activity in Hstatus, Hcount, Hrate, Hfiles.
    rewrite (status_Permutation _ recent) in Hstatus by apply sort_Permutation.
    rewrite Hrecent in Hstatus, Hcount.
    destruct (latest_of_recent_sessions now sessions u p lookback Hne)
      as (latest & rest & Hsort & _ & _ & Hduration).
    fold recent activity in Hduration, Hsort. rewrite <- Hsort in Hduration.
    split; [|split; [|split; [exact Hstatus|split; [exact Hcount|]]]];
      [| |split; [|split; [|split]]].
    + subst activity. unfold calculate_developer_status.
      fold recent. now rewrite Hrecent.
    + subst activity. unfold calculate_developer_status.
      fold recent. now rewrite Hrecent.
    + rewrite Hfiles, length_take. lia.
    + discriminate.
    + rewrite Hrate. destruct (decide _) as [Heq|_]; [|now rewrite Hrecent].
      discriminate.
    + rewrite Hduration. apply sum_Permutation, Permutation_map.
      rewrite <- Hrecent. apply sort_Permutation.
Qed.


(** ** The team of a dashboard *)

Lemma grouped_keys {K V} `{EqDecision K} (key : V -> K) (l : list V) (k : K) :
  k ∈ (foldl (fun d v => PyList.defaultdict_append d (key v) v) [] l).*1
  <-> exists v, v ∈ l /\ key v = k.
Proof.
  induction l as [|x l IH] using rev_ind.
  - cbn. split; [intros H; now apply elem_of_nil in H|].
    intros (v & H & _). now apply elem_of_nil in H.
  - rewrite foldl_snoc.
    set (d := foldl (fun d v => PyList.defaultdict_append d (key v) v) [] l) in *.
    destruct (defaultdict_append_keys d (key x) x) as [[Hin ->]|[Hnin ->]].
    + rewrite IH. split; intros (v & Hv & Hk).
      * exists v. split; [apply elem_of_app; now left | exact Hk].
      * apply elem_of_app in Hv as [Hv|Hv]; [now exists v|].
        apply list_elem_of_singleton in Hv as ->. apply IH. now rewrite <- Hk.
    + rewrite elem_of_app, IH, list_elem_of_singleton. split.
      * intros [(v & Hv & Hk)| ->].
        -- exists v. split; [apply elem_of_app; now left | exact Hk].
        -- exists x. split; [|reflexivity].
           apply elem_of_app. right. now apply list_elem_of_singleton.
      * intros (v & Hv & Hk). apply elem_of_app in Hv as [Hv|Hv].
        -- left. now exists v.
        -- apply list_elem_of_singleton in Hv as ->. now right.
Qed.

Lemma project_users_elem (sessions : list CS.t) (p u : string) :
  u ∈ project_users sessions p
  <-> exists s, s ∈ sessions /\ CS.project_id s = p /\ CS.user_id s = u.
Proof.
  unfold project_users. rewrite list_elem_of_fmap. split.
  - intros (s & -> & Hs). apply list_elem_of_In, filter_In in Hs as [Hs Hp].
    apply String.eqb_eq in Hp. exists s. split; [now apply list_elem_of_In | now split].
  - intros (s & Hs & Hp & Hu). exists s. split; [now symmetry|].
    apply list_elem_of_In, filter_In. split; [now apply list_elem_of_In|].
    now apply String.eqb_eq.
Qed.

Lemma dashboard_returned (clock : DashboardClock.t) (sessions : list CS.t)
    (p : string) :
  exists d,
    generate_team_dashboard_data round_ndigits clock sessions p = Returned d
    /\ Dashboard.project_id d = p
    /\ Dashboard.team_status d
       = map (_activity_to_dict round_ndigits) (team_of clock sessions p)
    /\ Dashboard.collisions d
       = found_pairs (DashboardClock.pair_at clock)
           (user_activities_of (DashboardClock.collisions_at clock) sessions p 2)
    /\ ProjectMetrics.total_interactions_24h (Dashboard.project_metrics d)
       = total_interactions_of
           (List.filter
              (fun s => DashboardClock.metrics_at clock - timedelta_hours 24
                        <? CS.end_time s)
              (List.filter (fun s => String.eqb (CS.project_id s) p) sessions))
    /\ ProjectMetrics.active_developers (Dashboard.project_metrics d)
       = Z.of_nat (length (List.filter
                             (fun a => negb (String.eqb (DA.status a) "idle"))
                             (team_of clock sessions p)))
    /\ ProjectMetrics.files_being_worked_on (Dashboard.project_metrics d)
       = Z.of_nat (length (set_iter (flat_map DA.files_working_on
                                       (team_of clock sessions p))))
    /\ ProjectMetrics.average_success_rate (Dashboard.project_metrics d)
       = match team_of clock sessions p with
         | [] => 0%Q
         | _ :: _ => PyStatistics.mean (map DA.success_rate (team_of clock sessions p))
         end.
Proof.
  unfold generate_team_dashboard_data.
  rewrite detect_team_collisions_found. cbn [mbind outcome_bind mret outcome_ret].
  eexists. split; [reflexivity|]. cbn. repeat split; reflexivity.
Qed.

Lemma team_of_users (clock : DashboardClock.t) (sessions : list CS.t) (p : string) :
  map DA.user_id (team_of clock sessions p) = set_iter (project_users sessions p).
Proof.
  unfold team_of. rewrite map_map.
  induction (set_iter (project_users sessions p)) as [|u l IH]; [reflexivity|].
  cbn [map]. rewrite IH. f_equal.
  apply (activity_fields (DashboardClock.status_at clock u) sessions u p 2).
Qed.

Lemma activity_dict_users (team : list DA.t) :
  map ActivityDict.user_id (map (_activity_to_dict round_ndigits) team)
  = map DA.user_id team.
Proof. rewrite map_map. reflexivity. Qed.

(** X13. A dashboard is always produced. Its team holds every person with
    a session in the project once, and nobody else; every entry is the
    status of its person in the project, computed with the default window
    of two hours; and the people named in a warning are members of the
    team. *)
Theorem X13_team_is_the_people_of_the_project (clock : DashboardClock.t)
    (sessions : list CS.t) (p : string) :
  exists d,
    generate_team_dashboard_data round_ndigits clock sessions p = Returned d
    /\ Dashboard.project_id d = p
    /\ NoDup (map ActivityDict.user_id (Dashboard.team_status d))
    /\ (forall u, u ∈ map ActivityDict.user_id (Dashboard.team_status d)
                  <-> exists s, s ∈ sessions /\ CS.project_id s = p
                                /\ CS.user_id s = u)
    /\ (forall a, a ∈ Dashboard.team_status d ->
          ActivityDict.project_id a = p
          /\ a = _activity_to_dict round_ndigits
                   (calculate_developer_status
                      (DashboardClock.status_at clock (ActivityDict.user_id a))
                      sessions (ActivityDict.user_id a) p 2))
    /\ (forall w u, w ∈ Dashboard.collisions d -> u ∈ Collision.users w ->
          u ∈ map ActivityDict.user_id (Dashboard.team_status d)).
Proof.
  destruct (dashboard_returned clock sessions p)
    as (d & Hd & Hp & Hteam & Hcollisions & _).
  exists d. split; [exact Hd|]. split; [exact Hp|].
  rewrite Hteam, activity_dict_users, team_of_users.
  split; [apply set_iter_NoDup|]. split; [|split].
  - intros u. rewrite set_iter_elem. apply project_users_elem.
  - intros a Ha. apply list_elem_of_fmap in Ha as (activity & -> & Hin).
    unfold team_of in Hin. apply list_elem_of_fmap in Hin as (u & -> & _).
    cbn [_activity_to_dict ActivityDict.project_id ActivityDict.user_id].
    destruct (activity_fields (DashboardClock.status_at clock u) sessions u p 2)
      as (Hu & Hproj & _).
    rewrite Hu. split; [exact Hproj | reflexivity].
  - intros w u Hw Hu. rewrite Hcollisions in Hw.
    apply found_pairs_users in Hw as (u1 & u2 & H1 & H2 & Husers).
    rewrite Husers in Hu.
    assert (u ∈ (user_activities_of (DashboardClock.collisions_at clock)
                   sessions p 2).*1) as Hkey.
    { apply elem_of_cons in Hu as [->|Hu]; [exact H1|].
      apply elem_of_cons in Hu as [->|Hu]; [exact H2|].
      now apply elem_of_nil in Hu. }
    apply (grouped_keys CS.user_id) in Hkey as (s & Hs & Hsu).
    apply list_elem_of_In, filter_In in Hs as [Hs Hsp].
    apply andb_true_iff in Hsp as [Hsp _]. apply String.eqb_eq in Hsp.
    apply set_iter_elem, project_users_elem.
    exists s. split; [now apply list_elem_of_In | now split].
Qed.


(** ** The metrics of a dashboard *)

Lemma set_iter_length (l : list string) : (length (set_iter l) <= length l)%nat.
Proof.
  apply submseteq_length, NoDup_submseteq; [apply set_iter_NoDup|].
  intros x. apply set_iter_elem.
Qed.

Lemma team_of_elem (clock : DashboardClock.t) (sessions : list CS.t) (p : string)
    (activity : DA.t) :
  activity ∈ team_of clock sessions p ->
  exists u,
    u ∈ project_users sessions p
    /\ activity = calculate_developer_status (DashboardClock.status_at clock u)
                    sessions u p 2.
Proof.
  unfold team_of. intros Hin. apply list_elem_of_fmap in Hin as (u & -> & Hu).
  exists u. split; [now apply set_iter_elem | reflexivity].
Qed.

Lemma idle_iff_no_recent_session (now : datetime) (sessions : list CS.t)
    (u p : string) (lookback : Z) :
  DA.status (calculate_developer_status now sessions u p lookback) = "idle"
  <-> recent_sessions_of now sessions u p lookback = [].
Proof.
  destruct (activity_fields now sessions u p lookback) as (_ & _ & -> & _).
  apply status_idle_iff.
Qed.

Lemma files_of_active_members (team : list DA.t) :
  Forall (fun a => (length (DA.files_working_on a) <= 5)%nat
                   /\ (DA.status a = "idle" -> DA.files_working_on a = [])) team ->
  (length (flat_map DA.files_working_on team)
   <= 5 * length (List.filter (fun a => negb (String.eqb (DA.status a) "idle"))
                              team))%nat.
Proof.
  induction 1 as [|a team [Hfive Hidle] _ IH]; [cbn; lia|].
  cbn [flat_map List.filter]. rewrite length_app.
  destruct (String.eqb_spec (DA.status a) "idle") as [Heq|Hne]; cbn [negb length].
  - rewrite (Hidle Heq). cbn [length]. lia.
  - lia.
Qed.

(** X14. In the metrics of a dashboard the active developers are at most
    the members of the team, and the files being worked on at most five per
    active developer: a member is counted as active exactly when one of its
    sessions in the project ends after its cutoff, two hours before the
    clock reading of its status, and an idle member lists no file. Every
    state of the team is one of the four states of the classification. *)
Theorem X14_metrics_count_the_active_members (clock : DashboardClock.t)
    (sessions : list CS.t) (p : string) :
  exists d,
    generate_team_dashboard_data round_ndigits clock sessions p = Returned d
    /\ (let metrics := Dashboard.project_metrics d in
        0 <= ProjectMetrics.active_developers metrics
             <= Z.of_nat (length (Dashboard.team_status d))
        /\ 0 <= ProjectMetrics.files_being_worked_on metrics
                <= 5 * ProjectMetrics.active_developers metrics
        /\ 0 <= ProjectMetrics.total_interactions_24h metrics)
    /\ (forall a, a ∈ Dashboard.team_status d ->
          ActivityDict.status a ∈ analyzer_states
          /\ (ActivityDict.status a = "idle"
              <-> recent_sessions_of
                    (DashboardClock.status_at clock (ActivityDict.user_id a))
                    sessions (ActivityDict.user_id a) p 2 = [])
          /\ (ActivityDict.status a = "idle" -> ActivityDict.files_working_on a = [])
          /\ (length (ActivityDict.files_working_on a) <= 5)%nat).
Proof.
  destruct (dashboard_returned clock sessions p)
    as (d & Hd & _ & Hteam & _ & Htotal & Hactive & Hfiles & _).
  exists d. split; [exact Hd|].
  assert (Forall (fun a => (length (DA.files_working_on a) <= 5)%nat
                           /\ (DA.status a = "idle" -> DA.files_working_on a = []))
                 (team_of clock sessions p)) as Hmembers.
  { apply List.Forall_forall. intros a Ha.
    apply list_elem_of_In, team_of_elem in Ha as (u & _ & ->).
    destruct (activity_fields (DashboardClock.status_at clock u) sessions u p 2)
      as (_ & _ & _ & _ & Hfive & Hnone & _).
    split; [exact Hfive|]. intros Hidle. apply Hnone.
    now apply idle_iff_no_recent_session. }
  split.
  - cbv zeta. rewrite Htotal, Hactive, Hfiles, Hteam, length_map.
    pose proof (files_of_active_members _ Hmembers) as Hbound.
    pose proof (set_iter_length
                  (flat_map DA.files_working_on (team_of clock sessions p))).
    pose proof (filter_length_le (fun a => negb (String.eqb (DA.status a) "idle"))
                  (team_of clock sessions p)).
    pose proof (total_interactions_nonneg
                  (List.filter
                     (fun s => DashboardClock.metrics_at clock - timedelta_hours 24
                               <? CS.end_time s)
                     (List.filter (fun s => String.eqb (CS.project_id s) p) sessions))).
    lia.
  - intros a Ha. rewrite Hteam in Ha.
    apply list_elem_of_fmap in Ha as (activity & -> & Hin).
    pose proof (proj1 (List.Forall_forall _ _) Hmembers activity
                  (proj1 (list_elem_of_In _ _) Hin)) as [Hfive Hnone].
    apply team_of_elem in Hin as (u & _ & ->).
    cbn [_activity_to_dict ActivityDict.status ActivityDict.user_id
         ActivityDict.files_working_on].
    destruct (activity_fields (DashboardClock.status_at clock u) sessions u p 2)
      as (Hu & _ & Hstatus & _).
    rewrite Hu. split; [rewrite Hstatus; apply status_is_a_state|].
    split; [apply idle_iff_no_recent_session|]. split; assumption.
Qed.


(** ** The interactions of the team and of the last day *)

Lemma sum_by_person (f : CS.t -> Z) (g : string -> CS.t -> bool) (h : CS.t -> bool)
    (people : list string) (l : list CS.t) :
  (forall s, 0 <= f s) -> NoDup people ->
  (forall u s, g u s = true -> CS.user_id s = u /\ h s = true) ->
  PyList.sum (map (fun u => PyList.sum (map f (List.filter (g u) l))) people)
  <= PyList.sum (map f (List.filter h l)).
Proof.
  intros Hf Hnodup Hg. unfold PyList.sum.
  induction l as [|s l IH].
  - cbn. induction people as [|u people IHp]; cbn; [lia|].
    apply NoDup_cons in Hnodup as [_ Hnodup]. specialize (IHp Hnodup). lia.
  - assert (foldr Z.add 0
              (map (fun u => foldr Z.add 0 (map f (List.filter (g u) (s :: l)))) people)
            = foldr Z.add 0 (map (fun u => if g u s then f s else 0) people)
              + foldr Z.add 0
                  (map (fun u => foldr Z.add 0 (map f (List.filter (g u) l))) people))
      as ->.
    { clear. induction people as [|u people IHp]; [reflexivity|].
      cbn [map foldr]. rewrite IHp. cbn [List.filter].
      destruct (g u s); cbn [map foldr]; lia. }
    assert (foldr Z.add 0 (map (fun u => if g u s then f s else 0) people)
            <= (if h s then f s else 0)) as Hone.
    { clear IH. induction Hnodup as [|u people Hu Hnodup IHp].
      - cbn. specialize (Hf s). destruct (h s); lia.
      - cbn [map foldr]. destruct (g u s) eqn:Hgu.
        + destruct (Hg u s Hgu) as [Hus ->].
          assert (foldr Z.add 0 (map (fun u => if g u s then f s else 0) people) = 0)
            as ->; [|lia].
          clear IHp. induction people as [|v people IHv]; [reflexivity|].
          cbn [map foldr]. destruct (g v s) eqn:Hgv.
          * exfalso. apply Hu. destruct (Hg v s Hgv) as [Hvs _].
            rewrite <- Hus, Hvs. apply elem_of_cons. now left.
          * rewrite IHv; [lia| |].
            -- intros Hin. apply Hu. apply elem_of_cons. now right.
            -- now apply NoDup_cons in Hnodup as [_ Hnodup].
        + lia. }
    cbn [List.filter]. destruct (h s); cbn [map foldr]; lia.
Qed.

Lemma filter_filter_andb {A} (f g : A -> bool) (l : list A) :
  List.filter g (List.filter f l) = List.filter (fun x => f x && g x) l.
Proof.
  induction l as [|x l IH]; [reflexivity|].
  cbn [List.filter]. destruct (f x); cbn [List.filter andb]; [|exact IH].
  destruct (g x); now rewrite IH.
Qed.

(** X15. When the clock readings of the statuses are at most 22 hours
    before the reading of the metrics, the interactions of the team's
    statuses add up to at most the interactions of the last 24 hours. *)
Theorem X15_team_interactions_are_of_the_last_day (clock : DashboardClock.t)
    (sessions : list CS.t) (p : string) :
  statuses_read_within 22 clock ->
  exists d,
    generate_team_dashboard_data round_ndigits clock sessions p = Returned d
    /\ PyList.sum (map ActivityDict.iteration_count (Dashboard.team_status d))
       <= ProjectMetrics.total_interactions_24h (Dashboard.project_metrics d).
Proof.
  intros Hclock.
  destruct (dashboard_returned clock sessions p)
    as (d & Hd & _ & Hteam & _ & Htotal & _).
  exists d. split; [exact Hd|].
  rewrite Htotal, Hteam, filter_filter_andb. unfold team_of. rewrite !map_map.
  unfold total_interactions_of.
  etransitivity;
    [|apply (sum_by_person
               (fun s => Z.of_nat (length (CS.interactions s)))
               (fun u s => String.eqb (CS.user_id s) u
                           && String.eqb (CS.project_id s) p
                           && (DashboardClock.status_at clock u - timedelta_hours 2
                               <? CS.end_time s))
               _ (set_iter (project_users sessions p)))].
  - apply Z.eq_le_incl. f_equal. apply map_ext. intros u.
    cbn [_activity_to_dict ActivityDict.iteration_count].
    destruct (activity_fields (DashboardClock.status_at clock u) sessions u p 2)
      as (_ & _ & _ & -> & _).
    reflexivity.
  - intros s. lia.
  - apply set_iter_NoDup.
  - intros u s Hg. apply andb_true_iff in Hg as [Hg Hend].
    apply andb_true_iff in Hg as [Hu Hp]. apply String.eqb_eq in Hu.
    split; [exact Hu|]. rewrite Hp. cbn [andb].
    apply Z.ltb_lt in Hend. apply Z.ltb_lt.
    specialize (Hclock u). unfold timedelta_hours in *. lia.
Qed.


(** ** The people of a warning *)

Lemma found_pairs_two_people (now_at : string -> string -> datetime)
    (ua : list (string * list CS.t)) (w : Collision.t) :
  NoDup ua.*1 -> w ∈ found_pairs now_at ua ->
  exists u1 u2, u1 <> u2 /\ u1 ∈ ua.*1 /\ u2 ∈ ua.*1 /\ Collision.users w = [u1; u2].
Proof.
  intros Hnodup Hw. apply found_pairs_elem in Hw
    as (pre & u1 & ss1 & mid & u2 & ss2 & post & -> & Hw).
  exists u1, u2.
  rewrite fmap_app, fmap_cons, fmap_app, fmap_cons in Hnodup |- *. cbn [fst] in *.
  apply NoDup_app in Hnodup as (_ & _ & Hnodup).
  apply NoDup_cons in Hnodup as [Hu1 _].
  split; [|split; [|split]].
  - intros ->. apply Hu1. apply elem_of_app. right. apply elem_of_cons. now left.
  - apply elem_of_app. right. apply elem_of_cons. now left.
  - apply elem_of_app. right. apply elem_of_cons. right.
    apply elem_of_app. right. apply elem_of_cons. now left.
  - now apply check_collision_users in Hw.
Qed.

Lemma two_members_pass {A} (f : A -> bool) (l : list A) (a b : A) :
  a <> b -> a ∈ l -> b ∈ l -> f a = true -> f b = true ->
  (2 <= length (List.filter f l))%nat.
Proof.
  intros Hab Ha Hb Hfa Hfb.
  assert (a ∈ List.filter f l) as Ha'
    by (apply list_elem_of_In, filter_In; split;
        [now apply list_elem_of_In | exact Hfa]).
  assert (b ∈ List.filter f l) as Hb'
    by (apply list_elem_of_In, filter_In; split;
        [now apply list_elem_of_In | exact Hfb]).
  destruct (List.filter f l) as [|x [|y k]]; cbn [length]; [| |lia].
  - now apply elem_of_nil in Ha'.
  - apply list_elem_of_singleton in Ha', Hb'. congruence.
Qed.

Lemma warned_person_is_active (clock : DashboardClock.t) (sessions : list CS.t)
    (p u : string) :
  statuses_read_first clock ->
  u ∈ (user_activities_of (DashboardClock.collisions_at clock) sessions p 2).*1 ->
  u ∈ project_users sessions p
  /\ DA.status (calculate_developer_status (DashboardClock.status_at clock u)
                  sessions u p 2) <> "idle".
Proof.
  intros Hclock Hkey.
  apply (grouped_keys CS.user_id) in Hkey as (s & Hs & Hsu).
  apply list_elem_of_In, filter_In in Hs as [Hs Hsp].
  apply andb_true_iff in Hsp as [Hsp Hend].
  apply String.eqb_eq in Hsp. apply Z.ltb_lt in Hend.
  split.
  - apply project_users_elem. exists s. split; [now apply list_elem_of_In | now split].
  - rewrite idle_iff_no_recent_session. intros Hnone.
    assert (s ∈ recent_sessions_of (DashboardClock.status_at clock u) sessions u p 2)
      as Hin.
    { apply recent_sessions_elem. split; [now apply list_elem_of_In|].
      split; [exact Hsu|]. split; [exact Hsp|].
      specialize (Hclock u). lia. }
    rewrite Hnone in Hin. now apply elem_of_nil in Hin.
Qed.

(** X16. When the clock is read for the statuses before it is read for the
    cutoff of the collisions, every person named in a warning of a
    dashboard is a member of the team whose state is not [idle]; so a
    dashboard with a warning counts at least two active developers. *)
Theorem X16_warned_people_are_active (clock : DashboardClock.t)
    (sessions : list CS.t) (p : string) :
  statuses_read_first clock ->
  exists d,
    generate_team_dashboard_data round_ndigits clock sessions p = Returned d
    /\ (forall w u, w ∈ Dashboard.collisions d -> u ∈ Collision.users w ->
          exists a, a ∈ Dashboard.team_status d
                    /\ ActivityDict.user_id a = u
                    /\ ActivityDict.status a <> "idle")
    /\ (Dashboard.collisions d <> [] ->
        2 <= ProjectMetrics.active_developers (Dashboard.project_metrics d)).
Proof.
  intros Hclock.
  destruct (dashboard_returned clock sessions p)
    as (d & Hd & _ & Hteam & Hcollisions & _ & Hactive & _).
  exists d. split; [exact Hd|].
  set (ua := user_activities_of (DashboardClock.collisions_at clock) sessions p 2)
    in *.
  set (status_of := fun u =>
         calculate_developer_status (DashboardClock.status_at clock u) sessions u p 2).
  assert (forall u, u ∈ ua.*1 ->
            status_of u ∈ team_of clock sessions p
            /\ DA.user_id (status_of u) = u
            /\ DA.status (status_of u) <> "idle") as Hmember.
  { intros u Hu.
    destruct (warned_person_is_active clock sessions p u Hclock Hu) as [Hin Hstatus].
    split; [|split; [|exact Hstatus]].
    - unfold team_of. apply list_elem_of_fmap. exists u.
      split; [reflexivity | now apply set_iter_elem].
    - apply (activity_fields (DashboardClock.status_at clock u) sessions u p 2). }
  assert (NoDup ua.*1) as Hnodup by apply user_activities_NoDup.
  split.
  - intros w u Hw Hu. rewrite Hcollisions in Hw.
    apply (found_pairs_two_people _ _ _ Hnodup) in Hw
      as (u1 & u2 & _ & H1 & H2 & Husers).
    rewrite Husers in Hu.
    assert (u ∈ ua.*1) as Hkey.
    { apply elem_of_cons in Hu as [->|Hu]; [exact H1|].
      apply elem_of_cons in Hu as [->|Hu]; [exact H2|].
      now apply elem_of_nil in Hu. }
    destruct (Hmember u Hkey) as (Hin & Huser & Hstatus).
    exists (_activity_to_dict round_ndigits (status_of u)).
    split; [|split; [exact Huser | exact Hstatus]].
    rewrite Hteam. apply list_elem_of_fmap. now exists (status_of u).
  - intros Hsome. rewrite Hactive, Hcollisions in *.
    destruct (found_pairs (DashboardClock.pair_at clock) ua) as [|w ws] eqn:Hfound;
      [congruence|].
    assert (w ∈ found_pairs (DashboardClock.pair_at clock) ua) as Hw
      by (rewrite Hfound; apply elem_of_cons; now left).
    apply (found_pairs_two_people _ _ _ Hnodup) in Hw
      as (u1 & u2 & Hne & H1 & H2 & _).
    destruct (Hmember u1 H1) as (Hin1 & Huser1 & Hstatus1).
    destruct (Hmember u2 H2) as (Hin2 & Huser2 & Hstatus2).
    assert (2 <= length (List.filter
                           (fun a => negb (String.eqb (DA.status a) "idle"))
                           (team_of clock sessions p)))%nat; [|lia].
    apply (two_members_pass _ _ (status_of u1) (status_of u2)).
    + intros Heq. apply Hne. now rewrite <- Huser1, <- Huser2, Heq.
    + exact Hin1.
    + exact Hin2.
    + apply negb_true_iff. now apply String.eqb_neq.
    + apply negb_true_iff. now apply String.eqb_neq.
Qed.

(** ** The dashboard of a batch of logs *)




Lemma total_interactions_filter (f : CS.t -> bool) (sessions : list CS.t) :
  total_interactions_of (List.filter f sessions) <= total_interactions_of sessions.
Proof.
  unfold total_interactions_of, PyList.sum.
  induction sessions as [|s l IH]; [reflexivity|].
  cbn [List.filter]. destruct (f s); cbn [map foldr]; lia.
Qed.








(** ** The insights of a developer *)

Lemma filter_each_sublist {A} (f : A -> outcome bool) (l kept : list A) :
  filter_each f l = Returned kept ->
  kept `sublist_of` l
  /\ (forall x, x ∈ kept <-> x ∈ l /\ f x = Returned true)
  /\ Forall (fun x => exists keep, f x = Returned keep) l.
Proof.
  revert kept. induction l as [|x l IH]; intros kept; cbn [filter_each].
  - intros [= <-]. split; [constructor|]. split; [|constructor].
    intros x. split; [intros H; now apply elem_of_nil in H|].
    intros [H _]. now apply elem_of_nil in H.
  - destruct (f x) as [keep|e] eqn:Hx; cbn [mbind outcome_bind]; [|discriminate].
    destruct (filter_each f l) as [kept'|e]; cbn [mbind outcome_bind mret outcome_ret];
      [|discriminate].
    intros [= <-]. destruct (IH kept' eq_refl) as (Hsub & Hmem & Hall).
    split; [|split].
    + destruct keep; now constructor.
    + intros y. destruct keep.
      * rewrite !elem_of_cons, Hmem. split.
        -- intros [->|[Hy Hfy]]; [split; [now left | exact Hx]|].
           split; [now right | exact Hfy].
        -- intros [[->|Hy] Hfy]; [now left | right; now split].
      * rewrite elem_of_cons, Hmem. split.
        -- intros [Hy Hfy]. split; [now right | exact Hfy].
        -- intros [[->|Hy] Hfy]; [congruence | now split].
    + constructor; [now exists keep | exact Hall].
Qed.

Lemma is_recent_log_true (cutoff_date : datetime) (u p : string)
    (log : gmap string string) :
  is_recent_log cutoff_date u p log = Returned true
  <-> recent_log cutoff_date u p log /\ stamped_with_offset log.
Proof.
  unfold is_recent_log, recent_log, stamped_with_offset, reads_time, getitem,
    parse_timestamp.
  destruct (log !! "interaction_timestamp") as [ts|];
    cbn [mbind outcome_bind mret outcome_ret].
  - destruct (fromisoformat (PyStr.replace "Z" "+00:00" ts)) as [t|] eqn:Ht;
      cbn [mbind outcome_bind mret outcome_ret].
    + destruct (has_utcoffset (PyStr.replace "Z" "+00:00" ts)) eqn:Haware;
        cbn [negb].
      2:{ split; [discriminate|]. intros [_ Hoffset].
          specialize (Hoffset ts eq_refl). congruence. }
      assert (forall text, Some ts = Some text ->
                has_utcoffset (PyStr.replace "Z" "+00:00" text) = true)
        as Hoffset by (now intros text [= <-]).
      destruct (Z.ltb_spec cutoff_date t) as [Hlt|Hge].
      * destruct (log !! "user_id") as [user|];
          cbn [mbind outcome_bind mret outcome_ret].
        -- destruct (String.eqb_spec user u) as [->|Hne].
           ++ destruct (log !! "project_id") as [project|];
                cbn [mbind outcome_bind mret outcome_ret].
              ** destruct (String.eqb_spec project p) as [->|Hne].
                 --- split; [|reflexivity]. intros _. split; [|exact Hoffset].
                     exists t. split; [exists ts; now split|]. now repeat split.
                 --- split; [discriminate|].
                     intros [(t' & _ & _ & _ & [= Heq]) _]. congruence.
              ** split; [discriminate|]. intros [(t' & _ & _ & _ & [=]) _].
           ++ split; [discriminate|].
              intros [(t' & _ & _ & [= Heq] & _) _]. congruence.
        -- split; [discriminate|]. intros [(t' & _ & _ & [=] & _) _].
      * split; [discriminate|].
        intros [(t' & (ts' & [= <-] & Hread) & Hlt & _) _].
        rewrite Ht in Hread. injection Hread as <-. lia.
    + split; [discriminate|].
      intros [(t' & (ts' & [= <-] & Hread) & _) _]. congruence.
  - split; [discriminate|]. intros [(t' & (ts' & [=] & _) & _) _].
Qed.

(** The filter returns only if every log with a timestamp states its
    offset. *)
Lemma is_recent_log_returns (cutoff_date : datetime) (u p : string)
    (log : gmap string string) (keep : bool) :
  is_recent_log cutoff_date u p log = Returned keep -> stamped_with_offset log.
Proof.
  unfold is_recent_log, stamped_with_offset, getitem, parse_timestamp.
  destruct (log !! "interaction_timestamp") as [ts|];
    cbn [mbind outcome_bind mret outcome_ret]; [|discriminate].
  destruct (fromisoformat (PyStr.replace "Z" "+00:00" ts)) as [t|];
    cbn [mbind outcome_bind mret outcome_ret]; [|discriminate].
  destruct (has_utcoffset (PyStr.replace "Z" "+00:00" ts)) eqn:Haware;
    cbn [negb]; [|discriminate].
  now intros _ text [= <-].
Qed.


Lemma segmented_counts (interactions : list CI.t) (gap : Z) :
  let sessions := group_into_sessions interactions gap in
  total_interactions_of sessions = Z.of_nat (length interactions)
  /\ (length sessions <= length interactions)%nat
  /\ (sessions = [] <-> interactions = []).
Proof.
  intros sessions.
  destruct (segmented_members interactions gap) as [Hall Hsessions].
  fold sessions in Hall, Hsessions.
  assert (length sessions <= length interactions)%nat as Hlen.
  { rewrite (Permutation_length Hall). apply nonempty_members_count.
    eapply Forall_impl; [exact Hsessions|]. now intros s (Hne & _). }
  split; [|split; [exact Hlen|split]].
  - rewrite total_interactions_members. now rewrite <- Hall.
  - intros Heq. rewrite Heq in Hall. cbn in Hall.
    now apply Permutation_nil_r in Hall.
  - intros Heq. rewrite Heq in Hlen. cbn in Hlen.
    destruct sessions; [reflexivity | cbn in Hlen; lia].
Qed.

(** X18. The insights of a developer: the call raises [OverflowError] when
    the cutoff of the period cannot be computed, or else what the filter of
    the logs raises ([TypeError] at a timestamp without an offset among
    them), or else what parsing the kept logs raises. Otherwise it
    returns: every log of the batch states the offset of its timestamp; the
    kept logs are, in the order of the batch, the logs of the
    person and project stamped after the cutoff; the interactions reported
    are as many as the kept logs, the sessions at most as many, and none
    exactly when no log is kept; the recent activity is the status of the
    person over these sessions and counts no more interactions. *)
Theorem X18_insights_count_the_kept_logs (now status_now : datetime)
    (u p : string) (chat_logs : list (gmap string string)) (days : Z) :
  let insights :=
    get_developer_insights round_ndigits now status_now u p chat_logs days in
  match cutoff now (timedelta_days days) with
  | Raised _ => insights = Raised OverflowError
  | Returned cutoff_date =>
  match filter_each (is_recent_log cutoff_date u p) chat_logs with
  | Raised e => insights = Raised e
  | Returned recent_logs =>
      recent_logs `sublist_of` chat_logs
      /\ Forall stamped_with_offset chat_logs
      /\ (forall log, log ∈ recent_logs
                      <-> log ∈ chat_logs /\ recent_log cutoff_date u p log)
      /\ match parse_chat_logs recent_logs with
         | Raised e => insights = Raised e
         | Returned interactions =>
             exists r,
               insights = Returned r
               /\ Insights.period_days r = days
               /\ Insights.total_interactions r = Z.of_nat (length recent_logs)
               /\ 0 <= Insights.total_sessions r <= Insights.total_interactions r
               /\ (Insights.total_sessions r = 0 <-> recent_logs = [])
               /\ Insights.recent_activity r
                  = calculate_developer_status status_now
                      (group_into_sessions interactions 30) u p 2
               /\ DA.iteration_count (Insights.recent_activity r)
                  <= Insights.total_interactions r
               /\ Forall (fun i => CI.user_id i = u /\ CI.project_id i = p
                                   /\ cutoff_date < CI.interaction_timestamp i)
                         interactions
         end
  end
  end.
Proof.
  intros insights. subst insights. unfold get_developer_insights.
  destruct (cutoff now (timedelta_days days)) as [cutoff_date|e] eqn:Hcutoff;
    [|now apply cutoff_raises in Hcutoff as ->].
  cbn [mbind outcome_bind].
  destruct (filter_each (is_recent_log cutoff_date u p) chat_logs)
    as [recent_logs|e] eqn:Hfilter; [|reflexivity].
  cbn [mbind outcome_bind].
  destruct (filter_each_sublist _ _ _ Hfilter) as (Hsub & Hkept & Hall).
  assert (Forall stamped_with_offset chat_logs) as Hoffsets.
  { eapply Forall_impl; [exact Hall|]. intros log [keep Hkeep].
    now apply is_recent_log_returns in Hkeep. }
  split; [exact Hsub|]. split; [exact Hoffsets|]. split.
  { intros log. rewrite Hkept, is_recent_log_true. split; [tauto|].
    intros [Hin Hrecent]. split; [exact Hin|]. split; [exact Hrecent|].
    rewrite Forall_forall in Hoffsets. now apply Hoffsets. }
  destruct (parse_chat_logs recent_logs) as [interactions|e] eqn:Hparse;
    [|reflexivity].
  cbn [mbind outcome_bind mret outcome_ret].
  eexists. split; [reflexivity|].
  cbn [Insights.period_days Insights.total_interactions Insights.total_sessions
       Insights.recent_activity].
  apply for_each_Returned in Hparse.
  pose proof (Forall2_length _ _ _ Hparse) as Hlength.
  destruct (segmented_counts interactions 30) as (Htotal & Hlen & Hnone).
  split; [reflexivity|]. split; [rewrite Htotal; lia|].
  split; [rewrite Htotal; lia|]. split.
  { split.
    - intros Hzero.
      assert (group_into_sessions interactions 30 = []) as Hsessions
        by (destruct (group_into_sessions interactions 30);
            [reflexivity | cbn [length] in Hzero; lia]).
      apply Hnone in Hsessions. subst interactions.
      destruct recent_logs; [reflexivity | discriminate].
    - intros ->. destruct interactions; [|discriminate].
      now rewrite (proj2 Hnone eq_refl). }
  split; [reflexivity|]. split.
  { destruct (activity_fields status_now (group_into_sessions interactions 30) u p 2)
      as (_ & _ & _ & -> & _).
    apply total_interactions_filter. }
  assert (Forall (recent_log cutoff_date u p) recent_logs) as Hrecent.
  { apply Forall_forall. intros log Hlog. apply Hkept in Hlog as [_ Hlog].
    now apply is_recent_log_true in Hlog. }
  clear -Hparse Hrecent.
  induction Hparse as [|log i logs parsed Hi _ IH]; [constructor|].
  apply Forall_cons in Hrecent as [(t & (ts & Hts & Ht) & Hlt & Hu & Hp) Hrecent].
  constructor; [|now apply IH].
  apply parse_chat_log_read in Hi
    as (_ & _ & _ & Hu' & Hp' & (ts' & Hts' & Ht') & _).
  repeat split; congruence.
Qed.

(** ** Rankings of files and features *)

Lemma count_one_counted (c : list (string * Z)) (x k : string) :
  counted (PyCollections.count_one c x) k
  = counted c k + (if String.eqb x k then 1 else 0).
Proof.
  unfold counted.
  induction c as [|[k' n] c IH]; cbn [PyCollections.count_one List.find fst snd].
  - destruct (String.eqb x k); reflexivity.
  - destruct (String.eqb_spec k' x) as [->|Hne]; cbn [List.find fst snd].
    + destruct (String.eqb x k); cbn [snd]; lia.
    + destruct (String.eqb_spec k' k) as [->|Hne'].
      * destruct (String.eqb_spec x k) as [->|_]; [congruence | cbn [snd]; lia].
      * exact IH.
Qed.

Lemma count_one_keys (c : list (string * Z)) (x : string) :
  (x ∈ c.*1 /\ (PyCollections.count_one c x).*1 = c.*1)
  \/ ((x ∉ c.*1) /\ (PyCollections.count_one c x).*1 = c.*1 ++ [x]).
Proof.
  induction c as [|[k n] c IH]; cbn [PyCollections.count_one].
  - right. split; [apply not_elem_of_nil | reflexivity].
  - destruct (String.eqb_spec k x) as [->|Hne]; cbn.
    + left. split; [apply elem_of_cons; now left | reflexivity].
    + destruct IH as [[Hin ->]|[Hnin ->]].
      * left. split; [apply elem_of_cons; now right | reflexivity].
      * right. split; [|reflexivity].
        rewrite elem_of_cons. intros [->|?]; [now apply Hne | contradiction].
Qed.

Lemma counted_entry (c : list (string * Z)) (k : string) (n : Z) :
  NoDup c.*1 -> (k, n) ∈ c -> counted c k = n.
Proof.
  unfold counted. induction c as [|[k' n'] c IH]; intros Hnodup Hin;
    [now apply elem_of_nil in Hin|].
  cbn [fmap list_fmap fst] in Hnodup. apply NoDup_cons in Hnodup as [Hk' Hnodup].
  cbn [List.find fst]. apply elem_of_cons in Hin as [[= <- <-]|Hin].
  - now rewrite String.eqb_refl.
  - destruct (String.eqb_spec k' k) as [->|_]; [|now apply IH].
    exfalso. apply Hk'. apply list_elem_of_fmap. now exists (k, n).
Qed.

Lemma Counter_spec (l : list string) :
  let c := PyCollections.Counter l in
  NoDup c.*1
  /\ (forall k, k ∈ c.*1 <-> k ∈ l)
  /\ (forall k, counted c k = occurrences k l).
Proof.
  unfold PyCollections.Counter, occurrences.
  induction l as [|x l (Hnodup & Hkeys & Hcount)] using rev_ind.
  - cbn. split; [constructor|]. split; [|reflexivity].
    intros k. split; intros H; now apply elem_of_nil in H.
  - rewrite foldl_snoc. cbv zeta.
    set (c := foldl PyCollections.count_one [] l) in *.
    split; [|split].
    + destruct (count_one_keys c x) as [[_ ->]|[Hnin ->]]; [exact Hnodup|].
      apply NoDup_app. split; [exact Hnodup|]. split; [|apply NoDup_singleton].
      intros k Hk Hk'. apply list_elem_of_singleton in Hk' as ->. contradiction.
    + intros k. rewrite elem_of_app, list_elem_of_singleton, <- Hkeys.
      destruct (count_one_keys c x) as [[Hin ->]|[_ ->]].
      * split; [now left|]. intros [?| ->]; assumption.
      * now rewrite elem_of_app, list_elem_of_singleton.
    + intros k. rewrite count_one_counted, Hcount, List.filter_app, length_app.
      cbn [List.filter]. rewrite (String.eqb_sym x k).
      destruct (String.eqb k x); cbn [length]; lia.
Qed.

Lemma occurrences_mentions (mentions : CS.t -> list string) (x : string)
    (sessions : list CS.t) :
  Forall (fun s => NoDup (mentions s)) sessions ->
  occurrences x (flat_map mentions sessions) = mentioning mentions x sessions.
Proof.
  unfold occurrences, mentioning.
  induction 1 as [|s l Hs _ IH]; [reflexivity|].
  cbn [flat_map List.filter]. rewrite List.filter_app, length_app, Nat2Z.inj_add, IH.
  assert (length (List.filter (String.eqb x) (mentions s))
          = if PyStr.mem x (mentions s) then 1%nat else 0%nat) as ->.
  { clear -Hs. unfold PyStr.mem.
    induction Hs as [|y k Hy _ IHk]; [reflexivity|].
    cbn [List.filter existsb]. destruct (String.eqb_spec x y) as [->|Hne].
    - cbn [orb length]. rewrite IHk.
      destruct (existsb (String.eqb y) k) eqn:Hex; [|reflexivity].
      exfalso. apply Hy. apply existsb_exists in Hex as (z & Hz & Heq).
      apply String.eqb_eq in Heq. subst z. now apply list_elem_of_In.
    - cbn [orb]. exact IHk. }
  destruct (PyStr.mem x (mentions s)); cbn [length]; lia.
Qed.

Lemma StronglySorted_take {A} (R : A -> A -> Prop) (n : nat) (l : list A) :
  StronglySorted R l -> StronglySorted R (take n l).
Proof.
  intros Hsorted. rewrite <- (take_drop n l) in Hsorted.
  now apply StronglySorted_app_1_l in Hsorted.
Qed.

Lemma most_common_ranks (mentions : CS.t -> list string) (sessions : list CS.t) :
  Forall (fun s => NoDup (mentions s)) sessions ->
  ranks mentions sessions
    (PyCollections.most_common 5
       (PyCollections.Counter (flat_map mentions sessions))).
Proof.
  intros Hdistinct. unfold PyCollections.most_common.
  set (c := PyCollections.Counter (flat_map mentions sessions)).
  destruct (Counter_spec (flat_map mentions sessions)) as (Hnodup & Hkeys & Hcount).
  fold c in Hnodup, Hkeys, Hcount.
  set (sorted := PyList.sort snd true c).
  assert (Permutation sorted c) as Hperm by apply sort_Permutation.
  assert (NoDup sorted.*1) as Hnodup_sorted by now rewrite Hperm.
  assert (StronglySorted (fun a b => snd b <= snd a) sorted) as Hsorted
    by apply sort_sorted_reverse.
  assert (forall x n, (x, n) ∈ sorted -> n = mentioning mentions x sessions) as Hn.
  { intros x n Hin. rewrite Hperm in Hin.
    rewrite <- (counted_entry c x n Hnodup Hin), Hcount.
    now apply occurrences_mentions. }
  assert (forall x, mentioning mentions x sessions <= Z.of_nat (length sessions))
    as Hmost.
  { intros x. unfold mentioning. pose proof (filter_length_le
      (fun s => PyStr.mem x (mentions s)) sessions). lia. }
  assert (forall x s, s ∈ sessions -> x ∈ mentions s ->
                      1 <= mentioning mentions x sessions) as Hleast.
  { intros x s Hs Hx. unfold mentioning.
    assert (s ∈ List.filter (fun s => PyStr.mem x (mentions s)) sessions) as Hin.
    { apply list_elem_of_In, filter_In. split; [now apply list_elem_of_In|].
      now apply mem_elem_of. }
    destruct (List.filter _ sessions); [now apply elem_of_nil in Hin|].
    cbn [length]. lia. }
  assert (forall x, x ∈ sorted.*1 <-> exists s, s ∈ sessions /\ x ∈ mentions s)
    as Hlisted.
  { intros x. rewrite Hperm, Hkeys, elem_of_flat_map. reflexivity. }
  split; [rewrite length_take; lia|]. split.
  { eapply sublist_NoDup; [exact Hnodup_sorted|].
    apply fmap_sublist, sublist_take. }
  split; [now apply StronglySorted_take|]. split.
  - intros x n Hin. apply subseteq_take in Hin.
    split; [now apply Hn|].
    assert (x ∈ sorted.*1) as Hx by (apply list_elem_of_fmap; now exists (x, n)).
    apply Hlisted in Hx as (s & Hs & Hx).
    rewrite (Hn x n Hin). split; [now apply (Hleast x s) | apply Hmost].
  - intros x s Hs Hx Hout.
    assert (x ∈ sorted.*1) as Hkey by (apply Hlisted; now exists s).
    apply list_elem_of_fmap in Hkey as ([x' n] & Heq & Hin). cbn in Heq. subst x'.
    rewrite <- (take_drop 5 sorted) in Hin, Hsorted.
    apply elem_of_app in Hin as [Hin|Hin].
    { exfalso. apply Hout. apply list_elem_of_fmap. now exists (x, n). }
    split.
    + rewrite length_take. apply list_elem_of_In in Hin.
      assert (drop 5 sorted <> []) as Hne by (intros Heq; now rewrite Heq in Hin).
      assert (5 < length sorted)%nat; [|lia].
      destruct (le_lt_dec (length sorted) 5) as [Hshort|Hlong]; [|exact Hlong].
      now rewrite drop_ge in Hne by exact Hshort.
    + intros e He.
      pose proof (StronglySorted_app_1_elem_of _ _ _ e (x, n) Hsorted He Hin) as Hle.
      cbn [snd] in Hle.
      assert ((x, n) ∈ sorted) as Hin'
        by (rewrite <- (take_drop 5 sorted); apply elem_of_app; now right).
      now rewrite <- (Hn x n Hin').
Qed.


Lemma segmented_mentions_distinct (interactions : list CI.t) (gap : Z) :
  let sessions := group_into_sessions interactions gap in
  Forall (fun s => NoDup (CS.files_mentioned s)) sessions
  /\ Forall (fun s => NoDup (CS.features_discussed s)) sessions.
Proof.
  split.
  - eapply Forall_impl; [apply group_into_sessions_saved|].
    intros s (u & p & first & rest & n & -> & _).
    cbn [_create_session CS.files_mentioned]. unfold _extract_files.
    eapply sublist_NoDup; [apply set_iter_NoDup | apply sublist_take].
  - eapply Forall_impl; [apply group_into_sessions_saved|].
    intros s (u & p & first & rest & n & -> & _).
    cbn [_create_session CS.features_discussed]. apply set_iter_NoDup.
Qed.

(** X19. In the insights of a developer, when the call returns (the cutoff
    of the period is computed, the filter and the parsing of the kept logs
    raise nothing), the most worked files and the
    focus areas rank what the sessions of the kept logs mention: at most
    five entries with different keys, each with the number of sessions
    that mention the file or feature, the larger numbers first, and a file
    or feature left out is mentioned by no more sessions than any entry.
    Otherwise the call raises what the first of the three raises. *)
Theorem X19_insights_rank_files_and_features (now status_now : datetime)
    (u p : string) (chat_logs : list (gmap string string)) (days : Z) :
  let insights :=
    get_developer_insights round_ndigits now status_now u p chat_logs days in
  match cutoff now (timedelta_days days) with
  | Raised _ => insights = Raised OverflowError
  | Returned cutoff_date =>
  match filter_each (is_recent_log cutoff_date u p) chat_logs with
  | Raised e => insights = Raised e
  | Returned recent_logs =>
      match parse_chat_logs recent_logs with
      | Raised e => insights = Raised e
      | Returned interactions =>
          let sessions := group_into_sessions interactions 30 in
          exists r,
            insights = Returned r
            /\ Insights.total_sessions r = Z.of_nat (length sessions)
            /\ ranks CS.files_mentioned sessions (Insights.most_worked_files r)
            /\ ranks CS.features_discussed sessions (Insights.focus_areas r)
      end
  end
  end.
Proof.
  intros insights. subst insights. unfold get_developer_insights.
  destruct (cutoff now (timedelta_days days)) as [cutoff_date|e] eqn:Hcutoff;
    [|now apply cutoff_raises in Hcutoff as ->].
  cbn [mbind outcome_bind].
  destruct (filter_each _ chat_logs) as [recent_logs|e]; [|reflexivity].
  cbn [mbind outcome_bind].
  destruct (parse_chat_logs recent_logs) as [interactions|e]; [|reflexivity].
  cbn [mbind outcome_bind mret outcome_ret]. cbv zeta.
  eexists. split; [reflexivity|].
  cbn [Insights.total_sessions Insights.most_worked_files Insights.focus_areas].
  destruct (segmented_mentions_distinct interactions 30) as [Hfiles Hfeatures].
  split; [reflexivity|]. split; now apply most_common_ranks.
Qed.

(** ** The dashboard in the frontend's format *)

Lemma status_distribution_counts (team_status : list ActivityDict.t) :
  let counts := _calculate_status_distribution team_status in
  StatusCounts.active counts = in_state ActivityDict.status "flow" team_status
  /\ StatusCounts.slow counts = in_state ActivityDict.status "slow" team_status
  /\ StatusCounts.blocked counts = in_state ActivityDict.status "stuck" team_status.
Proof.
  unfold _calculate_status_distribution, in_state.
  induction team_status as [|dev l IH] using rev_ind; [now cbn|].
  rewrite foldl_snoc, !List.filter_app, !length_app. cbn [List.filter].
  destruct IH as (Hactive & Hslow & Hblocked).
  destruct (String.eqb_spec (ActivityDict.status dev) "flow") as [Heq|_].
  { rewrite Heq. cbn. rewrite Hactive, Hslow, Hblocked. repeat split; lia. }
  destruct (String.eqb_spec (ActivityDict.status dev) "slow") as [Heq|_].
  { rewrite Heq. cbn. rewrite Hactive, Hslow, Hblocked. repeat split; lia. }
  destruct (String.eqb_spec (ActivityDict.status dev) "stuck") as [Heq|_].
  { cbn. rewrite Hactive, Hslow, Hblocked. repeat split; lia. }
  cbn. rewrite Hactive, Hslow, Hblocked. repeat split; lia.
Qed.

Lemma states_partition {A} (status : A -> string) (l : list A) :
  Forall (fun a => status a ∈ analyzer_states) l ->
  in_state status "idle" l + in_state status "flow" l
  + in_state status "slow" l + in_state status "stuck" l
  = Z.of_nat (length l)
  /\ Z.of_nat (length (List.filter (fun a => negb (String.eqb (status a) "idle")) l))
     = in_state status "flow" l + in_state status "slow" l + in_state status "stuck" l.
Proof.
  unfold in_state, analyzer_states.
  induction 1 as [|a l Ha _ [IH1 IH2]]; [now cbn|].
  cbn [List.filter].
  repeat (apply elem_of_cons in Ha as [->|Ha]); [| | | |now apply elem_of_nil in Ha];
    cbn [String.eqb Ascii.eqb Bool.eqb negb andb length]; cbn [length]; split; lia.
Qed.

Lemma map_status_shown (state : string) :
  state ∈ analyzer_states ->
  _map_status state ∈ ["flow"; "slow"; "blocked"]
  /\ (_map_status state = "flow" <-> state = "flow" \/ state = "idle")
  /\ (_map_status state = "slow" <-> state = "slow")
  /\ (_map_status state = "blocked" <-> state = "stuck").
Proof.
  unfold analyzer_states. intros Hstate.
  repeat (apply elem_of_cons in Hstate as [->|Hstate]);
    [| | | |now apply elem_of_nil in Hstate];
    (split; [cbn; in_list|]); cbn; repeat split; intros; try discriminate;
    try reflexivity; repeat match goal with H : _ \/ _ |- _ => destruct H end;
    try discriminate; auto.
Qed.


Lemma shown_states {A} (status : A -> string) (l : list A) :
  Forall (fun a => status a ∈ analyzer_states) l ->
  in_state (fun a => _map_status (status a)) "flow" l
  = in_state status "flow" l + in_state status "idle" l
  /\ in_state (fun a => _map_status (status a)) "slow" l = in_state status "slow" l
  /\ in_state (fun a => _map_status (status a)) "blocked" l
     = in_state status "stuck" l.
Proof.
  unfold in_state, analyzer_states.
  induction 1 as [|a l Ha _ (IH1 & IH2 & IH3)]; [now cbn|].
  cbn [List.filter].
  repeat (apply elem_of_cons in Ha as [->|Ha]); [| | | |now apply elem_of_nil in Ha];
    cbn [_map_status List.find fst snd String.eqb Ascii.eqb Bool.eqb andb length];
    cbn [length]; repeat split; lia.
Qed.

Lemma in_state_map {A B} (f : A -> B) (status : B -> string) (state : string)
    (l : list A) :
  in_state status state (map f l) = in_state (fun a => status (f a)) state l.
Proof.
  unfold in_state. f_equal. induction l as [|a l IH]; [reflexivity|].
  cbn [map List.filter]. destruct (String.eqb _ _); cbn [length]; now rewrite IH.
Qed.

Lemma team_states (clock : DashboardClock.t) (sessions : list CS.t) (p : string) :
  Forall (fun a => DA.status a ∈ analyzer_states) (team_of clock sessions p).
Proof.
  apply List.Forall_forall. intros a Ha.
  apply list_elem_of_In, team_of_elem in Ha as (u & _ & ->).
  destruct (activity_fields (DashboardClock.status_at clock u) sessions u p 2)
    as (_ & _ & -> & _).
  apply status_is_a_state.
Qed.

Lemma frontend_counts (now : datetime) (d : Dashboard.t) :
  Forall (fun a => ActivityDict.status a ∈ analyzer_states) (Dashboard.team_status d) ->
  let shown := _transform_to_frontend_format now d in
  let counts := Project.statusDistribution shown in
  StatusCounts.active counts + StatusCounts.slow counts + StatusCounts.blocked counts
  = Project.activeDevelopers shown
  /\ (forall dev, dev ∈ Project.developers shown ->
        Developer.status dev ∈ ["flow"; "slow"; "blocked"])
  /\ in_state Developer.status "flow" (Project.developers shown)
     = StatusCounts.active counts
       + (Z.of_nat (length (Project.developers shown)) - Project.activeDevelopers shown)
  /\ in_state Developer.status "slow" (Project.developers shown)
     = StatusCounts.slow counts
  /\ in_state Developer.status "blocked" (Project.developers shown)
     = StatusCounts.blocked counts.
Proof.
  intros Hdicts. cbv zeta. unfold _transform_to_frontend_format.
  cbn [Project.statusDistribution Project.activeDevelopers Project.developers].
  destruct (status_distribution_counts (Dashboard.team_status d))
    as (-> & -> & ->).
  destruct (states_partition ActivityDict.status _ Hdicts) as [Hall Hnot_idle].
  destruct (shown_states ActivityDict.status _ Hdicts) as (Hflow & Hslow & Hblocked).
  rewrite !in_state_map, length_map.
  cbn [Developer.status].
  rewrite Hflow, Hslow, Hblocked, Hnot_idle.
  split; [reflexivity|]. split.
  { intros dev Hdev. apply list_elem_of_fmap in Hdev as (a & -> & Ha).
    cbn [Developer.status]. apply map_status_shown.
    rewrite Forall_forall in Hdicts. now apply Hdicts. }
  split; [lia|]. split; reflexivity.
Qed.

Lemma dashboard_states (clock : DashboardClock.t) (sessions : list CS.t)
    (p : string) (d : Dashboard.t) :
  generate_team_dashboard_data round_ndigits clock sessions p = Returned d ->
  Forall (fun a => ActivityDict.status a ∈ analyzer_states) (Dashboard.team_status d).
Proof.
  destruct (dashboard_returned clock sessions p)
    as (d' & Hd & _ & Hteam & _).
  rewrite Hd. intros [= <-]. rewrite Hteam. apply Forall_fmap.
  apply team_states.
Qed.

(** X20. The frontend's view of a dashboard: the three counts of the status
    distribution add up to the active developers, which is the number the
    metrics of the dashboard give; there is one developer per member of the
    team, shown as [flow], [slow] or [blocked]; the developers shown as
    [slow] and [blocked] are as many as the distribution says, and those
    shown as [flow] are the active ones of the distribution and the idle
    members. *)
Theorem X20_status_distribution_counts_the_active (clock : DashboardClock.t)
    (now : datetime) (sessions : list CS.t) (p : string) :
  exists d,
    generate_team_dashboard_data round_ndigits clock sessions p = Returned d
    /\ (let shown := _transform_to_frontend_format now d in
        let counts := Project.statusDistribution shown in
        Project.id shown = p
        /\ StatusCounts.active counts + StatusCounts.slow counts
           + StatusCounts.blocked counts = Project.activeDevelopers shown
        /\ Project.activeDevelopers shown
           = ProjectMetrics.active_developers (Dashboard.project_metrics d)
        /\ map Developer.id (Project.developers shown)
           = map ActivityDict.user_id (Dashboard.team_status d)
        /\ (forall dev, dev ∈ Project.developers shown ->
              Developer.status dev ∈ ["flow"; "slow"; "blocked"])
        /\ in_state Developer.status "flow" (Project.developers shown)
           = StatusCounts.active counts
             + (Z.of_nat (length (Project.developers shown))
                - Project.activeDevelopers shown)
        /\ in_state Developer.status "slow" (Project.developers shown)
           = StatusCounts.slow counts
        /\ in_state Developer.status "blocked" (Project.developers shown)
           = StatusCounts.blocked counts).
Proof.
  destruct (dashboard_returned clock sessions p)
    as (d & Hd & Hp & Hteam & _ & _ & Hactive & _).
  exists d. split; [exact Hd|].
  destruct (frontend_counts now d (dashboard_states clock sessions p d Hd))
    as (Hsum & Hshown & Hflow & Hslow & Hblocked).
  cbv zeta. split; [exact Hp|]. split; [exact Hsum|]. split.
  { unfold _transform_to_frontend_format. cbn [Project.activeDevelopers].
    rewrite Hactive, Hteam. f_equal.
    clear. induction (team_of clock sessions p) as [|a l IH]; [reflexivity|].
    cbn [map List.filter _activity_to_dict ActivityDict.status].
    destruct (negb _); cbn [length]; now rewrite IH. }
  split.
  { unfold _transform_to_frontend_format. cbn [Project.developers].
    now rewrite map_map. }
  split; [exact Hshown|]. split; [exact Hflow|]. split; [exact Hslow | exact Hblocked].
Qed.

Lemma found_pairs_types (now_at : string -> string -> datetime)
    (ua : list (string * list CS.t)) (w : Collision.t) :
  w ∈ found_pairs now_at ua ->
  Collision.type w = "file_collision" \/ Collision.type w = "feature_collision".
Proof.
  intros Hw. apply found_pairs_elem in Hw
    as (pre & u1 & ss1 & mid & u2 & ss2 & post & _ & Hw).
  destruct (check_collision_cases (now_at u1 u2) ss1 ss2 u1 u2)
    as [(_ & r & _ & _ & Heq)|[(_ & _ & r & _ & _ & Heq)|(_ & _ & Heq)]];
    rewrite Heq in Hw; cbn in Hw; [| |discriminate];
    injection Hw as <-; [now left | now right].
Qed.

Lemma imap_fields {A B C} (f : nat -> A -> B) (g : B -> C) (h : A -> C)
    (l : list A) :
  (forall n x, g (f n x) = h x) -> map g (imap f l) = map h l.
Proof.
  intros Hgh. change (map g (imap f l)) with (g <$> imap f l).
  rewrite fmap_imap. rewrite (imap_ext _ (fun _ => h)); [apply imap_const|].
  intros n x _. apply Hgh.
Qed.

Lemma imap_index {A B C} (f : nat -> A -> B) (g : B -> C) (h : nat -> C)
    (l : list A) :
  (forall n x, g (f n x) = h n) -> map g (imap f l) = map h (seq 0 (length l)).
Proof.
  intros Hgh. change (map g (imap f l)) with (g <$> imap f l).
  rewrite fmap_imap. rewrite (imap_ext _ (fun n _ => h n)); [apply imap_seq_0|].
  intros n x _. apply Hgh.
Qed.

(** X21. The collisions the frontend shows: one per warning of the
    dashboard, in their order, numbered [collision_0], [collision_1], ...,
    so no two have the same id; each is of type [file] or [feature] and
    names two different developers of the team; and [hasCollisions] holds
    exactly when there is one. *)
Theorem X21_shown_collisions_are_numbered (clock : DashboardClock.t)
    (now : datetime) (sessions : list CS.t) (p : string) :
  exists d,
    generate_team_dashboard_data round_ndigits clock sessions p = Returned d
    /\ (let shown := _transform_to_frontend_format now d in
        map FrontendCollision.id (Project.collisions shown)
        = map (fun n => "collision_" +:+ pretty (Z.of_nat n))
              (seq 0 (length (Dashboard.collisions d)))
        /\ NoDup (map FrontendCollision.id (Project.collisions shown))
        /\ map FrontendCollision.developers (Project.collisions shown)
           = map Collision.users (Dashboard.collisions d)
        /\ map FrontendCollision.file (Project.collisions shown)
           = map Collision.resource (Dashboard.collisions d)
        /\ (forall c, c ∈ Project.collisions shown ->
              FrontendCollision.type c ∈ ["file"; "feature"]
              /\ exists u1 u2,
                   u1 <> u2 /\ FrontendCollision.developers c = [u1; u2]
                   /\ u1 ∈ map Developer.id (Project.developers shown)
                   /\ u2 ∈ map Developer.id (Project.developers shown))
        /\ (Project.hasCollisions shown = true <-> Project.collisions shown <> [])).
Proof.
  destruct (dashboard_returned clock sessions p)
    as (d & Hd & _ & Hteam & Hcollisions & _).
  exists d. split; [exact Hd|]. cbv zeta.
  unfold _transform_to_frontend_format.
  cbn [Project.collisions Project.hasCollisions Project.developers].
  set (ua := user_activities_of (DashboardClock.collisions_at clock) sessions p 2)
    in *.
  assert (NoDup ua.*1) as Hnodup by apply user_activities_NoDup.
  split; [now apply imap_index|]. split.
  { rewrite (imap_index _ _ (fun n => "collision_" +:+ pretty (Z.of_nat n)))
      by reflexivity.
    assert (Inj (=) (=) (fun n => "collision_" +:+ pretty (Z.of_nat n))) as Hinj.
    { intros m n Heq. apply String.app_inj, pretty_Z_inj in Heq. lia. }
    apply (NoDup_fmap_2 _ _ (NoDup_seq 0 _)). }
  split; [now apply imap_fields|]. split; [now apply imap_fields|]. split.
  - intros c Hc. apply elem_of_lookup_imap in Hc as (n & w & -> & Hw).
    cbn [FrontendCollision.type FrontendCollision.developers].
    apply list_elem_of_lookup_2 in Hw. rewrite Hcollisions in Hw.
    split.
    + destruct (found_pairs_types _ _ _ Hw) as [-> | ->]; vm_compute; in_list.
    + destruct (found_pairs_two_people _ _ _ Hnodup Hw)
        as (u1 & u2 & Hne & H1 & H2 & Husers).
      exists u1, u2. split; [exact Hne|]. split; [exact Husers|].
      rewrite map_map. cbn [Developer.id].
      change (map (fun x => ActivityDict.user_id x) ?l)
        with (map ActivityDict.user_id l).
      rewrite Hteam, activity_dict_users, team_of_users.
      assert (forall u, u ∈ ua.*1 -> u ∈ set_iter (project_users sessions p))
        as Hmember.
      { intros u Hu. apply (grouped_keys CS.user_id) in Hu as (s & Hs & Hsu).
        apply list_elem_of_In, filter_In in Hs as [Hs Hsp].
        apply andb_true_iff in Hsp as [Hsp _]. apply String.eqb_eq in Hsp.
        apply set_iter_elem, project_users_elem.
        exists s. split; [now apply list_elem_of_In | now split]. }
      split; now apply Hmember.
  - destruct (Dashboard.collisions d) as [|w ws].
    + cbn. split; [discriminate | congruence].
    + split; [intros _; rewrite imap_cons; discriminate|].
      intros _. cbn [length]. apply Z.ltb_lt. lia.
Qed.


(** ** Durations and names as the frontend shows them *)

(** X23. A duration of less than an hour is shown in minutes, a whole
    number of hours as such, and any other duration as its hours and one
    decimal that is cut, not rounded: the decimal is a digit, and the
    duration lies between the value shown and a tenth of an hour more. *)
Theorem X23_duration_is_cut_to_a_tenth_of_an_hour (minutes : Z) :
  (minutes < 60 -> _format_duration minutes = pretty minutes +:+ " min")
  /\ (60 <= minutes ->
      let hours := minutes / 60 in
      (minutes = 60 * hours -> _format_duration minutes = pretty hours +:+ " hr")
      /\ (minutes <> 60 * hours ->
          exists tenth,
            0 <= tenth <= 9
            /\ _format_duration minutes
               = pretty hours +:+ "." +:+ pretty tenth +:+ " hrs"
            /\ 6 * (10 * hours + tenth) <= minutes
               < 6 * (10 * hours + tenth + 1))).
Proof.
  unfold _format_duration. split.
  - intros Hlt. now rewrite (proj2 (Z.ltb_lt _ _) Hlt).
  - intros Hge. rewrite (proj2 (Z.ltb_ge _ _) Hge). cbv zeta.
    pose proof (Z.div_mod minutes 60 ltac:(lia)) as Hdiv.
    pose proof (Z.mod_pos_bound minutes 60 ltac:(lia)) as Hmod.
    split.
    + intros Hwhole. rewrite (proj2 (Z.eqb_eq _ _)); [reflexivity | lia].
    + intros Hpart. rewrite (proj2 (Z.eqb_neq _ _)) by lia.
      exists (minutes mod 60 / 6). split; [|split; [reflexivity|]].
      * split; [apply Z.div_pos; lia|].
        apply Z.lt_succ_r, Z.div_lt_upper_bound; lia.
      * pose proof (Z.div_mod (minutes mod 60) 6 ltac:(lia)).
        pose proof (Z.mod_pos_bound (minutes mod 60) 6 ltac:(lia)).
        lia.
Qed.

Lemma replace_underscore (s : string) :
  PyStr.replace "_" " " s
  = match s with
    | EmptyString => EmptyString
    | String c s' =>
        String (if Ascii.eqb c "_" then " "%char else c) (PyStr.replace "_" " " s')
    end.
Proof.
  unfold PyStr.replace. destruct s as [|c s']; [reflexivity|].
  cbn [PyStr.replace_from String.prefix String.length Nat.sub].
  destruct (ascii_dec "_" c) as [<-|Hne].
  - destruct s'; reflexivity.
  - destruct (Ascii.eqb_spec c "_") as [->|_]; [congruence | reflexivity].
Qed.

Lemma title_char (c : ascii) :
  PyStr.lower_char (PyStr.upper_char c) = PyStr.lower_char c
  /\ PyStr.lower_char (PyStr.lower_char c) = PyStr.lower_char c
  /\ (c <> "_"%char ->
      PyStr.upper_char c <> "_"%char /\ PyStr.lower_char c <> "_"%char).
Proof.
  destruct c as [[] [] [] [] [] [] [] []]; vm_compute;
    (split; [reflexivity|split; [reflexivity|]]); intros H; split; congruence.
Qed.

Lemma title_from_lower (prev : bool) (s : string) :
  PyStr.lower (PyStr.title_from prev s) = PyStr.lower s.
Proof.
  revert prev. induction s as [|c s IH]; intros prev; [reflexivity|].
  cbn [PyStr.title_from]. destruct (_ || _); cbn [PyStr.lower]; rewrite IH.
  - destruct prev; f_equal; apply title_char.
  - reflexivity.
Qed.

Lemma title_from_length (prev : bool) (s : string) :
  String.length (PyStr.title_from prev s) = String.length s.
Proof.
  revert prev. induction s as [|c s IH]; intros prev; [reflexivity|].
  cbn [PyStr.title_from]. destruct (_ || _); cbn [String.length]; now rewrite IH.
Qed.

Lemma replace_underscore_length (s : string) :
  String.length (PyStr.replace "_" " " s) = String.length s.
Proof.
  induction s as [|c s IH]; [reflexivity|].
  rewrite replace_underscore. cbn [String.length]. now rewrite IH.
Qed.

Lemma replace_no_underscore (s : string) : no_underscore (PyStr.replace "_" " " s).
Proof.
  induction s as [|c s IH]; [exact I|].
  rewrite replace_underscore. split; [|exact IH].
  destruct (Ascii.eqb_spec c "_"); [discriminate | assumption].
Qed.

Lemma title_no_underscore (prev : bool) (s : string) :
  no_underscore s -> no_underscore (PyStr.title_from prev s).
Proof.
  revert prev. induction s as [|c s IH]; intros prev; [easy|].
  intros [Hc Hs]. cbn [PyStr.title_from].
  destruct (_ || _); (split; [|now apply IH]); [|exact Hc].
  destruct prev; now apply title_char.
Qed.

(** X24. The display name of a person or project has as many characters as
    the id and no underscore, and read without regard to case it is the id
    with a space for each underscore. *)
Theorem X24_display_names_keep_the_letters (id : string) :
  let name := _format_user_name id in
  _format_project_name id = name
  /\ String.length name = String.length id
  /\ no_underscore name
  /\ PyStr.lower name = PyStr.lower (PyStr.replace "_" " " id).
Proof.
  cbv zeta. unfold _format_user_name, _format_project_name, PyStr.title.
  split; [reflexivity|]. split; [|split].
  - now rewrite title_from_length, replace_underscore_length.
  - apply title_no_underscore, replace_no_underscore.
  - apply title_from_lower.
Qed.

Lemma upper_length (s : string) : String.length (PyStr.upper s) = String.length s.
Proof. induction s as [|c s IH]; [reflexivity|]. cbn. now rewrite IH. Qed.

Lemma upper_upper (s : string) : PyStr.upper (PyStr.upper s) = PyStr.upper s.
Proof.
  induction s as [|c s IH]; [reflexivity|].
  cbn [PyStr.upper]. rewrite IH. f_equal.
  destruct c as [[] [] [] [] [] [] [] []]; reflexivity.
Qed.

Lemma split_from_parts (word s : string) :
  Forall (fun part => part <> "") (PyStr.split_from word s)
  /\ (total_length (PyStr.split_from word s)
      <= String.length word + String.length s)%nat.
Proof.
  unfold total_length. revert word. induction s as [|c s IH]; intros word.
  - cbn [PyStr.split_from]. destruct word as [|d word].
    + split; [constructor | cbn; lia].
    + split; [constructor; [discriminate | constructor] | cbn; lia].
  - cbn [PyStr.split_from]. destruct (PyStr.is_space c).
    + destruct (IH "") as [Hparts Hlen]. cbn [String.length] in Hlen |- *.
      destruct word as [|d word].
      * split; [exact Hparts | lia].
      * split; [constructor; [discriminate | exact Hparts]|].
        unfold list_sum in *. cbn [map fold_right String.length]. lia.
    + destruct (IH (word +:+ String c "")) as [Hparts Hlen].
      split; [exact Hparts|].
      rewrite string_length_app in Hlen. cbn [String.length] in Hlen |- *. lia.
Qed.

Lemma slice_one (part : string) :
  part <> "" -> String.length (PyStr.slice_to 1 part) = 1%nat.
Proof.
  intros Hne. rewrite slice_to_length. destruct part; [congruence | cbn; lia].
Qed.

(** X25. The avatar of a person has two characters, or as many as the id
    when that is shorter, and upper-casing leaves it as it is. The parts
    whose first characters it takes are not empty. *)
Theorem X25_avatar_is_two_upper_case_characters (user_id : string) :
  let avatar := _generate_avatar user_id in
  String.length avatar = Nat.min 2 (String.length user_id)
  /\ PyStr.upper avatar = avatar
  /\ Forall (fun part => part <> "") (PyStr.split (PyStr.replace "_" " " user_id)).
Proof.
  cbv zeta. unfold _generate_avatar, PyStr.split.
  destruct (split_from_parts "" (PyStr.replace "_" " " user_id)) as [Hparts Hlen].
  rewrite replace_underscore_length in Hlen.
  split; [|split; [|exact Hparts]].
  - destruct (PyStr.split_from "" (PyStr.replace "_" " " user_id))
      as [|part0 [|part1 parts]].
    + now rewrite upper_length, slice_to_length.
    + now rewrite upper_length, slice_to_length.
    + apply Forall_cons in Hparts as [H0 Hparts].
      apply Forall_cons in Hparts as [H1 _].
      rewrite upper_length, string_length_app, !slice_one by assumption.
      unfold total_length, list_sum in Hlen. cbn [map fold_right] in Hlen.
      destruct part0; [congruence|]. destruct part1; [congruence|].
      cbn [String.length] in Hlen. cbn [String.length]. lia.
  - destruct (PyStr.split_from "" (PyStr.replace "_" " " user_id))
      as [|part0 [|part1 parts]]; apply upper_upper.
Qed.

(** ** The insights the service returns *)

Lemma filter_each_twice {A} (f g : A -> outcome bool) (l kept sub : list A) :
  (forall x, f x = Returned true -> g x = Returned true) ->
  filter_each f l = Returned kept ->
  filter_each g l = Returned sub ->
  filter_each f sub = Returned kept.
Proof.
  intros Hfg. revert kept sub. induction l as [|x l IH]; intros kept sub;
    cbn [filter_each].
  - now intros [= <-] [= <-].
  - destruct (f x) as [keep|e] eqn:Hfx; cbn [mbind outcome_bind]; [|discriminate].
    destruct (filter_each f l) as [kept'|e];
      cbn [mbind outcome_bind mret outcome_ret]; [|discriminate].
    intros [= <-].
    destruct (g x) as [keep'|e] eqn:Hgx; cbn [mbind outcome_bind]; [|discriminate].
    destruct (filter_each g l) as [sub'|e];
      cbn [mbind outcome_bind mret outcome_ret]; [|discriminate].
    intros [= <-]. specialize (IH kept' sub' eq_refl eq_refl).
    destruct keep.
    + rewrite (Hfg x Hfx) in Hgx. injection Hgx as <-.
      cbn [filter_each]. rewrite Hfx, IH. reflexivity.
    + destruct keep'; [|exact IH].
      cbn [filter_each]. rewrite Hfx, IH. reflexivity.
Qed.

Lemma recent_log_of_user (cutoff_date : datetime) (u p : string)
    (log : gmap string string) :
  is_recent_log cutoff_date u p log = Returned true ->
  Service.is_user_log u log = Returned true.
Proof.
  intros Hrecent.
  apply is_recent_log_true in Hrecent as [(t & _ & _ & Hu & _) _].
  unfold Service.is_user_log, getitem. rewrite Hu.
  cbn [mbind outcome_bind mret outcome_ret]. now rewrite String.eqb_refl.
Qed.

(** X26. The service keeps the logs of the person before it asks the API
    for the insights, and the API's own filter would have kept the same
    logs: whenever the API returns insights for all the fetched logs, the
    service returns these very insights, unless no fetched log is of the
    person; it then returns the empty insights, and the insights of the API
    count no session and no interaction either, list no file and no
    feature, and report the state [idle]. *)
Theorem X26_service_insights_are_the_insights_of_the_api
    (now status_now : datetime) (chat_logs user_logs : list (gmap string string))
    (u p : string) (days : Z) (r : Insights.t) :
  filter_each (Service.is_user_log u) chat_logs = Returned user_logs ->
  get_developer_insights round_ndigits now status_now u p chat_logs days
  = Returned r ->
  (user_logs <> []
   /\ Service.get_developer_insights round_ndigits now status_now chat_logs u p days
      = Returned (inr r))
  \/ (user_logs = []
      /\ Service.get_developer_insights round_ndigits now status_now chat_logs u p days
         = Returned (inl (Service._empty_insights_response u p))
      /\ Insights.total_sessions r = 0
      /\ Insights.total_interactions r = 0
      /\ Insights.most_worked_files r = []
      /\ Insights.focus_areas r = []
      /\ DA.status (Insights.recent_activity r) = "idle").
Proof.
  intros Huser Hapi.
  unfold Service.get_developer_insights. rewrite Huser.
  cbn [mbind outcome_bind].
  unfold get_developer_insights in Hapi |- *.
  destruct (cutoff now (timedelta_days days)) as [cutoff_date|e];
    cbn [mbind outcome_bind] in Hapi |- *; [|discriminate].
  destruct (filter_each (is_recent_log cutoff_date u p) chat_logs)
    as [recent_logs|e] eqn:Hrecent; cbn [mbind outcome_bind] in Hapi; [|discriminate].
  pose proof (filter_each_twice _ _ _ _ _
                (recent_log_of_user cutoff_date u p)
                Hrecent Huser) as Hsame.
  destruct user_logs as [|log logs].
  - right. split; [reflexivity|]. split; [reflexivity|].
    cbn [filter_each] in Hsame. injection Hsame as <-.
    cbn [parse_chat_logs for_each mbind outcome_bind mret outcome_ret] in Hapi.
    injection Hapi as <-.
    cbn [Insights.total_sessions Insights.total_interactions
         Insights.most_worked_files Insights.focus_areas Insights.recent_activity].
    repeat split; reflexivity.
  - left. split; [discriminate|].
    rewrite Hsame. cbn [mbind outcome_bind].
    destruct (parse_chat_logs recent_logs) as [interactions|e];
      cbn [mbind outcome_bind mret outcome_ret] in Hapi |- *; [|discriminate].
    injection Hapi as <-. reflexivity.
Qed.

(** ** The list of projects *)

Lemma no_team_status (shown : Project.t) :
  dict_getitem (items shown) "team_status" = Raised (KeyError "team_status").
Proof. reflexivity. Qed.

(** X27. The list of projects is always empty: the dictionary the service
    makes for a project, empty or not, has no key [team_status], so
    reading it raises [KeyError] for the first project, and the call
    returns the empty list, as it does when the query raises or finds no
    project. *)
Theorem X27_project_list_is_always_empty {Entry : Type}
    (truthy : frontend_value -> bool)
    (make_entry : string -> frontend_value -> frontend_value -> frontend_value
                  -> outcome Entry)
    (rows : outcome (list string)) (fetched : string -> list (gmap string string))
    (clock : string -> DashboardClock.t) (now : string -> datetime) :
  get_project_list round_ndigits truthy make_entry rows fetched clock now = []
  /\ (forall shown project_id,
        project_entry truthy make_entry (items shown) project_id
        = Raised (KeyError "team_status")).
Proof.
  split.
  - unfold get_project_list, listed_projects. destruct rows as [project_id_column|e]; [|reflexivity].
    cbn [mbind outcome_bind].
    destruct (set_iter project_id_column) as [|project_id project_ids];
      [reflexivity|].
    cbn [for_each mbind outcome_bind].
    destruct (get_team_dashboard_data round_ndigits (clock project_id)
                (now project_id) (fetched project_id) project_id)
      as [shown|e]; [|reflexivity].
    cbn [mbind outcome_bind]. unfold project_entry.
    rewrite no_team_status. reflexivity.
  - intros shown project_id. unfold project_entry.
    rewrite no_team_status. reflexivity.
Qed.

End Further.

(** * The properties on the sample records *)

#[local] Existing Instance sample_lib.

Example scenario_A_two_sessions :
  map (fun s => map CI.id (CS.interactions s)) (group_into_sessions scenario_A 30)
  = [["a"; "b"; "c"]; ["d"]].
Proof. vm_compute. reflexivity. Qed.


Example scenario_C_one_file_warning :
  detect_team_collisions (minutes 20) (fun _ _ => minutes 20) scenario_C "proj" 2
  = Returned [file_warning (minutes 20) "ann" "bob" "auth.js"].
Proof. vm_compute. reflexivity. Qed.

Example empty_author_is_kept :
  parse_chat_logs [log_with_empty_author]
  = Returned [ CI.mk "z" "who am I" "no idea" "" "ecommerce_app"
                     1705314720000000 1705314720000000 1705314720000000 ].
Proof. vm_compute. reflexivity. Qed.

(** Where the newest problem goes when the window holds two sessions: the
    three snippets kept are those of the older session. *)
Example newest_problem_is_dropped :
  DA.recent_problems
    (calculate_developer_status (minutes 70)
       (group_into_sessions scenario_old_and_new_problems 30) "dev" "proj" 2)
  = ["old error one"; "old error two"; "old error three"].
Proof. vm_compute. reflexivity. Qed.

(** The float of a span of 17999999999.999999 seconds is 18000000000.0, so
    its whole minutes are one more than the quotient by a minute. *)
Example whole_minutes_round_up :
  whole_minutes 17999999999999999 = 300000000
  /\ 17999999999999999 / minute_microseconds = 299999999.
Proof. split; vm_compute; reflexivity. Qed.

(** The cutoff of a window of 2 hours at 2024-01-15T11:00:00Z is computed;
    the cutoffs of windows of 20000000 and of -80000000 hours would lie
    before the year 1 and after the year 9999. *)
Example cutoffs_of_three_windows :
  cutoff (minutes 28421940) (timedelta_hours 2) = Returned (minutes 28421820)
  /\ cutoff (minutes 28421940) (timedelta_hours 20000000) = Raised OverflowError
  /\ cutoff (minutes 28421940) (timedelta_hours (-80000000))
     = Raised OverflowError.
Proof. repeat split; vm_compute; reflexivity. Qed.

(** C1, a counterexample to the sentence of the specification: in scenario B the stuck count is 2, the
    success count 1 and there are 4 interactions, and the state is [flow]. *)
Lemma C1_scenario_B_is_flow :
  let sessions := group_into_sessions scenario_B 30 in
  total_stuck_of sessions = 2
  /\ total_success_of sessions = 1
  /\ total_interactions_of sessions = 4
  /\ _calculate_objective_status sessions = "flow"
  /\ _calculate_objective_status sessions <> "stuck"
  /\ DA.status (calculate_developer_status (minutes 20) sessions "dev" "proj" 2)
     = "flow".
Proof. vm_compute. repeat split; try reflexivity. discriminate. Qed.

(** C1, the theorem at two stuck signals and no success signal. *)
Lemma C1_stuck_witness :
  1 < total_stuck_of (group_into_sessions scenario_stuck 30)
  /\ _calculate_objective_status (group_into_sessions scenario_stuck 30) = "stuck".
Proof.
  assert (1 < total_stuck_of (group_into_sessions scenario_stuck 30)) as H
    by (vm_compute; reflexivity).
  split; [exact H|].
  rewrite (C1_stuck_unless_flow_rule _ H). vm_compute. reflexivity.
Defined.

(** C2, the theorem at scenario A, whose threshold of 30 minutes is below
    [2 ^ 33] seconds. *)
Lemma C2_scenario_A_witness :
  Forall (fun i => CI.user_id i = "dev" /\ CI.project_id i = "proj") scenario_A
  /\ Permutation scenario_A
       (concat (map CS.interactions (group_into_sessions scenario_A 30)))
  /\ Forall (fun s => Forall (close_enough 30) (adjacent (CS.interactions s)))
            (group_into_sessions scenario_A 30)
  /\ Forall (far_apart 30) (adjacent (group_into_sessions scenario_A 30)).
Proof.
  assert (Forall (fun i => CI.user_id i = "dev" /\ CI.project_id i = "proj")
                 scenario_A) as H
    by (repeat constructor).
  assert (exact_threshold 30) as Hgap by (unfold exact_threshold; lia).
  destruct (C2_segmentation_is_a_partition_up_to_rounding scenario_A 30
              "dev" "proj" H)
    as (Hperm & _ & _ & _ & Hclose & Hapart & _).
  split; [exact H|]. split; [exact Hperm|].
  split; [exact (Hclose Hgap) | exact Hapart].
Defined.

(** C2, a counterexample to the sentence of the specification: with a
    threshold of 300000000 minutes, two records of one person that are one
    microsecond more than the threshold apart make one session: the float
    of 18000000000.000001 seconds is 18000000000.0. *)
Lemma C2_rounding_joins_records_beyond_the_threshold :
  Forall (fun i => CI.user_id i = "dev" /\ CI.project_id i = "proj")
         scenario_centuries_apart
  /\ map (fun s => map CI.id (CS.interactions s))
         (group_into_sessions scenario_centuries_apart 300000000)
     = [["a"; "b"]]
  /\ (total_seconds 18000000000000001%Z == 18000000000)%Q
  /\ gap_microseconds 300000000 < 18000000000000001 - 0
  /\ ~ Forall (fun s => Forall (close_enough 300000000)
                               (adjacent (CS.interactions s)))
              (group_into_sessions scenario_centuries_apart 300000000).
Proof.
  split; [repeat constructor|]. split; [vm_compute; reflexivity|].
  split; [vm_compute; reflexivity|]. split; [vm_compute; reflexivity|].
  intros Hclose.
  assert (group_into_sessions scenario_centuries_apart 300000000
          = [_create_session
               (CI.mk "a" "first question" "first answer" "dev" "proj" 0 0 0)
               [CI.mk "b" "second question" "second answer" "dev" "proj"
                      18000000000000001 18000000000000001 18000000000000001]
               "dev" "proj" 1]) as E
    by (vm_compute; reflexivity).
  rewrite E in Hclose. apply Forall_cons in Hclose as [Hpairs _].
  apply Forall_cons in Hpairs as [[_ Hpair] _].
  vm_compute in Hpair. now apply Hpair.
Qed.

(** C3, a counterexample to the sentence of the specification: one log without its author, or one with
    an unreadable timestamp, between two logs that parse makes the whole
    call raise. *)
Lemma C3_one_bad_log_aborts_the_batch :
  parse_chat_logs [good_log_1; log_without_author; good_log_2]
  = Raised (KeyError "user_id")
  /\ parse_chat_logs [good_log_1; log_with_bad_timestamp; good_log_2]
     = Raised ValueError
  /\ exists parsed, parse_chat_logs [good_log_1; good_log_2] = Returned parsed.
Proof.
  split; [vm_compute; reflexivity|]. split; [vm_compute; reflexivity|].
  eexists. vm_compute. reflexivity.
Qed.

(** C4, a counterexample to the sentence of the specification: one interaction whose text holds "works"
    twice has success rate 2. *)
Lemma C4_success_rate_above_one :
  let activity :=
    calculate_developer_status (minutes 10)
      (group_into_sessions scenario_works_twice 30) "dev" "proj" 2 in
  DA.iteration_count activity = 1
  /\ DA.success_rate activity = (2 # 1)%Q
  /\ ~ (DA.success_rate activity <= 1)%Q.
Proof.
  vm_compute. repeat split; try reflexivity. intros H. now apply H.
Qed.

(** C6, the theorem at scenario B read three hours later. *)
Lemma C6_idle_witness :
  Forall (fun s => ~ (CS.user_id s = "dev" /\ CS.project_id s = "proj"
                      /\ minutes 200 - timedelta_hours 2 < CS.end_time s))
         (group_into_sessions scenario_B 30)
  /\ Analyzer.calculate_developer_status (minutes 200)
       (group_into_sessions scenario_B 30) "dev" "proj" 2
     = Returned (DA.mk "dev" "proj" "No recent activity" "idle" datetime_min
                       0 [] [] 0 0%Q).
Proof.
  assert (Forall (fun s => ~ (CS.user_id s = "dev" /\ CS.project_id s = "proj"
                              /\ minutes 200 - timedelta_hours 2 < CS.end_time s))
                 (group_into_sessions scenario_B 30)) as H.
  { vm_compute group_into_sessions.
    repeat constructor. intros (_ & _ & Hlate). vm_compute in Hlate. discriminate. }
  pose proof (C6_no_recent_sessions_idle (minutes 200)
                (group_into_sessions scenario_B 30) "dev" "proj" 2 H) as Hidle.
  assert (cutoff (minutes 200) (timedelta_hours 2) = Returned (minutes 80)) as E
    by (vm_compute; reflexivity).
  rewrite E in Hidle. destruct Hidle as (activity & Hcall & _ & _ & _ & _ & _ & ->).
  split; [exact H | exact Hcall].
Defined.

(** C6, a counterexample to the sentence of the specification: with no
    session at all and a window of 20000000 hours, whose cutoff would lie
    before the year 1, the call at 2024-01-15T11:00:00Z raises
    [OverflowError]. *)
Lemma C6_empty_input_raises_at_a_distant_cutoff :
  recent_sessions_of (minutes 28421940) [] "dev" "proj" 20000000 = []
  /\ minutes 28421940 - timedelta_hours 20000000 < datetime_min
  /\ Analyzer.calculate_developer_status (minutes 28421940) [] "dev" "proj"
       20000000
     = Raised OverflowError.
Proof. repeat split; vm_compute; reflexivity. Qed.

(** C7, a counterexample to the sentence of the specification: the same records and configuration give
    the state [flow] at one clock reading and [idle] three hours later; a
    warning carries the clock reading; and two records with one timestamp
    stay in the order of the input, the greater id first. *)
Lemma C7_outputs_change_with_the_clock :
  DA.status (calculate_developer_status (minutes 20)
               (group_into_sessions scenario_B 30) "dev" "proj" 2) = "flow"
  /\ DA.status (calculate_developer_status (minutes 200)
                  (group_into_sessions scenario_B 30) "dev" "proj" 2) = "idle"
  /\ detect_team_collisions (minutes 20) (fun _ _ => minutes 20) scenario_C "proj" 2
     <> detect_team_collisions (minutes 21) (fun _ _ => minutes 21) scenario_C "proj" 2
  /\ map (fun s => map CI.id (CS.interactions s))
         (group_into_sessions scenario_tied 30)
     = [["b"; "a"]].
Proof.
  split; [vm_compute; reflexivity|]. split; [vm_compute; reflexivity|].
  split; [vm_compute; discriminate|]. vm_compute. reflexivity.
Qed.

(** C8, a counterexample to the sentence of the specification: with a threshold of 0 or -5 minutes
    scenario A is segmented, into four sessions, and with a window of 0
    hours the status and the collisions are computed. *)
Lemma C8_nonpositive_values_are_accepted :
  map (fun s => map CI.id (CS.interactions s)) (group_into_sessions scenario_A 0)
  = [["a"]; ["b"]; ["c"]; ["d"]]
  /\ map (fun s => map CI.id (CS.interactions s))
         (group_into_sessions scenario_A (-5))
     = [["a"]; ["b"]; ["c"]; ["d"]]
  /\ calculate_developer_status (minutes 60) (group_into_sessions scenario_A 30)
       "dev" "proj" 0
     = DA.mk "dev" "proj" "No recent activity" "idle" datetime_min 0 [] [] 0 0%Q
  /\ detect_team_collisions (minutes 60) (fun _ _ => minutes 60)
       (group_into_sessions scenario_A 30) "proj" 0
     = Returned [].
Proof. repeat split; vm_compute; reflexivity. Qed.

(** C9, a counterexample to the sentence of the specification: of the two problems of one session the
    older one is listed first and the newest last. *)
Lemma C9_newest_problem_is_listed_last :
  map CI.user_query scenario_two_problems
  = ["first error here"; "second bug here"]
  /\ DA.recent_problems
       (calculate_developer_status (minutes 10)
          (group_into_sessions scenario_two_problems 30) "dev" "proj" 2)
     = ["first error here"; "second bug here"].
Proof. split; vm_compute; reflexivity. Qed.

Example scenario_C_dashboard :
  match generate_team_dashboard_data sample_round (steady_clock (minutes 20))
          scenario_C "proj" with
  | Returned d =>
      Some (map ActivityDict.user_id (Dashboard.team_status d),
            map ActivityDict.status (Dashboard.team_status d),
            ProjectMetrics.total_interactions_24h (Dashboard.project_metrics d),
            ProjectMetrics.active_developers (Dashboard.project_metrics d),
            ProjectMetrics.files_being_worked_on (Dashboard.project_metrics d),
            map Collision.users (Dashboard.collisions d))
  | Raised _ => None
  end
  = Some (["ann"; "bob"], ["flow"; "flow"], 2, 2, 2, [["ann"; "bob"]]).
Proof. vm_compute. reflexivity. Qed.

(** Minute 28421940 is 2024-01-15T11:00:00Z, half an hour after the first
    sample log. *)
Example sample_logs_insights :
  match get_developer_insights sample_round (minutes 28421940) (minutes 28421940)
          "developer_1" "ecommerce_app" [good_log_1; good_log_2] 7 with
  | Returned r =>
      Some (Insights.total_sessions r, Insights.total_interactions r,
            DA.status (Insights.recent_activity r))
  | Raised _ => None
  end
  = Some (1, 2, "flow").
Proof. vm_compute. reflexivity. Qed.

(** The filter of the insights reads the timestamp of every log, also of
    a log of somebody else. *)
Example insights_read_every_timestamp :
  get_developer_insights sample_round (minutes 28421940) (minutes 28421940)
    "developer_1" "ecommerce_app" [good_log_1; log_with_bad_timestamp] 7
  = Raised ValueError.
Proof. vm_compute. reflexivity. Qed.

(** X15, on scenario C with a clock that stands still. *)
Lemma X15_scenario_C_witness :
  statuses_read_within 22 (steady_clock (minutes 20))
  /\ exists d,
       generate_team_dashboard_data sample_round (steady_clock (minutes 20))
         scenario_C "proj" = Returned d
       /\ PyList.sum (map ActivityDict.iteration_count (Dashboard.team_status d))
          <= ProjectMetrics.total_interactions_24h (Dashboard.project_metrics d).
Proof.
  assert (statuses_read_within 22 (steady_clock (minutes 20))) as H
    by (intros u; vm_compute; discriminate).
  split; [exact H|].
  exact (X15_team_interactions_are_of_the_last_day sample_round
           (steady_clock (minutes 20)) scenario_C "proj" H).
Defined.

(** X16, on scenario C with a clock that stands still. *)
Lemma X16_scenario_C_witness :
  statuses_read_first (steady_clock (minutes 20))
  /\ exists d,
       generate_team_dashboard_data sample_round (steady_clock (minutes 20))
         scenario_C "proj" = Returned d
       /\ (forall w u, w ∈ Dashboard.collisions d -> u ∈ Collision.users w ->
             exists a, a ∈ Dashboard.team_status d
                       /\ ActivityDict.user_id a = u
                       /\ ActivityDict.status a <> "idle")
       /\ (Dashboard.collisions d <> [] ->
           2 <= ProjectMetrics.active_developers (Dashboard.project_metrics d)).
Proof.
  assert (statuses_read_first (steady_clock (minutes 20))) as H
    by (intros u; vm_compute; discriminate).
  split; [exact H|].
  exact (X16_warned_people_are_active sample_round
           (steady_clock (minutes 20)) scenario_C "proj" H).
Defined.



(** X26, on the two sample logs of one person. *)
Lemma X26_sample_logs_witness :
  exists r,
    filter_each (Service.is_user_log "developer_1") [good_log_1; good_log_2]
    = Returned [good_log_1; good_log_2]
    /\ get_developer_insights sample_round (minutes 28421940) (minutes 28421940)
         "developer_1" "ecommerce_app" [good_log_1; good_log_2] 7
       = Returned r
    /\ Service.get_developer_insights sample_round (minutes 28421940)
         (minutes 28421940) [good_log_1; good_log_2] "developer_1"
         "ecommerce_app" 7
       = Returned (inr r).
Proof.
  eexists.
  assert (Service.is_user_log "developer_1" good_log_1 = Returned true) as H1
    by (vm_compute; reflexivity).
  assert (Service.is_user_log "developer_1" good_log_2 = Returned true) as H2
    by (vm_compute; reflexivity).
  assert (filter_each (Service.is_user_log "developer_1") [good_log_1; good_log_2]
          = Returned [good_log_1; good_log_2]) as Huser
    by (cbn [filter_each]; rewrite H1, H2; reflexivity).
  split; [exact Huser|].
  match goal with
  | |- ?call = Returned ?r /\ _ =>
      assert (call = Returned r) as Hapi by (vm_compute; reflexivity)
  end.
  split; [exact Hapi|].
  destruct (X26_service_insights_are_the_insights_of_the_api sample_round
              _ _ _ _ _ _ _ _ Huser Hapi) as [[_ H]|[Habs _]];
    [exact H | discriminate Habs].
Defined.
